(** * Ride-Share services: request validation and orchestration

    A shallow embedding of the Users and Rides services
    ([Final_Project/Users], [Final_Project/Rides]) and of the parts of
    Python, [re], [datetime] and Flask their behaviour depends on.

    Conventions.
    - A Python [str] is a [string]; its characters are the 256 code points
      of [ascii] (Latin-1).  In that range [\d] is [0-9].
    - A decoded JSON value is a [json]; numbers are the integers.
    - Python exceptions are values of [exn]; a computation that may raise
      returns a [result].
    - Handlers run in the monad [M]: they read the outcomes of outbound
      HTTP calls from an environment, update the process-wide counters and
      log every outbound call they make in a trace. *)

From Stdlib Require Import ZArith String Ascii List Bool Lia.
From stdpp Require Import base option list gmap strings pretty.

Set Warnings "-register-all".
Set Default Proof Using "Type".

(* ================================================================== *)
(** * Python strings *)

Module PyStr.

Definition code (c : ascii) : N := N_of_ascii c.

Definition in_range (lo hi c : ascii) : bool :=
  ((code lo <=? code c) && (code c <=? code hi))%N.

Definition is_digit (c : ascii) : bool := in_range "0" "9" c.

(** [str.isspace] on one character: TAB..CR, FS..US, SPACE, NEL, NBSP. *)
Definition is_space (c : ascii) : bool :=
  ((9 <=? code c) && (code c <=? 13) || (28 <=? code c) && (code c <=? 32)
   || (code c =? 133) || (code c =? 160))%N.

Fixpoint lstrip (s : string) : string :=
  match s with
  | String c t => if is_space c then lstrip t else s
  | EmptyString => EmptyString
  end.

Fixpoint rstrip (s : string) : string :=
  match s with
  | String c t =>
      match rstrip t with
      | EmptyString => if is_space c then EmptyString else String c EmptyString
      | t' => String c t'
      end
  | EmptyString => EmptyString
  end.

(** [s.strip()] *)
Definition strip (s : string) : string := rstrip (lstrip s).

Fixpoint drop (n : nat) (s : string) : string :=
  match n, s with
  | S n', String _ t => drop n' t
  | _, _ => s
  end.

(** [sub in s] for two strings *)
Fixpoint contains (sub s : string) : bool :=
  String.prefix sub s ||
  match s with
  | String _ t => contains sub t
  | EmptyString => false
  end.

Fixpoint all (p : ascii -> bool) (s : string) : bool :=
  match s with
  | String c t => p c && all p t
  | EmptyString => true
  end.

Definition digit_val (c : ascii) : Z := Z.of_N (code c) - 48.

(** value of a run of decimal digits, most significant first *)
Fixpoint digits_val (acc : Z) (s : string) : Z :=
  match s with
  | String c t => digits_val (10 * acc + digit_val c) t
  | EmptyString => acc
  end.

(** [int(s)] on the digits-and-underscores part: groups of digits
    separated by single underscores. *)
Fixpoint int_digits (prev_digit : bool) (acc : Z) (s : string) : option Z :=
  match s with
  | EmptyString => if prev_digit then Some acc else None
  | String c t =>
      if is_digit c then int_digits true (10 * acc + digit_val c) t
      else if Ascii.eqb c "_" then
             if prev_digit then int_digits false acc t else None
           else None
  end.

(** [int(s)] for a string [s]: surrounding whitespace, an optional sign,
    decimal digits.  [None] stands for the [ValueError]. *)
Definition int_of_str (s : string) : option Z :=
  match strip s with
  | String "-" t => Z.opp <$> int_digits false 0 t
  | String "+" t => int_digits false 0 t
  | t => int_digits false 0 t
  end.

End PyStr.

(* ================================================================== *)
(** * Python regular expressions (the fragment the services use)

    A backtracking matcher with the priorities of [re]: alternatives are
    tried left to right, repetitions are greedy.  No flag is set, so [^]
    matches at position 0 only and [$] matches at the end of the string
    and just before a newline that ends the string. *)

Module Re.

Inductive citem :=
| One (c : ascii)
| Range (lo hi : ascii).

Inductive regex :=
| Chr (c : ascii)                               (* a literal character *)
| Set_ (items : list citem)                     (* [...] *)
| Digit                                         (* \d *)
| Bol                                           (* ^ *)
| Eol                                           (* $ *)
| Cat (r1 r2 : regex)
| Alt (r1 r2 : regex)                           (* r1|r2 *)
| Rep (r : regex) (lo : nat) (hi : option nat)  (* r{lo,hi}; r+ is r{1,} *)
| Group (name : string) (r : regex).            (* (?P<name>r) *)

Definition in_item (c : ascii) (i : citem) : bool :=
  match i with
  | One a => Ascii.eqb a c
  | Range lo hi => PyStr.in_range lo hi c
  end.

Definition in_set (items : list citem) (c : ascii) : bool :=
  existsb (in_item c) items.

Record cursor := Cursor { pos : nat; rest : string }.

Definition captures := list (string * string).
Definition outcome := option (cursor * captures).
Definition cont := cursor -> captures -> outcome.
Definition matcher := cursor -> captures -> cont -> outcome.

Definition step (p : ascii -> bool) : matcher := fun c g k =>
  match rest c with
  | String a t => if p a then k (Cursor (S (pos c)) t) g else None
  | EmptyString => None
  end.

Fixpoint exactly (m : matcher) (n : nat) : matcher := fun c g k =>
  match n with
  | O => k c g
  | S n' => m c g (fun c' g' => exactly m n' c' g' k)
  end.

(** at most [n] further iterations, as many as possible first; an
    iteration that consumes nothing ends the loop *)
Fixpoint greedy (m : matcher) (n : nat) : matcher := fun c g k =>
  match n with
  | O => k c g
  | S n' =>
      match m c g (fun c' g' =>
                     if (pos c <? pos c')%nat then greedy m n' c' g' k else None) with
      | Some r => Some r
      | None => k c g
      end
  end.

Definition at_eol (s : string) : bool :=
  match s with
  | EmptyString => true
  | String "010" EmptyString => true
  | _ => false
  end.

Fixpoint run (r : regex) : matcher := fun c g k =>
  match r with
  | Chr a => step (Ascii.eqb a) c g k
  | Set_ items => step (in_set items) c g k
  | Digit => step PyStr.is_digit c g k
  | Bol => if (pos c =? 0)%nat then k c g else None
  | Eol => if at_eol (rest c) then k c g else None
  | Cat r1 r2 => run r1 c g (fun c' g' => run r2 c' g' k)
  | Alt r1 r2 =>
      match run r1 c g k with
      | Some x => Some x
      | None => run r2 c g k
      end
  | Rep r lo hi =>
      exactly (run r) lo c g (fun c' g' =>
        let more := match hi with
                    | Some h => h - lo
                    | None => String.length (rest c')
                    end in
        greedy (run r) more c' g' k)
  | Group n r =>
      run r c g (fun c' g' =>
        k c' ((n, substring 0 (pos c' - pos c) (rest c)) :: g'))
  end.

Definition accept : cont := fun c g => Some (c, g).

Definition run_at (r : regex) (i : nat) (s : string) : outcome :=
  run r (Cursor i (PyStr.drop i s)) [] accept.

(** [re.compile(r).match(s)]: [None] is Python's [None] *)
Definition match_ (r : regex) (s : string) : outcome := run_at r 0 s.

Fixpoint search_from (r : regex) (s : string) (i fuel : nat) : outcome :=
  match run_at r i s with
  | Some x => Some x
  | None =>
      match fuel with
      | O => None
      | S fuel' => search_from r s (S i) fuel'
      end
  end.

(** [re.compile(r).search(s)]: every start position from 0 to [len(s)] *)
Definition search (r : regex) (s : string) : outcome :=
  search_from r s 0 (String.length s).

(** [m.end()] and [m.group(name)] of a match object *)
Definition end_ (m : cursor * captures) : nat := pos (fst m).

Definition group (name : string) (m : cursor * captures) : string :=
  match List.find (fun p => String.eqb (fst p) name) (snd m) with
  | Some p => snd p
  | None => EmptyString
  end.

End Re.

Declare Scope regex_scope.
Delimit Scope regex_scope with re.
Bind Scope regex_scope with Re.regex.
Notation "r1 >> r2" := (Re.Cat r1 r2) (at level 41, right associativity) : regex_scope.
Notation "r1 || r2" := (Re.Alt r1 r2) : regex_scope.

(* ================================================================== *)
(** * Decoded JSON values and Python operations on them *)

Inductive json :=
| JNull                               (* None *)
| JBool (b : bool)
| JNum (z : Z)
| JStr (s : string)
| JArr (l : list json)
| JObj (m : gmap string json).        (* dict *)

(** Python truthiness, as tested by [if not v] *)
Definition truthy (v : json) : bool :=
  match v with
  | JNull => false
  | JBool b => b
  | JNum z => negb (z =? 0)%Z
  | JStr s => negb (String.eqb s EmptyString)
  | JArr l => match l with [] => false | _ => true end
  | JObj m => negb (bool_decide (m = ∅))
  end.

(** text produced by an f-string: literal parts and [str()] of values.
    The text of [str(v)] for a value that is not a string (a number, a
    list, a dict) is left to the renderer. *)
Inductive text :=
| TLit (s : string)
| TVal (v : json)
| TCat (a b : text).

Fixpoint render (repr : json -> string) (t : text) : string :=
  match t with
  | TLit s => s
  | TVal (JStr s) => s
  | TVal v => repr v
  | TCat a b => render repr a +:+ render repr b
  end.

(** [sub in t], whatever non-string values render to *)
Definition text_contains (sub : string) (t : text) : Prop :=
  forall repr, PyStr.contains sub (render repr t) = true.

Coercion TLit : string >-> text.
Infix "+++" := TCat (at level 60, right associativity).

(* ================================================================== *)
(** * Exceptions *)

Inductive exc_class :=
| C_Exception
| C_ServiceException          (* UserServiceException / RideServiceException *)
| C_ValidationError
| C_HTTPException             (* werkzeug *)
| C_BadRequest
| C_NotFound
| C_MethodNotAllowed
| C_InternalServerError
| C_TypeError
| C_ValueError
| C_OverflowError
| C_JSONDecodeError
| C_RequestException.         (* requests: timeout, connection failure *)

#[global] Instance exc_class_eq_dec : EqDecision exc_class.
Proof. solve_decision. Defined.

(** method resolution order, [BaseException] and [object] left out *)
Definition mro (c : exc_class) : list exc_class :=
  match c with
  | C_Exception => [C_Exception]
  | C_ServiceException => [C_ServiceException; C_Exception]
  | C_ValidationError => [C_ValidationError; C_ServiceException; C_Exception]
  | C_HTTPException => [C_HTTPException; C_Exception]
  | C_BadRequest => [C_BadRequest; C_HTTPException; C_Exception]
  | C_NotFound => [C_NotFound; C_HTTPException; C_Exception]
  | C_MethodNotAllowed => [C_MethodNotAllowed; C_HTTPException; C_Exception]
  | C_InternalServerError => [C_InternalServerError; C_HTTPException; C_Exception]
  | C_TypeError => [C_TypeError; C_Exception]
  | C_ValueError => [C_ValueError; C_Exception]
  | C_OverflowError => [C_OverflowError; C_Exception]
  | C_JSONDecodeError => [C_JSONDecodeError; C_ValueError; C_Exception]
  | C_RequestException => [C_RequestException; C_Exception]
  end.

(** [code] attribute of the werkzeug classes *)
Definition http_code (c : exc_class) : option Z :=
  match c with
  | C_BadRequest => Some 400%Z
  | C_NotFound => Some 404%Z
  | C_MethodNotAllowed => Some 405%Z
  | C_InternalServerError => Some 500%Z
  | _ => None
  end.

Record exn := Exn { exn_class : exc_class; exn_msg : text }.

Definition ValidationError (msg : text) : exn := Exn C_ValidationError msg.
Definition BadRequest (description : text) : exn := Exn C_BadRequest description.
Definition NotFound (description : text) : exn := Exn C_NotFound description.
Definition InternalServerError (description : text) : exn :=
  Exn C_InternalServerError description.
Definition TypeError : exn := Exn C_TypeError EmptyString.
Definition ValueError : exn := Exn C_ValueError EmptyString.
Definition JSONDecodeError : exn := Exn C_JSONDecodeError EmptyString.
Definition RequestException : exn := Exn C_RequestException EmptyString.

Definition isinstance (e : exn) (c : exc_class) : bool :=
  bool_decide (c ∈ mro (exn_class e)).

(** [str(e)]: the message, or werkzeug's "code name: description" *)
Definition str_exn (e : exn) : text :=
  match exn_class e with
  | C_BadRequest => "400 Bad Request: " +++ exn_msg e
  | C_NotFound => "404 Not Found: " +++ exn_msg e
  | C_MethodNotAllowed => "405 Method Not Allowed: " +++ exn_msg e
  | C_InternalServerError => "500 Internal Server Error: " +++ exn_msg e
  | _ => exn_msg e
  end.

Inductive result (A : Type) :=
| Ok (a : A)
| Raise (e : exn).
Arguments Ok {A} a.
Arguments Raise {A} e.

Definition rbind {A B} (r : result A) (f : A -> result B) : result B :=
  match r with
  | Ok a => f a
  | Raise e => Raise e
  end.

Definition is_ok {A} (r : result A) : bool :=
  match r with Ok _ => true | Raise _ => false end.

(** [key in v] and [v[key]] for a string key *)
Definition py_in (key : string) (v : json) : result bool :=
  match v with
  | JObj m => Ok (bool_decide (is_Some (m !! key)))
  | JArr l => Ok (existsb (fun x => match x with
                                    | JStr s => String.eqb s key
                                    | _ => false
                                    end) l)
  | JStr s => Ok (PyStr.contains key s)
  | _ => Raise TypeError
  end.

Definition py_getitem (v : json) (key : string) : result json :=
  match v with
  | JObj m => match m !! key with
              | Some x => Ok x
              | None => Raise (Exn C_Exception "KeyError")
              end
  | _ => Raise TypeError
  end.

Definition py_len (v : json) : result Z :=
  match v with
  | JStr s => Ok (Z.of_nat (String.length s))
  | JArr l => Ok (Z.of_nat (length l))
  | JObj m => Ok (Z.of_nat (size m))
  | _ => Raise TypeError
  end.

(* ================================================================== *)
(** * Patterns of the validators *)

Module Patterns.
Import Re.

Definition word : list citem := [Range "a" "z"; Range "A" "Z"; Range "0" "9"; One "_"].
Definition hex : list citem := [Range "a" "f"; Range "A" "F"; Range "0" "9"].

(** [r'^[a-zA-Z0-9_]+$'] *)
Definition username_re : regex := (Bol >> Rep (Set_ word) 1 None >> Eol)%re.

(** ["^[a-fA-F0-9]{40}$"] *)
Definition sha1_re : regex := (Bol >> Rep (Set_ hex) 40 (Some 40) >> Eol)%re.

(** [r'^\d{2}-\d{2}-\d{4}:\d{2}-\d{2}-\d{2}$'] *)
Definition timestamp_pattern : regex :=
  (Bol >> Rep Digit 2 (Some 2) >> Chr "-" >> Rep Digit 2 (Some 2) >> Chr "-"
       >> Rep Digit 4 (Some 4) >> Chr ":" >> Rep Digit 2 (Some 2) >> Chr "-"
       >> Rep Digit 2 (Some 2) >> Chr "-" >> Rep Digit 2 (Some 2) >> Eol)%re.

End Patterns.

(* ================================================================== *)
(** * [utils/validators.py] (the part both services share) *)

Module Validators.

(** [validate_username], the same text in [Users/utils/validators.py]
    and [Rides/utils/validators.py] *)
Definition validate_username (username : json) : result string :=
  if negb (truthy username) then
    Raise (ValidationError "Username is required")
  else match username with
  | JStr s =>
      if (String.length (PyStr.strip s) =? 0)%nat then
        Raise (ValidationError "Username cannot be empty")
      else if (50 <? String.length s)%nat then
        Raise (ValidationError "Username too long (max 50 characters)")
      else match Re.match_ Patterns.username_re s with
      | None =>
          Raise (ValidationError
                   "Username can only contain letters, numbers, and underscores")
      | Some _ => Ok (PyStr.strip s)
      end
  | _ => Raise (ValidationError "Username must be a string")
  end.

(** [validate_password] of [Users/utils/validators.py] *)
Definition validate_password (password : json) : result string :=
  if negb (truthy password) then
    Raise (ValidationError "Password is required")
  else match password with
  | JStr s =>
      match Re.match_ Patterns.sha1_re s with
      | None =>
          Raise (ValidationError
                   "Password must be a valid SHA1 hash (40 hexadecimal characters)")
      | Some _ => Ok s
      end
  | _ => Raise (ValidationError "Password must be a string")
  end.

End Validators.

(* ================================================================== *)
(** * [Users/user_requests.py] *)

Module UserRequests.
Import Validators.

(** the dataclass [CreateUserRequest], once validated *)
Record CreateUserRequest := { username : string; password : string }.

(** [__post_init__] / [validate] applied to the two constructor arguments *)
Definition validate (username_arg password_arg : json) : result CreateUserRequest :=
  match rbind (validate_username username_arg) (fun u =>
        rbind (validate_password password_arg) (fun p =>
        Ok {| username := u; password := p |})) with
  | Ok r => Ok r
  | Raise e =>
      if isinstance e C_ValidationError then
        Raise (ValidationError ("Invalid user data: " +++ str_exn e))
      else Raise e
  end.

Definition required_fields : list string := ["username"; "password"].

Fixpoint join (sep : string) (l : list string) : string :=
  match l with
  | [] => EmptyString
  | [x] => x
  | x :: t => x +:+ sep +:+ join sep t
  end.

Definition from_dict (data : json) : result CreateUserRequest :=
  match data with
  | JObj d =>
      let missing_fields :=
        filter (fun field => d !! field = None) required_fields in
      match missing_fields with
      | _ :: _ =>
          Raise (ValidationError
                   ("Missing required fields: " +:+ join ", " missing_fields))
      | [] =>
          match d !! "username", d !! "password" with
          | Some u, Some p => validate u p
          | _, _ => Raise (Exn C_Exception "KeyError")
          end
      end
  | _ => Raise (ValidationError "Request data must be a dictionary")
  end.

Definition to_dict (r : CreateUserRequest) : gmap string json :=
  {[ "username" := JStr (username r); "password" := JStr (password r) ]}.

(** ** Legacy class [CreateUserRequests] *)

Record CreateUserRequests := { _username : json; _password : json }.

Definition getUsername (r : CreateUserRequests) : json := _username r.
Definition getPassword (r : CreateUserRequests) : json := _password r.

Definition validatePassword (password : json) : result json :=
  match password with
  | JStr s =>
      match Re.search Patterns.sha1_re s with
      | None => Raise (BadRequest "Password is not in SHA1 format")
      | Some _ => Ok password
      end
  | _ => Raise TypeError   (* [search] on a value that is not a string *)
  end.

(** [CreateUserRequests.__init__] *)
Definition CreateUserRequests_init (json_data : json) : result CreateUserRequests :=
  rbind (py_in "username" json_data) (fun has_u =>
  if negb has_u then Raise (BadRequest "Username not passed in the request") else
  rbind (py_in "password" json_data) (fun has_p =>
  if negb has_p then Raise (BadRequest "Password not passed in the request") else
  rbind (py_getitem json_data "username") (fun u =>
  rbind (py_getitem json_data "password") (fun p0 =>
  rbind (validatePassword p0) (fun p =>
  Ok {| _username := u; _password := p |}))))).

End UserRequests.

(* ================================================================== *)
(** * Requests, responses, process state and the handler monad *)

Inductive http_method := GET | POST | PUT | DELETE.

#[global] Instance http_method_eq_dec : EqDecision http_method.
Proof. solve_decision. Defined.

(** [{"data"?: ..., "message"?: ...}], [{"error": {...}}], or the page
    werkzeug renders for an HTTP exception nobody handles *)
Inductive payload :=
| Success (data : option json) (message : option string)
| Failure (message : text) (status_code : Z)
| DefaultPage.

Record response := Response { status : Z; body : payload }.

(** what is sent on the wire: werkzeug drops the body of a 204 or 304 *)
Definition wire_body (r : response) : option payload :=
  if bool_decide (status r = 204%Z \/ status r = 304%Z) then None else Some (body r).

(** [create_response] of [Rides/utils/response_helpers.py]; [JNull] is
    [data=None] and the empty string is [message=None]. *)
Definition create_response (data : json) (message : string) (status_code : Z) : response :=
  Response status_code
    (Success (match data with JNull => None | _ => Some data end)
             (if String.eqb message EmptyString then None else Some message)).

(** [create_error_response], called with a message and a status only *)
Definition create_error_response (message : text) (status_code : Z) : response :=
  Response status_code (Failure message status_code).

Record ServiceMetrics := {
  total_requests : Z;
  successful_requests : Z;
  failed_requests : Z
}.

(** outbound HTTP calls, with the JSON body sent *)
Inductive ext_call :=
| DbRead (body : json)       (* POST {DATABASE_URL}/api/v1/db/read *)
| DbWrite (body : json)      (* POST {DATABASE_URL}/api/v1/db/write *)
| UsersGet (body : json).    (* GET {USER_SERVICE_URL}/api/v1/users *)

(** what comes back: a reply with its status, raw text and the text
    decoded as JSON ([None] when it is not JSON), or no reply within the
    timeout, which [requests] reports by raising *)
Inductive ext_outcome :=
| Reply (status_code : Z) (text : string) (js : option json)
| NoReply.

(** the world outside the process: what each outbound call meets, and
    the [VERSION] environment variable read by [Config] *)
Record env := { outbound : ext_call -> ext_outcome; VERSION : string }.

(** the module globals [http_request_counter] and [metrics], and the log
    of outbound calls made so far *)
Record world := {
  http_request_counter : Z;
  metrics : ServiceMetrics;
  calls : list ext_call
}.

Definition M (A : Type) : Type := env -> world -> result A * world.

Definition ret {A} (a : A) : M A := fun _ w => (Ok a, w).
Definition raise {A} (e : exn) : M A := fun _ w => (Raise e, w).
Definition bind {A B} (m : M A) (f : A -> M B) : M B := fun E w =>
  match m E w with
  | (Ok a, w') => f a E w'
  | (Raise e, w') => (Raise e, w')
  end.
Definition lift {A} (r : result A) : M A := fun _ w => (r, w).

(** [try: m  except ... as e: h e]; the state changes made before the
    exception stay *)
Definition try_except {A} (m : M A) (h : exn -> M A) : M A := fun E w =>
  match m E w with
  | (Ok a, w') => (Ok a, w')
  | (Raise e, w') => h e E w'
  end.

Notation "'let*' x := m 'in' k" := (bind m (fun x => k))
  (at level 10, x name, m at level 100, k at level 200).
Notation "m ;;; k" := (bind m (fun _ => k))
  (at level 100, k at level 200, right associativity).

Definition when (b : bool) (m : M unit) : M unit := if b then m else ret tt.

Definition set_metrics (f : ServiceMetrics -> ServiceMetrics) : M unit := fun _ w =>
  (Ok tt, {| http_request_counter := http_request_counter w;
             metrics := f (metrics w);
             calls := calls w |}).

(** [metrics.total_requests += 1] and its two siblings *)
Definition incr_total : M unit :=
  set_metrics (fun m => {| total_requests := total_requests m + 1;
                           successful_requests := successful_requests m;
                           failed_requests := failed_requests m |}).
Definition incr_successful : M unit :=
  set_metrics (fun m => {| total_requests := total_requests m;
                           successful_requests := successful_requests m + 1;
                           failed_requests := failed_requests m |}).
Definition incr_failed : M unit :=
  set_metrics (fun m => {| total_requests := total_requests m;
                           successful_requests := successful_requests m;
                           failed_requests := failed_requests m + 1 |}).

Definition set_counter (f : Z -> Z) : M unit := fun _ w =>
  (Ok tt, {| http_request_counter := f (http_request_counter w);
             metrics := metrics w;
             calls := calls w |}).

Definition get_counter : M Z := fun _ w => (Ok (http_request_counter w), w).
Definition get_metrics_ : M ServiceMetrics := fun _ w => (Ok (metrics w), w).

(** the reply object [requests] returns *)
Record reply := { status_code : Z; text_ : string; json_ : option json }.

(** [requests.post(url, json=body, timeout=...)] / [requests.get(...)] *)
Definition request_ (c : ext_call) : M reply := fun E w =>
  let w' := {| http_request_counter := http_request_counter w;
               metrics := metrics w;
               calls := calls w ++ [c] |} in
  match outbound E c with
  | Reply st tx js => (Ok {| status_code := st; text_ := tx; json_ := js |}, w')
  | NoReply => (Raise RequestException, w')
  end.

(** [response.json()] *)
Definition json_of (r : reply) : M json :=
  match json_ r with
  | Some v => ret v
  | None => raise JSONDecodeError
  end.

(** an inbound request, as Flask presents it *)
Record request (target : Type) := {
  method : http_method;
  path : target;                 (* the URL path, parsed against the URL map *)
  mimetype : string;             (* Content-Type, lower case, parameters dropped *)
  json_body : option json;       (* the body decoded as JSON; [None] when it is not JSON *)
  args : gmap string string      (* the query string *)
}.
Arguments method {target} _.
Arguments path {target} _.
Arguments mimetype {target} _.
Arguments json_body {target} _.
Arguments args {target} _.

Fixpoint ends_with (suffix s : string) : bool :=
  String.eqb suffix s ||
  match s with
  | String _ t => ends_with suffix t
  | EmptyString => false
  end.

(** werkzeug's [request.is_json] *)
Definition is_json {T} (req : request T) : bool :=
  String.eqb (mimetype req) "application/json"
  || String.prefix "application/" (mimetype req) && ends_with "+json" (mimetype req).

(** [request.get_json()], reached only when [is_json] holds *)
Definition get_json {T} (req : request T) : M json :=
  match json_body req with
  | Some v => ret v
  | None => raise (BadRequest "Failed to decode JSON object")
  end.

(** [validate_json_content_type] of [utils/validators.py] *)
Definition validate_json_content_type {T} (req : request T) : M unit :=
  when (negb (is_json req)) (raise (ValidationError "Content-Type must be application/json")).

(** ** Flask's error handler lookup

    [errorhandler(C)] files a handler under the HTTP code of [C] when [C]
    is a werkzeug exception and under no code otherwise;
    [_find_error_handler] looks under the code of the raised exception,
    then under no code, walking the class's MRO each time. *)
Definition handler_spec := option Z -> exc_class -> option (exn -> M response).

Definition find_in_mro (spec : exc_class -> option (exn -> M response))
    (cs : list exc_class) : option (exn -> M response) :=
  list_find (fun c => is_Some (spec c)) cs ≫= (fun p => spec (snd p)).

Definition find_error_handler (spec : handler_spec) (e : exn)
    : option (exn -> M response) :=
  let cls := exn_class e in
  match http_code cls with
  | Some code =>
      match find_in_mro (spec (Some code)) (mro cls) with
      | Some h => Some h
      | None => find_in_mro (spec None) (mro cls)
      end
  | None => find_in_mro (spec None) (mro cls)
  end.

(** [handle_user_exception]: the registered handler, else werkzeug's own
    page for an HTTP exception and a bare 500 for anything else *)
Definition handle_user_exception (spec : handler_spec) (e : exn) : M response :=
  match find_error_handler spec e with
  | Some h => h e
  | None => ret (Response (default 500%Z (http_code (exn_class e))) DefaultPage)
  end.

(** [full_dispatch_request]: the [before_request] function, then the view
    the URL map selects; whatever either raises goes to the error
    handlers.  The [after_request] function only logs. *)
Definition full_dispatch_request {T} (spec : handler_spec)
    (before_request : request T -> M unit)
    (dispatch_request : request T -> M response) (req : request T) : M response :=
  try_except (before_request req ;;; dispatch_request req)
             (handle_user_exception spec).

(** a computation that ends with a value from every state *)
Definition never_raises {A} (m : M A) : Prop :=
  forall E w, exists a w', m E w = (Ok a, w').

(* ================================================================== *)
(** * [Users/main_user.py] *)

Module Users.
Import UserRequests.

(** the URL map: the rule a request path matches *)
Inductive target :=
| UsersPath                      (* /api/v1/users *)
| UserPath (username : string)   (* /api/v1/users/<username> *)
| CountPath                      (* /api/v1/_count *)
| HealthPath                     (* /health *)
| MetricsPath                    (* /metrics *)
| RootPath                       (* / *)
| NoRule.                        (* any other path *)

(** Modelled from the spec: [Users/utils/response_helpers.py] is not
    among the sources; section 4.2 gives both services one response
    formatter, the one [Rides/utils/response_helpers.py] implements. *)
Definition create_response := create_response.

(** Modelled from the spec: the error envelope of section 4.2, as in
    [Rides/utils/response_helpers.py]. *)
Definition create_error_response := create_error_response.

Definition before_request_handler (req : request target) : M unit :=
  set_counter (fun c => c + 1)%Z ;;;
  when (bool_decide (method req ∈ [PUT; POST])) (validate_json_content_type req).

Definition handle_exceptions (error : exn) : M response :=
  ret (create_error_response "Internal server error" 500).

Definition handle_bad_request (error : exn) : M response :=
  ret (create_error_response (str_exn error) 400).

(** [@app.errorhandler(Exception)] and [@app.errorhandler(BadRequest)] *)
Definition error_handler_spec : handler_spec := fun code cls =>
  match code, cls with
  | None, C_Exception => Some handle_exceptions
  | Some 400%Z, C_BadRequest => Some handle_bad_request
  | _, _ => None
  end.

(** the two bodies [add_user] sends *)
Definition check_user_body (username : json) : gmap string json :=
  {[ "action" := JStr "get_user"; "username" := username ]}.

Definition create_user_body (user_request : CreateUserRequests) : gmap string json :=
  {[ "action" := JStr "add_user";
     "username" := getUsername user_request;
     "password" := getPassword user_request ]}.

Definition add_user (req : request target) : M response :=
  try_except
    (incr_total ;;;
     when (negb (is_json req))
          (raise (ValidationError "Content-Type must be application/json")) ;;;
     let* body := get_json req in
     when (negb (truthy body)) (raise (ValidationError "Request body is required")) ;;;
     let* user_request := lift (CreateUserRequests_init body) in
     let* response :=
       request_ (DbRead (JObj (check_user_body (getUsername user_request)))) in
     when (status_code response =? 200)%Z
          (raise (ValidationError
                    ("User " +++ TVal (getUsername user_request) +++ " already exists"))) ;;;
     let* response := request_ (DbWrite (JObj (create_user_body user_request))) in
     when (negb (status_code response =? 200)%Z)
          (raise (InternalServerError "Failed to create user")) ;;;
     incr_successful ;;;
     ret (create_response JNull "User created successfully" 201))
    (fun e =>
       if isinstance e C_ValidationError || isinstance e C_BadRequest then
         incr_failed ;;; ret (create_error_response (str_exn e) 400)
       else
         incr_failed ;;; ret (create_error_response "Internal server error" 500)).

Definition delete_user (username : string) : M response :=
  try_except
    (incr_total ;;;
     when (String.eqb username EmptyString) (raise (ValidationError "Username is required")) ;;;
     let* response := request_ (DbRead (JObj (check_user_body (JStr username)))) in
     when (negb (status_code response =? 200)%Z)
          (raise (NotFound ("User " +++ TVal (JStr username) +++ " not found"))) ;;;
     let delete_user_body : gmap string json :=
       {[ "action" := JStr "delete_user"; "username" := JStr username ]} in
     let* response := request_ (DbWrite (JObj delete_user_body)) in
     when (negb (status_code response =? 200)%Z)
          (raise (InternalServerError "Failed to delete user")) ;;;
     incr_successful ;;;
     ret (create_response JNull "User deleted successfully" 200))
    (fun e =>
       if isinstance e C_ValidationError || isinstance e C_NotFound then
         incr_failed ;;; ret (create_error_response (str_exn e) 400)
       else
         incr_failed ;;; ret (create_error_response "Internal server error" 500)).

Definition list_users_body : gmap string json := {[ "action" := JStr "list_users" ]}.

Definition list_users : M response :=
  try_except
    (incr_total ;;;
     let* response := request_ (DbRead (JObj list_users_body)) in
     when (negb (status_code response =? 200)%Z)
          (raise (InternalServerError "Failed to retrieve users")) ;;;
     let* users := json_of response in
     incr_successful ;;;
     let* _ := lift (py_len users) in      (* the log line takes [len(users)] *)
     ret (create_response users EmptyString 200))
    (fun e =>
       incr_failed ;;; ret (create_error_response "Internal server error" 500)).

Definition get_request_count : M response :=
  let* http_request_counter := get_counter in
  ret (create_response (JArr [JNum http_request_counter]) EmptyString 200).

Definition reset_request_count : M response :=
  set_counter (fun _ => 0%Z) ;;;
  ret (create_response JNull "Request counter reset successfully" 200).

Definition health_check : M response := fun E =>
  ret (create_response
         (JObj {[ "status" := JStr "healthy";
                  "service" := JStr "user-service";
                  "version" := JStr (VERSION E) ]}) EmptyString 200) E.

Definition get_metrics : M response :=
  let* metrics := get_metrics_ in
  let* http_request_counter := get_counter in
  ret (create_response
         (JObj {[ "total_requests" := JNum (total_requests metrics);
                  "successful_requests" := JNum (successful_requests metrics);
                  "failed_requests" := JNum (failed_requests metrics);
                  "http_request_counter" := JNum http_request_counter ]}) EmptyString 200).

Definition root : M response := fun E =>
  ret (create_response
         (JObj {[ "service" := JStr "user-service";
                  "version" := JStr (VERSION E);
                  "endpoints" := JArr (JStr <$>
                    [ "PUT /api/v1/users";
                      "DELETE /api/v1/users/<username>";
                      "GET /api/v1/users";
                      "GET /api/v1/_count";
                      "DELETE /api/v1/_count";
                      "GET /health";
                      "GET /metrics" ]) ]}) EmptyString 200) E.

(** the routes declared with [@app.route] *)
Definition dispatch_request (req : request target) : M response :=
  match path req, method req with
  | UsersPath, PUT => add_user req
  | UsersPath, GET => list_users
  | UserPath username, DELETE => delete_user username
  | CountPath, GET => get_request_count
  | CountPath, DELETE => reset_request_count
  | HealthPath, GET => health_check
  | MetricsPath, GET => get_metrics
  | RootPath, GET => root
  | NoRule, _ => raise (NotFound "The requested URL was not found on the server.")
  | _, _ => raise (Exn C_MethodNotAllowed
                       "The method is not allowed for the requested URL.")
  end.

(** the service, one request at a time *)
Definition handle (req : request target) : M response :=
  full_dispatch_request error_handler_spec before_request_handler dispatch_request req.

End Users.

(* ================================================================== *)
(** * [datetime.strptime] and [strftime] for the format
      ["%d-%m-%Y:%S-%M-%H"] *)

Module Datetime.
Import Re.

Record datetime := {
  year : Z; month : Z; day : Z;
  hour : Z; minute : Z; second : Z
}.

Definition r (lo hi : ascii) : regex := Set_ [Range lo hi].

(** the patterns [_strptime.TimeRE] gives the directives *)
Definition re_d : regex :=
  Group "d" (Chr "3" >> r "0" "1" || r "1" "2" >> Digit || Chr "0" >> r "1" "9"
             || r "1" "9" || Chr " " >> r "1" "9")%re.
Definition re_m : regex :=
  Group "m" (Chr "1" >> r "0" "2" || Chr "0" >> r "1" "9" || r "1" "9")%re.
Definition re_Y : regex := Group "Y" (Digit >> Digit >> Digit >> Digit)%re.
Definition re_S : regex :=
  Group "S" (Chr "6" >> r "0" "1" || r "0" "5" >> Digit || Digit)%re.
Definition re_M : regex := Group "M" (r "0" "5" >> Digit || Digit)%re.
Definition re_H : regex :=
  Group "H" (Chr "2" >> r "0" "3" || r "0" "1" >> Digit || Digit)%re.

(** the format, directive by directive, the separators literal *)
Definition format_regex : regex :=
  (re_d >> Chr "-" >> re_m >> Chr "-" >> re_Y >> Chr ":"
        >> re_S >> Chr "-" >> re_M >> Chr "-" >> re_H)%re.

Definition is_leap (y : Z) : bool :=
  ((y mod 4 =? 0) && (negb (y mod 100 =? 0) || (y mod 400 =? 0)))%Z.

Definition days_in_month (y m : Z) : Z :=
  if (m =? 2)%Z then (if is_leap y then 29 else 28)
  else if bool_decide (m ∈ [4; 6; 9; 11]%Z) then 30 else 31.

(** the checks of the [date] and [datetime] constructors *)
Definition valid (t : datetime) : bool :=
  ((1 <=? year t) && (year t <=? 9999) && (1 <=? month t) && (month t <=? 12)
   && (1 <=? day t) && (day t <=? days_in_month (year t) (month t))
   && (0 <=? hour t) && (hour t <=? 23) && (0 <=? minute t) && (minute t <=? 59)
   && (0 <=? second t) && (second t <=? 59))%Z.

(** [datetime.strptime(s, "%d-%m-%Y:%S-%M-%H")]; [None] is the
    [ValueError] *)
Definition strptime (s : string) : option datetime :=
  found ← match_ format_regex s;
  guard (end_ found = String.length s);;
  d ← PyStr.int_of_str (group "d" found);
  m ← PyStr.int_of_str (group "m" found);
  Y ← PyStr.int_of_str (group "Y" found);
  S ← PyStr.int_of_str (group "S" found);
  M ← PyStr.int_of_str (group "M" found);
  H ← PyStr.int_of_str (group "H" found);
  let t := {| year := Y; month := m; day := d; hour := H; minute := M; second := S |} in
  guard (valid t = true);;
  Some t.

Definition digit_char (d : Z) : ascii := ascii_of_N (Z.to_N (48 + d mod 10)).

Definition pad2 (n : Z) : string :=
  String (digit_char (n / 10)) (String (digit_char n) EmptyString).

Definition pad4 (n : Z) : string := pad2 (n / 100) +:+ pad2 n.

(** [t.strftime("%d-%m-%Y:%S-%M-%H")], every field zero-filled *)
Definition strftime (t : datetime) : string :=
  pad2 (day t) +:+ "-" +:+ pad2 (month t) +:+ "-" +:+ pad4 (year t) +:+ ":"
    +:+ pad2 (second t) +:+ "-" +:+ pad2 (minute t) +:+ "-" +:+ pad2 (hour t).

End Datetime.

(* ================================================================== *)
(** * [Rides/utils/validators.py] and [Rides/ride_requests.py] *)

Module RideRequests.

(** [validate_timestamp_format] of [Rides/utils/validators.py] *)
Definition validate_timestamp_format (timestamp : json) : result string :=
  if negb (truthy timestamp) then
    Raise (ValidationError "Timestamp is required")
  else match timestamp with
  | JStr s =>
      match Re.match_ Patterns.timestamp_pattern s with
      | None =>
          Raise (ValidationError
                   "Invalid timestamp format. Please use DD-MM-YYYY:SS-MM-HH")
      | Some _ => Ok s
      end
  | _ => Raise (ValidationError "Timestamp must be a string")
  end.

(** [int(v)] for a decoded JSON value *)
Definition py_int (v : json) : result Z :=
  match v with
  | JNum z => Ok z
  | JBool b => Ok (if b then 1 else 0)%Z
  | JStr s => match PyStr.int_of_str s with
              | Some z => Ok z
              | None => Raise ValueError
              end
  | _ => Raise TypeError
  end.

(** ** Legacy class [CreateRideRequests] *)

Record CreateRideRequests := {
  _created_by : json;
  _source : Z;
  _destination : Z;
  _timestamp : Datetime.datetime
}.

Definition getCreatedBy (r : CreateRideRequests) : json := _created_by r.
Definition getSource (r : CreateRideRequests) : Z := _source r.
Definition getDestination (r : CreateRideRequests) : Z := _destination r.
Definition getTimestamp (r : CreateRideRequests) : Datetime.datetime := _timestamp r.

(** [validateSource] and [validateDestination] differ in the message *)
Definition validateLocation (msg : string) (v : json) : result Z :=
  match py_int v with
  | Ok n =>
      if ((n <? 1) || (198 <? n))%Z then Raise (BadRequest msg) else Ok n
  | Raise e =>
      if isinstance e C_ValueError || isinstance e C_TypeError
      then Raise (BadRequest msg) else Raise e
  end.

Definition validateSource : json -> result Z :=
  validateLocation "Invalid source passed".
Definition validateDestination : json -> result Z :=
  validateLocation "Invalid destination passed".

(** [validateTimestamp]: whatever [strptime] raises becomes a
    [BadRequest] *)
Definition validateTimestamp (timestamp : json) : result Datetime.datetime :=
  let bad := BadRequest ("Invalid timestamp " +++ TVal timestamp
                         +++ ". Please use the format DD-MM-YYYY:SS-MM-HH") in
  match timestamp with
  | JStr s => match Datetime.strptime s with
              | Some t => Ok t
              | None => Raise bad
              end
  | _ => Raise bad
  end.

Definition require_key (key : string) (msg : string) (json_data : json) : result unit :=
  rbind (py_in key json_data) (fun present =>
  if negb present then Raise (BadRequest msg) else Ok tt).

(** [CreateRideRequests.__init__] *)
Definition CreateRideRequests_init (json_data : json) : result CreateRideRequests :=
  rbind (require_key "created_by" "Created_by not passed in the request" json_data) (fun _ =>
  rbind (require_key "timestamp" "Timestamp not passed in the request" json_data) (fun _ =>
  rbind (require_key "source" "Source not passed in the request" json_data) (fun _ =>
  rbind (require_key "destination" "Destination not passed in the request" json_data) (fun _ =>
  rbind (py_getitem json_data "created_by") (fun created_by =>
  rbind (py_getitem json_data "source") (fun src =>
  rbind (validateSource src) (fun source =>
  rbind (py_getitem json_data "destination") (fun dst =>
  rbind (validateDestination dst) (fun destination =>
  rbind (py_getitem json_data "timestamp") (fun ts =>
  rbind (validateTimestamp ts) (fun timestamp =>
  Ok {| _created_by := created_by; _source := source;
        _destination := destination; _timestamp := timestamp |}))))))))))).

End RideRequests.

(* ================================================================== *)
(** * [Rides/main_rides.py] *)

Module Rides.
Import RideRequests.

Inductive target :=
| RidesPath                    (* /api/v1/rides *)
| RidePath (ride_id : Z)       (* /api/v1/rides/<int:ride_id> *)
| RidesCountPath               (* /api/v1/rides/count *)
| CountPath                    (* /api/v1/_count *)
| HealthPath                   (* /health *)
| MetricsPath                  (* /metrics *)
| RootPath                     (* / *)
| NoRule.

Definition before_request_handler (req : request target) : M unit :=
  set_counter (fun c => c + 1)%Z ;;;
  when (bool_decide (method req = POST)) (validate_json_content_type req).

Definition handle_exceptions (error : exn) : M response :=
  ret (create_error_response "Internal server error" 500).

Definition handle_bad_request (error : exn) : M response :=
  ret (create_error_response (str_exn error) 400).

Definition error_handler_spec : handler_spec := fun code cls =>
  match code, cls with
  | None, C_Exception => Some handle_exceptions
  | Some 400%Z, C_BadRequest => Some handle_bad_request
  | _, _ => None
  end.

(** the two [except] suites every view ends with *)
Definition on_validation_error (extra : exc_class) (e : exn) : M response :=
  if isinstance e C_ValidationError || isinstance e extra then
    incr_failed ;;; ret (create_error_response (str_exn e) 400)
  else
    incr_failed ;;; ret (create_error_response "Internal server error" 500).

Definition on_exception (e : exn) : M response :=
  incr_failed ;;; ret (create_error_response "Internal server error" 500).

(** [value not in response.text] *)
Definition not_in_text (value : json) (text : string) : result bool :=
  match value with
  | JStr s => Ok (negb (PyStr.contains s text))
  | _ => Raise TypeError
  end.

(** the two bodies [add_ride] sends *)
Definition check_user_body (ride_request : CreateRideRequests) : gmap string json :=
  {[ "username" := getCreatedBy ride_request ]}.

Definition create_ride_body (ride_request : CreateRideRequests) : gmap string json :=
  {[ "action" := JStr "add_ride";
     "created_by" := getCreatedBy ride_request;
     "source" := JNum (getSource ride_request);
     "destination" := JNum (getDestination ride_request);
     "timestamp" := JStr (Datetime.strftime (getTimestamp ride_request)) ]}.

Definition add_ride (req : request target) : M response :=
  try_except
    (incr_total ;;;
     when (negb (is_json req))
          (raise (ValidationError "Content-Type must be application/json")) ;;;
     let* body := get_json req in
     when (negb (truthy body)) (raise (ValidationError "Request body is required")) ;;;
     let* ride_request := lift (CreateRideRequests_init body) in
     let* response := request_ (UsersGet (JObj (check_user_body ride_request))) in
     let* absent := lift (not_in_text (getCreatedBy ride_request) (text_ response)) in
     when absent
          (raise (ValidationError
                    ("User " +++ TVal (getCreatedBy ride_request) +++ " not found"))) ;;;
     let* response := request_ (DbWrite (JObj (create_ride_body ride_request))) in
     when (negb (status_code response =? 200)%Z)
          (raise (InternalServerError "Failed to create ride")) ;;;
     incr_successful ;;;
     let* data := json_of response in
     ret (create_response data EmptyString 201))
    (on_validation_error C_BadRequest).

Definition in_bounds (n : Z) : bool := negb ((n <? 1) || (198 <? n))%Z.

(** [str(source)] and [str(destination)] go into the body *)
Definition list_upcoming_body (source destination : Z) : gmap string json :=
  {[ "action" := JStr "list_upcoming_ride";
     "source" := JStr (pretty source);
     "destination" := JStr (pretty destination) ]}.

Definition list_upcoming_rides (req : request target) : M response :=
  try_except
    (incr_total ;;;
     let source := default EmptyString (args req !! "source") in
     let destination := default EmptyString (args req !! "destination") in
     when (String.eqb source EmptyString || String.eqb destination EmptyString)
          (raise (ValidationError "Source and destination parameters are required")) ;;;
     let* source :=
       match PyStr.int_of_str source with
       | Some n => ret n
       | None => raise (ValidationError "Source and destination must be valid integers")
       end in
     let* destination :=
       match PyStr.int_of_str destination with
       | Some n => ret n
       | None => raise (ValidationError "Source and destination must be valid integers")
       end in
     when (negb (in_bounds source))
          (raise (ValidationError "Source must be between 1 and 198")) ;;;
     when (negb (in_bounds destination))
          (raise (ValidationError "Destination must be between 1 and 198")) ;;;
     let* response := request_ (DbRead (JObj (list_upcoming_body source destination))) in
     when (negb (status_code response =? 200)%Z)
          (raise (InternalServerError "Failed to retrieve rides")) ;;;
     let* rides := json_of response in
     let* empty :=
       if negb (truthy rides) then ret true
       else let* n := lift (py_len rides) in ret (n =? 0)%Z in
     if empty then
       incr_successful ;;; ret (create_response JNull EmptyString 204)
     else
       incr_successful ;;; ret (create_response rides EmptyString 200))
    (on_validation_error C_BadRequest).

Definition get_ride_body (ride_id : Z) : gmap string json :=
  {[ "action" := JStr "get_ride"; "ride_id" := JNum ride_id ]}.

Definition get_ride (ride_id : Z) : M response :=
  try_except
    (incr_total ;;;
     when (ride_id <=? 0)%Z (raise (ValidationError "Ride ID must be a positive integer")) ;;;
     let* response := request_ (DbRead (JObj (get_ride_body ride_id))) in
     if negb (status_code response =? 200)%Z then
       incr_successful ;;; ret (create_response JNull EmptyString 204)
     else
       let* ride_data := json_of response in
       incr_successful ;;; ret (create_response ride_data EmptyString 200))
    (on_validation_error C_ValidationError).

Definition get_ride_count : M response :=
  try_except
    (incr_total ;;;
     let body : gmap string json := {[ "action" := JStr "num_ride" ]} in
     let* response := request_ (DbRead (JObj body)) in
     when (negb (status_code response =? 200)%Z)
          (raise (InternalServerError "Failed to get ride count")) ;;;
     let* count_data := json_of response in
     incr_successful ;;; ret (create_response count_data EmptyString 200))
    on_exception.

Definition join_ride (ride_id : Z) (req : request target) : M response :=
  try_except
    (incr_total ;;;
     when (negb (is_json req))
          (raise (ValidationError "Content-Type must be application/json")) ;;;
     let* body := get_json req in
     when (negb (truthy body)) (raise (ValidationError "Request body is required")) ;;;
     let* present := lift (py_in "username" body) in
     when (negb present) (raise (ValidationError "Username is required in request body")) ;;;
     let* username := lift (py_getitem body "username") in
     let check_user_body : gmap string json := {[ "username" := username ]} in
     let* response := request_ (UsersGet (JObj check_user_body)) in
     let* absent := lift (not_in_text username (text_ response)) in
     when absent
          (raise (ValidationError ("User " +++ TVal username +++ " not found"))) ;;;
     let join_ride_body : gmap string json :=
       {[ "action" := JStr "join_ride";
          "ride_id" := JNum ride_id;
          "username" := username ]} in
     let* response := request_ (DbWrite (JObj join_ride_body)) in
     when (negb (status_code response =? 200)%Z)
          (raise (InternalServerError "Failed to join ride")) ;;;
     incr_successful ;;;
     ret (create_response JNull "Successfully joined ride" 200))
    (on_validation_error C_BadRequest).

Definition delete_ride (ride_id : Z) : M response :=
  try_except
    (incr_total ;;;
     when (ride_id <=? 0)%Z (raise (ValidationError "Ride ID must be a positive integer")) ;;;
     let body : gmap string json :=
       {[ "action" := JStr "delete_ride"; "ride_id" := JNum ride_id ]} in
     let* response := request_ (DbWrite (JObj body)) in
     when (negb (status_code response =? 200)%Z)
          (raise (InternalServerError "Failed to delete ride")) ;;;
     incr_successful ;;;
     ret (create_response JNull "Ride deleted successfully" 200))
    (on_validation_error C_ValidationError).

Definition get_request_count : M response :=
  let* http_request_counter := get_counter in
  ret (create_response (JArr [JNum http_request_counter]) EmptyString 200).

Definition reset_request_count : M response :=
  set_counter (fun _ => 0%Z) ;;;
  ret (create_response JNull "Request counter reset successfully" 200).

Definition health_check : M response := fun E =>
  ret (create_response
         (JObj {[ "status" := JStr "healthy";
                  "service" := JStr "ride-service";
                  "version" := JStr (VERSION E) ]}) EmptyString 200) E.

Definition get_metrics : M response :=
  let* metrics := get_metrics_ in
  let* http_request_counter := get_counter in
  ret (create_response
         (JObj {[ "total_requests" := JNum (total_requests metrics);
                  "successful_requests" := JNum (successful_requests metrics);
                  "failed_requests" := JNum (failed_requests metrics);
                  "http_request_counter" := JNum http_request_counter ]}) EmptyString 200).

Definition root : M response := fun E =>
  ret (create_response
         (JObj {[ "service" := JStr "ride-service";
                  "version" := JStr (VERSION E);
                  "endpoints" := JArr (JStr <$>
                    [ "POST /api/v1/rides";
                      "GET /api/v1/rides";
                      "GET /api/v1/rides/<ride_id>";
                      "GET /api/v1/rides/count";
                      "POST /api/v1/rides/<ride_id>";
                      "DELETE /api/v1/rides/<ride_id>";
                      "GET /api/v1/_count";
                      "DELETE /api/v1/_count";
                      "GET /health";
                      "GET /metrics" ]) ]}) EmptyString 200) E.

Definition dispatch_request (req : request target) : M response :=
  match path req, method req with
  | RidesPath, POST => add_ride req
  | RidesPath, GET => list_upcoming_rides req
  | RidePath ride_id, GET => get_ride ride_id
  | RidesCountPath, GET => get_ride_count
  | RidePath ride_id, POST => join_ride ride_id req
  | RidePath ride_id, DELETE => delete_ride ride_id
  | CountPath, GET => get_request_count
  | CountPath, DELETE => reset_request_count
  | HealthPath, GET => health_check
  | MetricsPath, GET => get_metrics
  | RootPath, GET => root
  | NoRule, _ => raise (NotFound "The requested URL was not found on the server.")
  | _, _ => raise (Exn C_MethodNotAllowed
                       "The method is not allowed for the requested URL.")
  end.

Definition handle (req : request target) : M response :=
  full_dispatch_request error_handler_spec before_request_handler dispatch_request req.

End Rides.

(* ================================================================== *)
(** * The properties, in the words of the specification *)

Module Spec.

Definition is_word : ascii -> bool := Re.in_set Patterns.word.
Definition is_hex : ascii -> bool := Re.in_set Patterns.hex.

(** "matches [^[A-Za-z0-9_]{1,50}$]": one to fifty characters, each a
    letter, a digit or an underscore *)
Definition username_format (s : string) : bool :=
  (1 <=? String.length s)%nat && (String.length s <=? 50)%nat && PyStr.all is_word s.

(** "exactly 40 hexadecimal characters" *)
Definition sha1_format (s : string) : bool :=
  (String.length s =? 40)%nat && PyStr.all is_hex s.

Definition newline : string := String "010" EmptyString.

(** the invariant the specification states for [ServiceMetrics] *)
Definition balanced (m : ServiceMetrics) : Prop :=
  total_requests m = (successful_requests m + failed_requests m)%Z.

(** a request the Users service answers through a view that keeps the
    metrics *)
Definition users_tracked (req : request Users.target) : bool :=
  match path req, method req with
  | Users.UsersPath, PUT => is_json req
  | Users.UsersPath, GET => true
  | Users.UserPath _, DELETE => true
  | _, _ => false
  end.

Definition rides_tracked (req : request Rides.target) : bool :=
  match path req, method req with
  | Rides.RidesPath, POST => is_json req
  | Rides.RidePath _, POST => is_json req
  | Rides.RidesPath, GET => true
  | Rides.RidePath _, GET => true
  | Rides.RidesCountPath, GET => true
  | Rides.RidePath _, DELETE => true
  | _, _ => false
  end.

(** [list_users] answered by a 200 whose JSON has no [len] *)
Definition users_late_failure (req : request Users.target) (E : env) : bool :=
  match path req, method req with
  | Users.UsersPath, GET =>
      match outbound E (DbRead (JObj Users.list_users_body)) with
      | Reply st _ (Some users) => (st =? 200)%Z && negb (is_ok (py_len users))
      | _ => false
      end
  | _, _ => false
  end.

(** [add_ride] reaching its write, answered by a 200 that is not JSON *)
Definition rides_late_failure (req : request Rides.target) (E : env) : bool :=
  match path req, method req, json_body req with
  | Rides.RidesPath, POST, Some body =>
      is_json req && truthy body &&
      match RideRequests.CreateRideRequests_init body with
      | Ok rr =>
          match outbound E (UsersGet (JObj (Rides.check_user_body rr))),
                outbound E (DbWrite (JObj (Rides.create_ride_body rr))) with
          | Reply _ text _, Reply st _ None =>
              (st =? 200)%Z &&
              match Rides.not_in_text (RideRequests.getCreatedBy rr) text with
              | Ok false => true
              | _ => false
              end
          | _, _ => false
          end
      | Raise _ => false
      end
  | _, _, _ => false
  end.

(** one request counted, as a success or as a failure, not both *)
Definition accounted (m m' : ServiceMetrics) : Prop :=
  total_requests m' = (total_requests m + 1)%Z
  /\ (successful_requests m' = (successful_requests m + 1)%Z
       /\ failed_requests m' = failed_requests m
      \/ successful_requests m' = successful_requests m
         /\ failed_requests m' = (failed_requests m + 1)%Z).

(** the state after [before_request] has counted the request *)
Definition tick (w : world) : world :=
  {| http_request_counter := http_request_counter w + 1;
     metrics := metrics w;
     calls := calls w |}.

End Spec.

(* ================================================================== *)
(** * Sample data *)

Module Samples.

Definition sha1_of_test : string := "a94a8fe5ccb19ba61c4c0873d391e987982fbbd3".

Definition w0 : world :=
  {| http_request_counter := 7;
     metrics := {| total_requests := 3; successful_requests := 2; failed_requests := 1 |};
     calls := [] |}.

(** every read misses (404), every write and the Users service answer 200 *)
Definition db_empty : env :=
  {| outbound := fun c =>
       match c with
       | DbRead _ => Reply 404 EmptyString None
       | DbWrite _ => Reply 200 "{}" (Some (JObj ∅))
       | UsersGet _ => Reply 200 "alice, bob" (Some (JArr [JStr "alice"; JStr "bob"]))
       end;
     VERSION := "1.0.0" |}.

(** every call is answered 200 with an empty JSON list *)
Definition db_full : env :=
  {| outbound := fun _ => Reply 200 "[]" (Some (JArr []));
     VERSION := "1.0.0" |}.

Definition put_users (mimetype : string) (body : json) : request Users.target :=
  {| method := PUT; path := Users.UsersPath; mimetype := mimetype;
     json_body := Some body; args := ∅ |}.

Definition get_ (T : Type) (path : T) (args : gmap string string) : request T :=
  {| method := GET; path := path; mimetype := EmptyString; json_body := None; args := args |}.

Definition delete_ (T : Type) (path : T) : request T :=
  {| method := DELETE; path := path; mimetype := EmptyString; json_body := None; args := ∅ |}.

Definition post_rides (mimetype : string) (body : json) : request Rides.target :=
  {| method := POST; path := Rides.RidesPath; mimetype := mimetype;
     json_body := Some body; args := ∅ |}.

Definition alice : json :=
  JObj {[ "username" := JStr "alice"; "password" := JStr sha1_of_test ]}.

End Samples.

(* ================================================================== *)
(** * [Rides/config.py] *)

Module RidesConfig.

(** the fields of the dataclass [Config], as read from the environment
    when the class is defined *)
Record Config := {
  PORT : Z;
  DEBUG : bool;
  VERSION : string;
  DATABASE_URL : string;
  REQUEST_TIMEOUT : Z;
  USER_SERVICE_URL : string;
  LOG_LEVEL : string;
  LOG_FORMAT : string;
  MAX_REQUEST_SIZE : Z;
  ALLOWED_CONTENT_TYPES : option (list string);
  MAX_SOURCE_DESTINATION : Z;
  MIN_SOURCE_DESTINATION : Z
}.

(** the values taken when the environment sets none of the variables *)
Definition defaults : Config :=
  {| PORT := 80;
     DEBUG := false;
     VERSION := "1.0.0";
     DATABASE_URL := "http://52.86.125.105";
     REQUEST_TIMEOUT := 30;
     USER_SERVICE_URL := "http://52.86.125.105";
     LOG_LEVEL := "INFO";
     LOG_FORMAT := "%(asctime)s - %(name)s - %(levelname)s - %(message)s";
     MAX_REQUEST_SIZE := 16 * 1024 * 1024;
     ALLOWED_CONTENT_TYPES := None;
     MAX_SOURCE_DESTINATION := 198;
     MIN_SOURCE_DESTINATION := 1 |}.

Definition value_error (msg : text) : exn := Exn C_ValueError msg.

(** [_validate_config] *)
Definition _validate_config (c : Config) : result unit :=
  if ((PORT c <? 1) || (65535 <? PORT c))%Z then
    Raise (value_error ("Invalid port number: " +++ TVal (JNum (PORT c))))
  else if String.eqb (DATABASE_URL c) EmptyString then
    Raise (value_error "DATABASE_URL is required")
  else if String.eqb (USER_SERVICE_URL c) EmptyString then
    Raise (value_error "USER_SERVICE_URL is required")
  else if (REQUEST_TIMEOUT c <? 1)%Z then
    Raise (value_error ("Invalid request timeout: " +++ TVal (JNum (REQUEST_TIMEOUT c))))
  else if (MAX_SOURCE_DESTINATION c <? MIN_SOURCE_DESTINATION c)%Z then
    Raise (value_error
             "MAX_SOURCE_DESTINATION must be greater than MIN_SOURCE_DESTINATION")
  else Ok tt.

(** [Config()]: [__post_init__] fills [ALLOWED_CONTENT_TYPES] and
    validates *)
Definition Config_init (fields : Config) : result Config :=
  let c := {| PORT := PORT fields;
              DEBUG := DEBUG fields;
              VERSION := VERSION fields;
              DATABASE_URL := DATABASE_URL fields;
              REQUEST_TIMEOUT := REQUEST_TIMEOUT fields;
              USER_SERVICE_URL := USER_SERVICE_URL fields;
              LOG_LEVEL := LOG_LEVEL fields;
              LOG_FORMAT := LOG_FORMAT fields;
              MAX_REQUEST_SIZE := MAX_REQUEST_SIZE fields;
              ALLOWED_CONTENT_TYPES :=
                match ALLOWED_CONTENT_TYPES fields with
                | None => Some ["application/json"]
                | Some l => Some l
                end;
              MAX_SOURCE_DESTINATION := MAX_SOURCE_DESTINATION fields;
              MIN_SOURCE_DESTINATION := MIN_SOURCE_DESTINATION fields |} in
  rbind (_validate_config c) (fun _ => Ok c).

(** [Config.to_dict] *)
Definition to_dict (c : Config) : gmap string json :=
  {[ "port" := JNum (PORT c);
     "debug" := JBool (DEBUG c);
     "version" := JStr (VERSION c);
     "database_url" := JStr (DATABASE_URL c);
     "user_service_url" := JStr (USER_SERVICE_URL c);
     "request_timeout" := JNum (REQUEST_TIMEOUT c);
     "log_level" := JStr (LOG_LEVEL c);
     "max_request_size" := JNum (MAX_REQUEST_SIZE c);
     "max_source_destination" := JNum (MAX_SOURCE_DESTINATION c);
     "min_source_destination" := JNum (MIN_SOURCE_DESTINATION c) ]}.

End RidesConfig.

(* ================================================================== *)
(** * [Rides/utils/validators.py], the functions the views do not call *)

Module RidesValidators.
Import RidesConfig.

(** [isinstance(v, int)] and the integer [v] then is: a [bool] is an
    [int] in Python *)
Definition as_int (v : json) : option Z :=
  match v with
  | JNum z => Some z
  | JBool b => Some (if b then 1 else 0)%Z
  | _ => None
  end.

(** [InvalidLocationError]: a [RideServiceException] that is not a
    [ValidationError]; no [except] clause of the service names it, so it
    carries the class of its base *)
Definition InvalidLocationError (location_type : string) (value : json)
    (min_val max_val : Z) : exn :=
  Exn C_ServiceException
      ("Invalid " +++ location_type +++ ": " +++ TVal value
       +++ ". Must be between " +++ TVal (JNum min_val)
       +++ " and " +++ TVal (JNum max_val)).

(** [validate_source_destination]; [env_config] stands for the class
    attributes [Config()] starts from *)
Definition validate_source_destination (env_config : Config)
    (value : json) (location_type : string) : result json :=
  rbind (Config_init env_config) (fun config =>
  match as_int value with
  | None => Raise (ValidationError (location_type +:+ " must be an integer"))
  | Some n =>
      if ((n <? MIN_SOURCE_DESTINATION config)
          || (MAX_SOURCE_DESTINATION config <? n))%Z then
        Raise (InvalidLocationError location_type value
                 (MIN_SOURCE_DESTINATION config) (MAX_SOURCE_DESTINATION config))
      else Ok value
  end).

(** [validate_ride_id] *)
Definition validate_ride_id (ride_id : json) : result json :=
  match as_int ride_id with
  | None => Raise (ValidationError "Ride ID must be an integer")
  | Some n =>
      if (n <=? 0)%Z then Raise (ValidationError "Ride ID must be a positive integer")
      else Ok ride_id
  end.

(** [field not in body or body[field] is None], for a dict [body] *)
Definition missing (body : gmap string json) (field : string) : bool :=
  match body !! field with
  | None => true
  | Some JNull => true
  | Some _ => false
  end.

(** [validate_request_body], the same text in both services *)
Definition validate_request_body (body : json) (required_fields : list string)
    : result json :=
  if negb (truthy body) then
    Raise (ValidationError "Request body is required")
  else match body with
  | JObj d =>
      let missing_fields := List.filter (missing d) required_fields in
      match missing_fields with
      | _ :: _ =>
          Raise (ValidationError
                   ("Missing required fields: "
                    +:+ UserRequests.join ", " missing_fields))
      | [] => Ok body
      end
  | _ => Raise (ValidationError "Request body must be a JSON object")
  end.

End RidesValidators.

(* ================================================================== *)
(** * [Rides/ride_requests.py], the dataclass and the validator class *)

Module RideDataclass.
Import RidesConfig RidesValidators.

(** the dataclass [CreateRideRequest], once validated; [source] and
    [destination] keep the value they were given *)
Record CreateRideRequest := {
  created_by : string;
  source : json;
  destination : json;
  timestamp : string
}.

(** [CreateRideRequest._validate_username] *)
Definition _validate_username (username : json) : result string :=
  if negb (truthy username) then
    Raise (ValidationError "Created_by is required")
  else match username with
  | JStr s =>
      if (String.length (PyStr.strip s) =? 0)%nat then
        Raise (ValidationError "Created_by cannot be empty")
      else if (50 <? String.length s)%nat then
        Raise (ValidationError "Created_by too long (max 50 characters)")
      else match Re.match_ Patterns.username_re s with
      | None =>
          Raise (ValidationError
                   "Created_by can only contain letters, numbers, and underscores")
      | Some _ => Ok (PyStr.strip s)
      end
  | _ => Raise (ValidationError "Created_by must be a string")
  end.

(** [__post_init__] / [validate] applied to the four constructor
    arguments *)
Definition validate (env_config : Config)
    (created_by_arg source_arg destination_arg timestamp_arg : json)
    : result CreateRideRequest :=
  match rbind (_validate_username created_by_arg) (fun c =>
        rbind (validate_source_destination env_config source_arg "source") (fun s =>
        rbind (validate_source_destination env_config destination_arg "destination")
              (fun d =>
        rbind (RideRequests.validate_timestamp_format timestamp_arg) (fun t =>
        Ok {| created_by := c; source := s; destination := d; timestamp := t |}))))
  with
  | Ok r => Ok r
  | Raise e =>
      if isinstance e C_ValidationError then
        Raise (ValidationError ("Invalid ride data: " +++ str_exn e))
      else Raise e
  end.

Definition required_fields : list string :=
  ["created_by"; "source"; "destination"; "timestamp"].

Definition from_dict (env_config : Config) (data : json) : result CreateRideRequest :=
  match data with
  | JObj d =>
      let missing_fields :=
        filter (fun field => d !! field = None) required_fields in
      match missing_fields with
      | _ :: _ =>
          Raise (ValidationError
                   ("Missing required fields: "
                    +:+ UserRequests.join ", " missing_fields))
      | [] =>
          match d !! "created_by", d !! "source", d !! "destination", d !! "timestamp" with
          | Some c, Some s, Some dst, Some t => validate env_config c s dst t
          | _, _, _, _ => Raise (Exn C_Exception "KeyError")
          end
      end
  | _ => Raise (ValidationError "Request data must be a dictionary")
  end.

Definition to_dict (r : CreateRideRequest) : gmap string json :=
  {[ "created_by" := JStr (created_by r);
     "source" := source r;
     "destination" := destination r;
     "timestamp" := JStr (timestamp r) ]}.

(** [RideRequestValidator.validate_source_format] and
    [validate_destination_format] differ in the name and the message *)
Definition validate_location_format (env_config : Config)
    (location_type : string) (msg : string) (v : json) : result json :=
  match rbind (RideRequests.py_int v) (fun n =>
        validate_source_destination env_config (JNum n) location_type) with
  | Ok r => Ok r
  | Raise e =>
      if isinstance e C_ValueError || isinstance e C_TypeError
      then Raise (ValidationError msg) else Raise e
  end.


Definition validate_destination_format (env_config : Config) : json -> result json :=
  validate_location_format env_config "destination" "Destination must be a valid integer".

End RideDataclass.

(* ================================================================== *)
(** * [Rides/utils/response_helpers.py], the pagination helper *)

Module Pagination.

(** raised by [//] when [per_page] is 0; an [ArithmeticError], which no
    [except] clause of the service names *)
Definition ZeroDivisionError : exn :=
  Exn C_Exception "integer division or modulo by zero".

(** [(total + per_page - 1) // per_page]; [//] on integers is [Z.div] *)
Definition total_pages (per_page total : Z) : Z := ((total + per_page - 1) / per_page)%Z.

Definition pagination (page per_page total : Z) : gmap string json :=
  {[ "page" := JNum page;
     "per_page" := JNum per_page;
     "total" := JNum total;
     "total_pages" := JNum (total_pages per_page total);
     "has_next" := JBool (page <? total_pages per_page total)%Z;
     "has_prev" := JBool (1 <? page)%Z ]}.

(** [create_pagination_response] *)
Definition create_pagination_response (data : list json) (page per_page total : Z)
    (status_code : Z) : result response :=
  if (per_page =? 0)%Z then Raise ZeroDivisionError
  else
    let pagination_data : gmap string json :=
      {[ "data" := JArr data; "pagination" := JObj (pagination page per_page total) ]} in
    Ok (create_response (JObj pagination_data) EmptyString status_code).

End Pagination.

(* ================================================================== *)
(** * What a well-formed answer of each service looks like *)

Module Shape.



(** the two introspection routes whose answer reads the process state *)
Definition users_reads_state (req : request Users.target) : bool :=
  match path req, method req with
  | Users.CountPath, GET => true
  | Users.MetricsPath, GET => true
  | _, _ => false
  end.

Definition rides_reads_state (req : request Rides.target) : bool :=
  match path req, method req with
  | Rides.CountPath, GET => true
  | Rides.MetricsPath, GET => true
  | _, _ => false
  end.


(** two runs of one request from two states: the same answer, the same
    outbound calls *)
Definition same_run (m : M response) (E : env) (w w' : world) : Prop :=
  fst (m E w) = fst (m E w')
  /\ exists more,
       calls (snd (m E w)) = calls w ++ more
       /\ calls (snd (m E w')) = calls w' ++ more.

End Shape.

(* ================================================================== *)
(** * Proof steps shared by the views *)

(** destruct the scrutinee of an innermost [match] of the goal *)
Ltac branch :=
  match goal with
  | |- context [match ?x with _ => _ end] =>
      lazymatch x with
      | context [match _ with _ => _ end] => fail
      | _ => destruct x eqn:?
      end
  end.

Ltac unfold_monad :=
  unfold try_except, bind, incr_total, incr_successful, incr_failed, set_metrics,
    set_counter, get_counter, get_metrics_, when, get_json, json_of, lift, raise,
    ret, request_ in *.

Ltac settle :=
  unfold Spec.accounted; cbn [metrics total_requests successful_requests failed_requests snd];
  try discriminate; try (split; [lia | first [left; split; lia | right; split; lia]]).

Ltac keeps_counter :=
  unfold_monad;
  repeat (branch;
          cbn -[Users.check_user_body Users.create_user_body Users.list_users_body]);
  reflexivity.

(* ================================================================== *)
(** * Facts about strings *)

Section StringFacts.
Implicit Types (s t w : string) (p : ascii -> bool).

Lemma append_cons c s t : String c s +:+ t = String c (s +:+ t).
Proof. reflexivity. Qed.

Lemma length_append s t :
  String.length (s +:+ t) = String.length s + String.length t.
Proof. induction s as [|c s IH]; [done | rewrite !append_cons; simpl; congruence]. Qed.

Lemma append_nil_r s : s +:+ EmptyString = s.
Proof. induction s as [|c s IH]; [done | rewrite !append_cons; simpl; congruence]. Qed.

Lemma append_assoc s t w : (s +:+ t) +:+ w = s +:+ (t +:+ w).
Proof. induction s as [|c s IH]; [done | rewrite !append_cons; simpl; congruence]. Qed.

Lemma all_append p s t :
  PyStr.all p (s +:+ t) = PyStr.all p s && PyStr.all p t.
Proof.
  induction s as [|c s IH]; simpl; [done |].
  by rewrite IH, andb_assoc.
Qed.

Lemma contains_refl s : PyStr.contains s s = true.
Proof.
  destruct s as [|c s]; [done |].
  unfold PyStr.contains; fold PyStr.contains.
  apply orb_true_iff; left.
  apply prefix_correct. simpl. f_equal.
  clear c. induction s as [|c s IH]; simpl; [done | by rewrite IH].
Qed.

Lemma contains_append_l sub s t :
  PyStr.contains sub t = true -> PyStr.contains sub (s +:+ t) = true.
Proof.
  intros H. induction s as [|c s IH]; [done |].
  simpl. rewrite IH. apply orb_true_r.
Qed.

(** a string with no white space at either end is its own [strip] *)
Lemma lstrip_id c s : PyStr.is_space c = false -> PyStr.lstrip (String c s) = String c s.
Proof. intros H. simpl. by rewrite H. Qed.

Lemma rstrip_no_space s :
  PyStr.all (fun c => negb (PyStr.is_space c)) s = true -> PyStr.rstrip s = s.
Proof.
  induction s as [|c s IH]; simpl; [done |].
  intros [Hc Hs]%andb_true_iff. rewrite (IH Hs).
  destruct s; [| done]. by apply negb_true_iff in Hc as ->.
Qed.

Lemma rstrip_newline s :
  PyStr.all (fun c => negb (PyStr.is_space c)) s = true ->
  PyStr.rstrip (s +:+ Spec.newline) = s.
Proof.
  induction s as [|c s IH]; simpl; [done |].
  intros [Hc Hs]%andb_true_iff. rewrite (IH Hs).
  destruct s; [| done]. by apply negb_true_iff in Hc as ->.
Qed.

Lemma all_impl p q s :
  (forall c, p c = true -> q c = true) -> PyStr.all p s = true -> PyStr.all q s = true.
Proof.
  intros Hpq. induction s as [|c s IH]; simpl; [done |].
  intros [Hc Hs]%andb_true_iff. by rewrite (Hpq _ Hc), IH.
Qed.

Lemma word_not_space c : Spec.is_word c = true -> negb (PyStr.is_space c) = true.
Proof.
  destruct c as [[] [] [] [] [] [] [] []]; vm_compute; congruence.
Qed.

Lemma word_not_newline c : Spec.is_word c = true -> c <> "010"%char.
Proof. intros H ->. discriminate H. Qed.

Lemma hex_not_newline c : Spec.is_hex c = true -> c <> "010"%char.
Proof. intros H ->. discriminate H. Qed.

Lemma strip_word s : PyStr.all Spec.is_word s = true -> PyStr.strip s = s.
Proof.
  intros H. unfold PyStr.strip.
  assert (PyStr.lstrip s = s) as ->.
  { destruct s as [|c s]; [done |]. apply lstrip_id.
    simpl in H. apply andb_true_iff in H as [Hc _].
    by apply word_not_space, negb_true_iff in Hc. }
  apply rstrip_no_space. eapply all_impl; [apply word_not_space | done].
Qed.

Lemma strip_word_newline s :
  s <> EmptyString -> PyStr.all Spec.is_word s = true ->
  PyStr.strip (s +:+ Spec.newline) = s.
Proof.
  intros Hne H. unfold PyStr.strip.
  assert (PyStr.lstrip (s +:+ Spec.newline) = s +:+ Spec.newline) as ->.
  { destruct s as [|c s]; [done |]. apply lstrip_id.
    simpl in H. apply andb_true_iff in H as [Hc _].
    by apply word_not_space, negb_true_iff in Hc. }
  apply rstrip_newline. eapply all_impl; [apply word_not_space | done].
Qed.

End StringFacts.

(* ================================================================== *)
(** * Facts about the matcher *)

Section MatcherFacts.
Import Re.
Implicit Types (p : ascii -> bool) (c : cursor) (g : captures) (k : cont).

Lemma exactly_step_append p w t i g k :
  PyStr.all p w = true ->
  exactly (step p) (String.length w) (Cursor i (w +:+ t)) g k
  = k (Cursor (i + String.length w) t) g.
Proof.
  revert i. induction w as [|a w IH]; intros i H; simpl.
  - by rewrite Nat.add_0_r.
  - simpl in H. apply andb_true_iff in H as [Ha Hw].
    unfold step; simpl. rewrite Ha, (IH _ Hw). do 2 f_equal. lia.
Qed.

Lemma exactly_step_inv p n c g k x :
  exactly (step p) n c g k = Some x ->
  exists w t, rest c = w +:+ t /\ String.length w = n /\ PyStr.all p w = true
              /\ k (Cursor (pos c + n) t) g = Some x.
Proof.
  revert c. induction n as [|n IH]; intros [i s]; simpl.
  - intros H. exists EmptyString, s. by rewrite Nat.add_0_r.
  - unfold step; simpl. destruct s as [|a s]; [done |].
    destruct (p a) eqn:Ha; [| done].
    intros H. apply IH in H as (w & t & Hr & Hl & Hw & Hk).
    simpl in Hr, Hk. subst s n.
    exists (String a w), t. simpl. rewrite Ha, Hw.
    replace (i + S (String.length w)) with (S i + String.length w) by lia. done.
Qed.

Lemma greedy_step_inv p n c g k x :
  greedy (step p) n c g k = Some x ->
  exists w t, rest c = w +:+ t /\ PyStr.all p w = true
              /\ k (Cursor (pos c + String.length w) t) g = Some x.
Proof.
  revert c. induction n as [|n IH]; intros [i s]; simpl.
  - intros H. exists EmptyString, s. by rewrite Nat.add_0_r.
  - unfold step at 1; simpl.
    destruct s as [|a s].
    { intros H. exists EmptyString, EmptyString. by rewrite Nat.add_0_r. }
    destruct (p a) eqn:Ha.
    + replace (i <? S i)%nat with true by (symmetry; apply Nat.ltb_lt; lia).
      destruct (greedy (step p) n (Cursor (S i) s) g k) as [y|] eqn:Hg.
      * intros [= <-]. apply IH in Hg as (w & t & Hr & Hw & Hk). simpl in *.
        exists (String a w), t. simpl. rewrite Ha, Hw, Hr.
        replace (i + S (String.length w)) with (S i + String.length w) by lia. done.
      * intros H. exists EmptyString, (String a s). by rewrite Nat.add_0_r.
    + intros H. exists EmptyString, (String a s). by rewrite Nat.add_0_r.
Qed.

Lemma greedy_step_intro p n w t i g k :
  PyStr.all p w = true -> String.length w <= n ->
  is_Some (k (Cursor (i + String.length w) t) g) ->
  is_Some (greedy (step p) n (Cursor i (w +:+ t)) g k).
Proof.
  revert w i. induction n as [|n IH]; intros w i Hw Hn Hk.
  - destruct w; [| simpl in Hn; lia]. simpl in *. by rewrite Nat.add_0_r in Hk.
  - destruct w as [|a w].
    + simpl in *. rewrite Nat.add_0_r in Hk.
      destruct (step p _ _ _); [done | done].
    + simpl in Hw. apply andb_true_iff in Hw as [Ha Hw].
      simpl. unfold step at 1; simpl. rewrite Ha.
      replace (i <? S i)%nat with true by (symmetry; apply Nat.ltb_lt; lia).
      simpl in Hn, Hk.
      destruct (IH w (S i) Hw ltac:(lia)) as [y ->]; [| done].
      by replace (S i + String.length w) with (i + S (String.length w)) by lia.
Qed.

Lemma at_eol_spec s : at_eol s = true <-> s = EmptyString \/ s = Spec.newline.
Proof.
  split.
  - destruct s as [|a [|b s]]; [by left | | ].
    + simpl. destruct (Ascii.eqb_spec a "010") as [->|Hne]; [by right |].
      destruct a as [[] [] [] [] [] [] [] []]; done.
    + destruct a as [[] [] [] [] [] [] [] []]; done.
  - by intros [-> | ->].
Qed.

(** a pattern that starts with [^] matches at position 0 only *)
Lemma search_bol r s :
  search (Bol >> r)%re s = match_ (Bol >> r)%re s.
Proof.
  unfold search, match_.
  assert (forall fuel i, search_from (Bol >> r)%re s (S i) fuel = None) as Hnone.
  { induction fuel as [|n IH]; intros i; simpl; [done | by rewrite IH]. }
  destruct (String.length s); simpl; [by destruct (run_at _ 0 s) |].
  by rewrite Hnone; destruct (run_at _ 0 s).
Qed.

End MatcherFacts.

(* ================================================================== *)
(** * The three patterns *)

Section PatternFacts.
Import Re Patterns.

Lemma sha1_match_intro h tail :
  Spec.sha1_format h = true -> at_eol tail = true ->
  match_ sha1_re (h +:+ tail) = Some (Cursor 40 tail, []).
Proof.
  intros [Hlen Hhex]%andb_true_iff Heol. apply Nat.eqb_eq in Hlen.
  unfold match_, run_at, sha1_re. simpl PyStr.drop.
  cbn [run pos Nat.eqb].
  change (fun c g k => step (in_set hex) c g k) with (step (in_set hex)).
  rewrite <- Hlen at 1. rewrite exactly_step_append by done.
  rewrite Nat.sub_diag. cbn [greedy rest]. by rewrite Heol, Hlen.
Qed.

Lemma sha1_match_inv s x :
  match_ sha1_re s = Some x ->
  exists h, Spec.sha1_format h = true /\ (s = h \/ s = h +:+ Spec.newline).
Proof.
  unfold match_, run_at, sha1_re. simpl PyStr.drop. cbn [run pos Nat.eqb].
  change (fun c g k => step (in_set hex) c g k) with (step (in_set hex)).
  intros (h & t & Hs & Hlen & Hall & Hk)%exactly_step_inv.
  simpl in Hs. subst s. rewrite Nat.sub_diag in Hk. cbn [greedy rest] in Hk.
  destruct (at_eol t) eqn:Heol; [| done].
  exists h. split.
  - unfold Spec.sha1_format. rewrite Hlen. done.
  - apply at_eol_spec in Heol as [-> | ->]; [left; by rewrite append_nil_r | by right].
Qed.

Lemma username_match_intro w tail :
  w <> EmptyString -> PyStr.all Spec.is_word w = true -> at_eol tail = true ->
  is_Some (match_ username_re (w +:+ tail)).
Proof.
  intros Hne Hw Heol. destruct w as [|a w]; [done |].
  simpl in Hw. apply andb_true_iff in Hw as [Ha Hw].
  unfold match_, run_at, username_re. simpl PyStr.drop. cbn [run pos Nat.eqb].
  change (fun c g k => step (in_set word) c g k) with (step (in_set word)).
  cbn [exactly]. unfold step at 1. cbn [rest pos]. rewrite append_cons.
  change (in_set word a) with (Spec.is_word a). rewrite Ha.
  cbn [rest]. apply greedy_step_intro; [done | rewrite length_append; lia |].
  cbn [rest]. by rewrite Heol.
Qed.

Lemma username_match_inv s x :
  match_ username_re s = Some x ->
  exists w, w <> EmptyString /\ PyStr.all Spec.is_word w = true
            /\ (s = w \/ s = w +:+ Spec.newline).
Proof.
  unfold match_, run_at, username_re. simpl PyStr.drop. cbn [run pos Nat.eqb].
  change (fun c g k => step (in_set word) c g k) with (step (in_set word)).
  intros (w1 & t1 & Hs & Hlen & Hw1 & Hk)%exactly_step_inv.
  simpl in Hs. subst s.
  apply greedy_step_inv in Hk as (w2 & t2 & Hr & Hw2 & Hk).
  cbn [rest] in Hr, Hk. subst t1.
  destruct (at_eol t2) eqn:Heol; [| done].
  exists (w1 +:+ w2). split; [| split].
  - destruct w1; [done | done].
  - unfold Spec.is_word. by rewrite all_append, Hw1, Hw2.
  - rewrite append_assoc.
    apply at_eol_spec in Heol as [-> | ->]; [left; by rewrite append_nil_r | by right].
Qed.

End PatternFacts.

(* ================================================================== *)
(** * The validators *)

Section ValidatorFacts.
Import Validators.

Lemma truthy_str s : s <> EmptyString -> truthy (JStr s) = true.
Proof. intros H. simpl. by destruct (String.eqb_spec s EmptyString). Qed.

(** every string of the stated format is accepted and returned as it is *)
Lemma validate_username_format s :
  Spec.username_format s = true -> validate_username (JStr s) = Ok s.
Proof.
  intros [[Hlo Hhi]%andb_true_iff Hw]%andb_true_iff.
  apply Nat.leb_le in Hlo, Hhi.
  assert (s <> EmptyString) as Hne by (intros ->; simpl in Hlo; lia).
  unfold validate_username. rewrite truthy_str by done. cbn [negb].
  rewrite strip_word by done.
  destruct (Nat.eqb_spec (String.length s) 0) as [H0|_]; [lia |].
  destruct (Nat.ltb_spec 50 (String.length s)) as [H50|_]; [lia |].
  destruct (username_match_intro s EmptyString Hne Hw eq_refl) as [x Hx].
  rewrite append_nil_r in Hx. by rewrite Hx.
Qed.

(** what [validate_username] accepts, and what it returns *)
Lemma validate_username_accepts s r :
  validate_username (JStr s) = Ok r <->
  r <> EmptyString /\ PyStr.all Spec.is_word r = true /\ String.length s <= 50
  /\ (s = r \/ s = r +:+ Spec.newline).
Proof.
  split.
  - unfold validate_username.
    destruct (truthy (JStr s)); [| done]. cbn [negb].
    destruct (String.length (PyStr.strip s) =? 0)%nat; [done |].
    destruct (Nat.ltb_spec 50 (String.length s)) as [|Hlen]; [done |].
    destruct (Re.match_ Patterns.username_re s) as [x|] eqn:Hm; [| done].
    apply username_match_inv in Hm as (w & Hne & Hw & [-> | ->]); intros [= <-].
    + rewrite strip_word by done. eauto.
    + rewrite strip_word_newline by done. eauto.
  - intros (Hne & Hw & Hlen & Hs).
    assert (s <> EmptyString) as Hsne by (destruct Hs as [-> | ->]; [done | by destruct r]).
    assert (PyStr.strip s = r) as Hstrip
      by (destruct Hs as [-> | ->]; [by apply strip_word | by apply strip_word_newline]).
    unfold validate_username. rewrite truthy_str by done. cbn [negb].
    rewrite Hstrip.
    destruct (Nat.eqb_spec (String.length r) 0) as [H0|_]; [by destruct r |].
    destruct (Nat.ltb_spec 50 (String.length s)) as [H50|_]; [lia |].
    assert (is_Some (Re.match_ Patterns.username_re s)) as [x ->]; [| done].
    destruct Hs as [-> | ->].
    + rewrite <- (append_nil_r r). by apply username_match_intro.
    + by apply username_match_intro.
Qed.

Lemma validate_password_format p :
  Spec.sha1_format p = true -> validate_password (JStr p) = Ok p.
Proof.
  intros H. unfold validate_password.
  assert (p <> EmptyString) as Hne by (intros ->; done).
  rewrite truthy_str by done. cbn [negb].
  pose proof (sha1_match_intro p EmptyString H eq_refl) as Hm.
  rewrite append_nil_r in Hm. by rewrite Hm.
Qed.

Lemma validatePassword_format p :
  Spec.sha1_format p = true ->
  UserRequests.validatePassword (JStr p) = Ok (JStr p).
Proof.
  intros H. unfold UserRequests.validatePassword.
  unfold Patterns.sha1_re. rewrite search_bol.
  pose proof (sha1_match_intro p EmptyString H eq_refl) as Hm.
  rewrite append_nil_r in Hm. unfold Patterns.sha1_re in Hm. by rewrite Hm.
Qed.

(** what the legacy [validatePassword] accepts *)
Lemma validatePassword_accepts p :
  is_ok (UserRequests.validatePassword (JStr p)) = true <->
  exists h, Spec.sha1_format h = true /\ (p = h \/ p = h +:+ Spec.newline).
Proof.
  unfold UserRequests.validatePassword, Patterns.sha1_re. rewrite search_bol.
  fold Patterns.sha1_re. split.
  - destruct (Re.match_ Patterns.sha1_re p) eqn:Hm; [| done].
    intros _. by eapply sha1_match_inv.
  - intros (h & Hh & [-> | ->]).
    + pose proof (sha1_match_intro h EmptyString Hh eq_refl) as Hm.
      rewrite append_nil_r in Hm. by rewrite Hm.
    + by rewrite (sha1_match_intro h Spec.newline Hh eq_refl).
Qed.

End ValidatorFacts.

(* ================================================================== *)
(** * Running the Users views *)

Section UsersRuns.
Import UserRequests Users.

Lemma CreateUserRequests_init_dict d u p :
  d !! "username" = Some u -> d !! "password" = Some p ->
  CreateUserRequests_init (JObj d)
  = rbind (validatePassword p) (fun p' => Ok {| _username := u; _password := p' |}).
Proof.
  intros Hu Hp. unfold CreateUserRequests_init, py_in, py_getitem.
  cbn [rbind]. rewrite Hu, Hp.
  rewrite !bool_decide_eq_true_2 by eauto. reflexivity.
Qed.

Lemma truthy_dict d k v : d !! k = Some v -> truthy (JObj d) = true.
Proof.
  intros H. simpl. apply negb_true_iff, bool_decide_eq_false. intros ->.
  by rewrite lookup_empty in H.
Qed.

(** the PUT view once the body has passed [CreateUserRequests] *)
Lemma add_user_validated req body ur E w :
  is_json req = true -> json_body req = Some body -> truthy body = true ->
  CreateUserRequests_init body = Ok ur ->
  let rd := DbRead (JObj (check_user_body (getUsername ur))) in
  let wr := DbWrite (JObj (create_user_body ur)) in
  let world c t s f :=
    {| http_request_counter := http_request_counter w;
       metrics := {| total_requests := total_requests (metrics w) + t;
                     successful_requests := successful_requests (metrics w) + s;
                     failed_requests := failed_requests (metrics w) + f |};
       calls := calls w ++ c |} in
  let e500 := create_error_response "Internal server error" 500 in
  add_user req E w =
  match outbound E rd with
  | NoReply => (Ok e500, world [rd] 1 0 1)
  | Reply st _ _ =>
      if (st =? 200)%Z then
        (Ok (create_error_response
               ("User " +++ TVal (getUsername ur) +++ " already exists") 400),
         world [rd] 1 0 1)
      else
        match outbound E wr with
        | NoReply => (Ok e500, world [rd; wr] 1 0 1)
        | Reply st' _ _ =>
            if (st' =? 200)%Z then
              (Ok (create_response JNull "User created successfully" 201),
               world [rd; wr] 1 1 0)
            else (Ok e500, world [rd; wr] 1 0 1)
        end
  end%Z.
Proof.
  intros Hj Hb Ht Hi. cbv zeta.
  unfold add_user, try_except, bind, incr_total, incr_successful, incr_failed,
    set_metrics, when, get_json, lift, request_, raise, ret.
  rewrite Hj, Hb, Ht, Hi. cbn [negb].
  destruct (outbound E (DbRead _)) as [st tx js|]; cbn -[check_user_body create_user_body].
  - destruct (st =? 200)%Z; cbn -[check_user_body create_user_body].
    + rewrite !Z.add_0_r. reflexivity.
    + destruct (outbound E (DbWrite _)) as [st' tx' js'|];
        cbn -[check_user_body create_user_body].
      * destruct (st' =? 200)%Z; cbn -[check_user_body create_user_body];
          rewrite <- ?app_assoc, ?Z.add_0_r; reflexivity.
      * rewrite <- ?app_assoc, ?Z.add_0_r; reflexivity.
  - rewrite ?Z.add_0_r; reflexivity.
Qed.

End UsersRuns.

Section Dispatch.

Lemma try_except_never_raises {A} (m : M A) (h : exn -> M A) :
  (forall e, never_raises (h e)) -> never_raises (try_except m h).
Proof.
  intros Hh E w. unfold try_except.
  destruct (m E w) as [[a|e] w']; [by eauto |]. apply Hh.
Qed.

Lemma failed_then_ret_never_raises {A} (r : A) : never_raises (incr_failed ;;; ret r).
Proof. intros E w. by eexists _, _. Qed.

Lemma users_add_user_never_raises req : never_raises (Users.add_user req).
Proof.
  apply try_except_never_raises. intros e.
  destruct (_ || _); apply failed_then_ret_never_raises.
Qed.

Lemma users_delete_user_never_raises u : never_raises (Users.delete_user u).
Proof.
  apply try_except_never_raises. intros e.
  destruct (_ || _); apply failed_then_ret_never_raises.
Qed.

Lemma users_list_users_never_raises : never_raises Users.list_users.
Proof.
  apply try_except_never_raises. intros e. apply failed_then_ret_never_raises.
Qed.

Lemma users_before_request_pass req E w :
  (method req = PUT \/ method req = POST -> is_json req = true) ->
  Users.before_request_handler req E w = (Ok tt, Spec.tick w).
Proof.
  intros Hpass.
  unfold Users.before_request_handler, bind, set_counter, when,
    validate_json_content_type.
  fold (Spec.tick w).
  destruct (method req); try done; rewrite Hpass by auto; reflexivity.
Qed.

Lemma users_before_request_reject req E w :
  method req = PUT \/ method req = POST -> is_json req = false ->
  Users.before_request_handler req E w
  = (Raise (ValidationError "Content-Type must be application/json"), Spec.tick w).
Proof.
  intros Hm Hj.
  unfold Users.before_request_handler, bind, set_counter, when,
    validate_json_content_type.
  fold (Spec.tick w).
  destruct Hm as [-> | ->]; rewrite Hj; reflexivity.
Qed.

(** a request that passes [before_request] and whose view never raises
    is answered by the view, run after the counter has been advanced *)
Lemma users_handle_view req view E w :
  (method req = PUT \/ method req = POST -> is_json req = true) ->
  Users.dispatch_request req = view -> never_raises view ->
  Users.handle req E w = view E (Spec.tick w).
Proof.
  intros Hpass <- Hview.
  unfold Users.handle, full_dispatch_request, try_except.
  unfold bind at 1. rewrite users_before_request_pass by done.
  by destruct (Hview E (Spec.tick w)) as (a & w' & ->).
Qed.

(** a PUT or POST that is not JSON never reaches a view: the
    [ValidationError] of [before_request] is not a [BadRequest], so the
    handler registered for [Exception] answers *)
Lemma users_non_json_rejected req E w :
  method req = PUT \/ method req = POST -> is_json req = false ->
  Users.handle req E w
  = (Ok (Response 500 (Failure "Internal server error" 500)), Spec.tick w).
Proof.
  intros Hm Hj.
  unfold Users.handle, full_dispatch_request, try_except.
  unfold bind at 1. by rewrite users_before_request_reject.
Qed.

End Dispatch.

(* ================================================================== *)
(** * Users service: content type, validation, creation *)

Section UsersClaims.
Import UserRequests Users.

(** C1 (the code departs from the claim).  A PUT /api/v1/users with
    Content-Type text/plain is stopped by [before_request], but the
    answer is 500 "Internal server error", not 400, and
    [failed_requests] stays as it was: no view runs, and the handler for
    [Exception] does not count. *)
Theorem C1_text_plain_put_answers_500 :
  let r := Users.handle (Samples.put_users "text/plain" Samples.alice)
                        Samples.db_empty Samples.w0 in
  fst r = Ok (Response 500 (Failure "Internal server error" 500))
  /\ failed_requests (metrics (snd r)) = failed_requests (metrics Samples.w0)
  /\ total_requests (metrics (snd r)) = total_requests (metrics Samples.w0)
  /\ http_request_counter (snd r) = (http_request_counter Samples.w0 + 1)%Z
  /\ calls (snd r) = [].
Proof. vm_compute. done. Qed.

(** the same PUT, had it reached the view, would have been a counted 400:
    the view repeats the content-type test inside its [try] *)
Lemma add_user_non_json req E w :
  is_json req = false ->
  add_user req E w
  = (Ok (create_error_response "Content-Type must be application/json" 400),
     {| http_request_counter := http_request_counter w;
        metrics := {| total_requests := total_requests (metrics w) + 1;
                      successful_requests := successful_requests (metrics w);
                      failed_requests := failed_requests (metrics w) + 1 |};
        calls := calls w |}).
Proof.
  intros Hj.
  unfold add_user, try_except, bind, incr_total, incr_failed, set_metrics, when,
    raise, ret.
  rewrite Hj. reflexivity.
Qed.

(** the PUT view when [CreateUserRequests] raises *)
Lemma add_user_rejected req body e E w :
  is_json req = true -> json_body req = Some body -> truthy body = true ->
  CreateUserRequests_init body = Raise e ->
  add_user req E w
  = (Ok (if isinstance e C_ValidationError || isinstance e C_BadRequest
         then create_error_response (str_exn e) 400
         else create_error_response "Internal server error" 500),
     {| http_request_counter := http_request_counter w;
        metrics := {| total_requests := total_requests (metrics w) + 1;
                      successful_requests := successful_requests (metrics w);
                      failed_requests := failed_requests (metrics w) + 1 |};
        calls := calls w |}).
Proof.
  intros Hj Hb Ht Hi.
  unfold add_user, try_except, bind, incr_total, incr_failed, set_metrics, when,
    get_json, lift, raise, ret.
  rewrite Hj, Hb, Ht, Hi. cbn [negb].
  destruct (_ || _); reflexivity.
Qed.

(** a PUT that passes [before_request] is answered by [add_user] *)
Lemma users_handle_put req E w :
  method req = PUT -> path req = UsersPath -> is_json req = true ->
  Users.handle req E w = add_user req E (Spec.tick w).
Proof.
  intros Hm Hp Hj. apply users_handle_view; [done | | apply users_add_user_never_raises].
  unfold dispatch_request. by rewrite Hm, Hp.
Qed.

(** C2, as amended.  For a PUT /api/v1/users whose JSON body is an object
    with a username and a string password: if the password does not
    match [^[a-fA-F0-9]{40}$] under [re.search] the answer is 400 and no
    database call is made; if it matches, validation passes whatever
    the username is, and the username goes to the database as given.
    So a 201 implies a matching password, and nothing about the
    username. *)
Theorem C2_put_validates_password_only req d u p E w :
  method req = PUT -> path req = UsersPath -> is_json req = true ->
  json_body req = Some (JObj d) ->
  d !! "username" = Some u -> d !! "password" = Some (JStr p) ->
  let r := Users.handle req E w in
  match Re.search Patterns.sha1_re p with
  | None =>
      fst r = Ok (create_error_response
                    ("400 Bad Request: " +++ "Password is not in SHA1 format") 400)
      /\ calls (snd r) = calls w
      /\ failed_requests (metrics (snd r)) = (failed_requests (metrics w) + 1)%Z
  | Some _ =>
      exists more,
        calls (snd r) = calls w ++ DbRead (JObj (check_user_body u)) :: more
  end
  /\ (forall resp, fst r = Ok resp -> status resp = 201%Z ->
      is_Some (Re.search Patterns.sha1_re p)).
Proof.
  intros Hm Hp Hj Hb Hu Hpw r. subst r.
  rewrite users_handle_put by done.
  pose proof (CreateUserRequests_init_dict d u (JStr p) Hu Hpw) as Hinit.
  unfold validatePassword in Hinit.
  destruct (Re.search Patterns.sha1_re p) as [x|] eqn:Hs; cbn [rbind] in Hinit.
  - split; [| by eauto].
    rewrite (add_user_validated req (JObj d) _ E _ Hj Hb (truthy_dict _ _ _ Hu) Hinit).
    cbn [getUsername _username].
    destruct (outbound E (DbRead _)) as [st tx js|]; [| by eexists].
    destruct (st =? 200)%Z; [by eexists |].
    destruct (outbound E (DbWrite _)) as [st' tx' js'|]; [| by eexists].
    destruct (st' =? 200)%Z; by eexists.
  - rewrite (add_user_rejected req (JObj d) _ E _ Hj Hb (truthy_dict _ _ _ Hu) Hinit).
    split; [done |]. intros resp [= <-]. done.
Qed.

(** C2, witness: the test's user and a password that is not a digest *)
Lemma C2_put_validates_password_only_witness :
  let req := Samples.put_users "application/json"
               (JObj {[ "username" := JStr "alice"; "password" := JStr "invalid_hash" ]}) in
  let r := Users.handle req Samples.db_empty Samples.w0 in
  fst r = Ok (create_error_response
                ("400 Bad Request: " +++ "Password is not in SHA1 format") 400)
  /\ calls (snd r) = calls Samples.w0
  /\ failed_requests (metrics (snd r)) = (failed_requests (metrics Samples.w0) + 1)%Z.
Proof.
  intros req r.
  exact (proj1 (C2_put_validates_password_only req
           {[ "username" := JStr "alice"; "password" := JStr "invalid_hash" ]}
           (JStr "alice") "invalid_hash" Samples.db_empty Samples.w0
           eq_refl eq_refl eq_refl eq_refl eq_refl eq_refl)).
Defined.

(** C2, counterexample to the claim as stated: the username "a@ b" has
    an at sign and a space, trimmed or not, yet with a well-formed
    password the PUT is answered 201 after a database read and a write
    that carry the username as it came. *)
Lemma C2_counterexample :
  let body := JObj {[ "username" := JStr "a@ b";
                      "password" := JStr Samples.sha1_of_test ]} in
  let r := Users.handle (Samples.put_users "application/json" body)
                        Samples.db_empty Samples.w0 in
  Spec.username_format (PyStr.strip "a@ b") = false
  /\ Spec.sha1_format Samples.sha1_of_test = true
  /\ fst r = Ok (Response 201 (Success None (Some "User created successfully")))
  /\ calls (snd r)
     = [ DbRead (JObj {[ "action" := JStr "get_user"; "username" := JStr "a@ b" ]});
         DbWrite (JObj {[ "action" := JStr "add_user"; "username" := JStr "a@ b";
                          "password" := JStr Samples.sha1_of_test ]}) ].
Proof. vm_compute. done. Qed.

End UsersClaims.

Section UsersCounter.
Import Users.

Lemma users_add_user_counter req E w :
  http_request_counter (snd (add_user req E w)) = http_request_counter w.
Proof. unfold add_user. keeps_counter. Qed.

Lemma users_delete_user_counter u E w :
  http_request_counter (snd (delete_user u E w)) = http_request_counter w.
Proof. unfold delete_user. keeps_counter. Qed.

Lemma users_list_users_counter E w :
  http_request_counter (snd (list_users E w)) = http_request_counter w.
Proof. unfold list_users. keeps_counter. Qed.

(** every inbound request is counted once, whatever its outcome; the only
    view that writes the counter is the reset *)
Lemma users_counter_counts_every_request req E w :
  http_request_counter (snd (Users.handle req E w))
  = match path req, method req with
    | CountPath, DELETE => 0%Z
    | _, _ => (http_request_counter w + 1)%Z
    end.
Proof.
  destruct (path req) eqn:Hp, (method req) eqn:Hm;
    try (destruct (is_json req) eqn:Hj;
         [| rewrite users_non_json_rejected by auto; reflexivity]).
  all: try (rewrite users_handle_put by done; apply users_add_user_counter).
  all: try (rewrite (users_handle_view req list_users);
            [apply users_list_users_counter | by rewrite Hm; intros [|]
            | unfold dispatch_request; by rewrite Hp, Hm
            | apply users_list_users_never_raises]).
  all: try (rewrite (users_handle_view req (delete_user username));
            [apply users_delete_user_counter | by rewrite Hm; intros [|]
            | unfold dispatch_request; by rewrite Hp, Hm
            | apply users_delete_user_never_raises]).
  all: unfold Users.handle, full_dispatch_request, try_except;
    unfold bind at 1;
    rewrite users_before_request_pass by (rewrite Hm; intros [|]; done);
    unfold dispatch_request; rewrite Hp, ?Hm; reflexivity.
Qed.

End UsersCounter.

Section UsersClaims2.
Import UserRequests Users.

(** C3, as amended.  DELETE /api/v1/_count sets the counter to 0 and is
    answered 200; the GET /api/v1/_count that follows is itself counted
    before its view runs, so it is answered 200 with data [[1]].  Every
    inbound request adds one to the counter, whatever its outcome; the
    reset alone writes 0. *)
Theorem C3_count_after_reset :
  (forall mt1 jb1 a1 mt2 jb2 a2 E1 E2 w,
      let del := {| method := DELETE; path := CountPath; mimetype := mt1;
                    json_body := jb1; args := a1 |} in
      let get := {| method := GET; path := CountPath; mimetype := mt2;
                    json_body := jb2; args := a2 |} in
      let r1 := Users.handle del E1 w in
      let r2 := Users.handle get E2 (snd r1) in
      fst r1 = Ok (Response 200 (Success None (Some "Request counter reset successfully")))
      /\ http_request_counter (snd r1) = 0%Z
      /\ fst r2 = Ok (Response 200 (Success (Some (JArr [JNum 1])) None))
      /\ http_request_counter (snd r2) = 1%Z
      /\ metrics (snd r2) = metrics w)
  /\ (forall req E w,
      http_request_counter (snd (Users.handle req E w))
      = match path req, method req with
        | CountPath, DELETE => 0%Z
        | _, _ => (http_request_counter w + 1)%Z
        end).
Proof.
  split; [| apply users_counter_counts_every_request].
  intros. cbv zeta. repeat split.
Qed.

(** C3, counterexample to the claim as stated: after the reset the GET
    does not return [[0]]. *)
Lemma C3_counterexample :
  let r1 := Users.handle (Samples.delete_ _ CountPath) Samples.db_empty Samples.w0 in
  let r2 := Users.handle (Samples.get_ _ CountPath ∅) Samples.db_empty (snd r1) in
  fst r2 = Ok (Response 200 (Success (Some (JArr [JNum 1])) None))
  /\ fst r2 <> Ok (Response 200 (Success (Some (JArr [JNum 0])) None)).
Proof. split; [reflexivity | discriminate]. Qed.

Lemma text_contains_already_exists u :
  text_contains "already exists" ("User " +++ TVal u +++ " already exists").
Proof.
  intros repr. cbn [render].
  apply contains_append_l, contains_append_l. reflexivity.
Qed.

(** C5.  PUT /api/v1/users with a body [{username, password}] of the
    stated formats.  If the [get_user] read is answered with a status
    other than 200 and the [add_user] write with 200, the answer is 201
    "User created successfully" and [successful_requests] grows by one.
    If the read is answered 200, the answer is 400 with a message that
    contains "already exists", the read is the only database call, and
    [failed_requests] grows by one. *)
Theorem C5_put_creates_or_reports_existing req d u p E w :
  method req = PUT -> path req = UsersPath -> is_json req = true ->
  json_body req = Some (JObj d) ->
  d !! "username" = Some (JStr u) -> d !! "password" = Some (JStr p) ->
  Spec.username_format u = true -> Spec.sha1_format p = true ->
  let r := Users.handle req E w in
  let rd := DbRead (JObj {[ "action" := JStr "get_user"; "username" := JStr u ]}) in
  let wr := DbWrite (JObj {[ "action" := JStr "add_user"; "username" := JStr u;
                             "password" := JStr p ]}) in
  (forall st tx js tx' js',
      outbound E rd = Reply st tx js -> st <> 200%Z ->
      outbound E wr = Reply 200 tx' js' ->
      fst r = Ok (Response 201 (Success None (Some "User created successfully")))
      /\ successful_requests (metrics (snd r)) = (successful_requests (metrics w) + 1)%Z
      /\ failed_requests (metrics (snd r)) = failed_requests (metrics w)
      /\ total_requests (metrics (snd r)) = (total_requests (metrics w) + 1)%Z
      /\ calls (snd r) = calls w ++ [rd; wr])
  /\ (forall tx js,
      outbound E rd = Reply 200 tx js ->
      exists msg,
        fst r = Ok (Response 400 (Failure msg 400))
        /\ text_contains "already exists" msg
        /\ calls (snd r) = calls w ++ [rd]
        /\ failed_requests (metrics (snd r)) = (failed_requests (metrics w) + 1)%Z
        /\ successful_requests (metrics (snd r)) = successful_requests (metrics w)
        /\ total_requests (metrics (snd r)) = (total_requests (metrics w) + 1)%Z).
Proof.
  intros Hm Hp Hj Hb Hu Hpw _ Hfmt r rd wr. subst r.
  rewrite users_handle_put by done.
  pose proof (CreateUserRequests_init_dict d _ _ Hu Hpw) as Hinit.
  rewrite (validatePassword_format _ Hfmt) in Hinit. cbn [rbind] in Hinit.
  rewrite (add_user_validated req (JObj d) _ E _ Hj Hb (truthy_dict _ _ _ Hu) Hinit).
  cbn [getUsername _username].
  change (DbRead (JObj (check_user_body (JStr u)))) with rd.
  change (DbWrite (JObj (create_user_body _))) with wr.
  split.
  - intros st tx js tx' js' -> Hst ->.
    apply Z.eqb_neq in Hst as ->. cbn [Z.eqb Pos.eqb].
    rewrite !Z.add_0_r. done.
  - intros tx js ->. cbn [Z.eqb Pos.eqb].
    eexists. split; [reflexivity |]. split; [apply text_contains_already_exists |].
    cbn. rewrite !Z.add_0_r. done.
Qed.

(** C5, witness: the user of the tests, against a database that misses
    on every read and accepts every write *)
Lemma C5_put_creates_or_reports_existing_witness :
  let r := Users.handle (Samples.put_users "application/json" Samples.alice)
                        Samples.db_empty Samples.w0 in
  fst r = Ok (Response 201 (Success None (Some "User created successfully")))
  /\ successful_requests (metrics (snd r)) = 3%Z.
Proof.
  intros r.
  pose proof (proj1 (C5_put_creates_or_reports_existing
    (Samples.put_users "application/json" Samples.alice)
    {[ "username" := JStr "alice"; "password" := JStr Samples.sha1_of_test ]}
    "alice" Samples.sha1_of_test Samples.db_empty Samples.w0
    eq_refl eq_refl eq_refl eq_refl eq_refl eq_refl eq_refl eq_refl)
    404%Z EmptyString None "{}" (Some (JObj ∅)) eq_refl ltac:(discriminate) eq_refl)
    as (H1 & H2 & _).
  exact (conj H1 H2).
Defined.

End UsersClaims2.

Section ValidatorClaims.
Import Validators UserRequests Users.

(** C8 (the code departs from the claim).  ["abc\n"] is not of the
    format [^[A-Za-z0-9_]{1,50}$]: its last character is a newline.
    [validate_username] accepts it all the same and returns ["abc"]:
    [$] of [re.match] also matches before a final newline. *)
Theorem C8_trailing_newline_accepted :
  Spec.username_format ("abc" +:+ Spec.newline) = false
  /\ validate_username (JStr ("abc" +:+ Spec.newline)) = Ok "abc".
Proof. split; reflexivity. Qed.

(** apart from that newline the validator does what C8 says: it accepts
    every string of the format, unchanged, and what it accepts is of the
    format but for one final newline *)
Lemma validate_username_sound s r :
  validate_username (JStr s) = Ok r ->
  Spec.username_format r = true /\ (s = r \/ s = r +:+ Spec.newline).
Proof.
  intros (Hne & Hw & Hlen & Hs)%validate_username_accepts. split; [| done].
  unfold Spec.username_format. rewrite Hw, andb_true_r.
  apply andb_true_iff. split; [destruct r; done |].
  apply Nat.leb_le. destruct Hs as [-> | ->]; [done |].
  rewrite length_append in Hlen. lia.
Qed.

(** C9.  A dictionary with exactly the keys [username] and [password],
    the first of the format [^[A-Za-z0-9_]{1,50}$] and the second 40
    hexadecimal characters, goes through [from_dict] and comes back
    from [to_dict] as the same dictionary. *)
Theorem C9_from_dict_to_dict_roundtrip (d : gmap string json) u p :
  d !! "username" = Some (JStr u) -> d !! "password" = Some (JStr p) ->
  (forall k, k <> "username" -> k <> "password" -> d !! k = None) ->
  Spec.username_format u = true -> Spec.sha1_format p = true ->
  exists r, from_dict (JObj d) = Ok r /\ to_dict r = d.
Proof.
  intros Hu Hp Hother Hfu Hfp.
  exists {| username := u; password := p |}. split.
  - unfold from_dict, required_fields.
    rewrite !filter_cons, filter_nil.
    rewrite !decide_False by (rewrite ?Hu, ?Hp; done).
    rewrite Hu, Hp. unfold validate.
    by rewrite (validate_username_format _ Hfu), (validate_password_format _ Hfp).
  - unfold to_dict. cbn [username password]. apply map_eq. intros k.
    destruct (decide (k = "username")) as [-> | Hk1];
      [by rewrite lookup_insert_eq |].
    rewrite lookup_insert_ne by done.
    destruct (decide (k = "password")) as [-> | Hk2];
      [by rewrite lookup_singleton_eq |].
    rewrite lookup_singleton_ne by done. by rewrite Hother.
Qed.

(** C9, witness: the dictionary the specification names *)
Lemma C9_from_dict_to_dict_roundtrip_witness :
  let aaa := "aaaaaaaaaaaaaaaaaaaaaaaaaaaaaaaaaaaaaaaa" in
  let d : gmap string json := {[ "username" := JStr "bob_1"; "password" := JStr aaa ]} in
  exists r, from_dict (JObj d) = Ok r /\ to_dict r = d.
Proof.
  intros aaa d.
  apply (C9_from_dict_to_dict_roundtrip d "bob_1" aaa); try reflexivity.
  intros k Hk1 Hk2. subst d.
  rewrite lookup_insert_ne by done. by rewrite lookup_singleton_ne.
Defined.

(** C10.  For 40 hexadecimal characters [h], the 41-character string
    [h] followed by a newline is no SHA-1 digest, yet both password
    validators accept it and return it unchanged, and PUT
    /api/v1/users sends it as it is in the [add_user] write. *)
Theorem C10_password_with_trailing_newline h :
  Spec.sha1_format h = true ->
  let p := h +:+ Spec.newline in
  String.length p = 41
  /\ Spec.sha1_format p = false
  /\ validatePassword (JStr p) = Ok (JStr p)
  /\ validate_password (JStr p) = Ok p
  /\ forall req d u E w st tx js,
      method req = PUT -> path req = UsersPath -> is_json req = true ->
      json_body req = Some (JObj d) ->
      d !! "username" = Some u -> d !! "password" = Some (JStr p) ->
      outbound E (DbRead (JObj (check_user_body u))) = Reply st tx js ->
      st <> 200%Z ->
      calls (snd (Users.handle req E w))
      = calls w ++ [ DbRead (JObj (check_user_body u));
                     DbWrite (JObj {[ "action" := JStr "add_user";
                                      "username" := u;
                                      "password" := JStr p ]}) ].
Proof.
  intros Hh p.
  pose proof Hh as [Hlen Hhex]%andb_true_iff. apply Nat.eqb_eq in Hlen.
  assert (String.length p = 41) as Hp41
    by (unfold p; rewrite length_append, Hlen; reflexivity).
  assert (validatePassword (JStr p) = Ok (JStr p)) as Hlegacy.
  { unfold validatePassword, Patterns.sha1_re. rewrite search_bol.
    fold Patterns.sha1_re. unfold p.
    by rewrite (sha1_match_intro h Spec.newline Hh eq_refl). }
  split; [done |]. split.
  { unfold Spec.sha1_format. by rewrite Hp41. }
  split; [done |]. split.
  { unfold validate_password.
    rewrite truthy_str by (intros Hp; by rewrite Hp in Hp41).
    cbn [negb]. unfold p.
    by rewrite (sha1_match_intro h Spec.newline Hh eq_refl). }
  intros req d u E w st tx js Hm Hpath Hj Hb Hu Hpw Hrd Hst.
  rewrite users_handle_put by done.
  pose proof (CreateUserRequests_init_dict d _ _ Hu Hpw) as Hinit.
  rewrite Hlegacy in Hinit. cbn [rbind] in Hinit.
  rewrite (add_user_validated req (JObj d) _ E _ Hj Hb (truthy_dict _ _ _ Hu) Hinit).
  cbn [getUsername _username]. rewrite Hrd.
  apply Z.eqb_neq in Hst as ->.
  destruct (outbound E (DbWrite _)) as [st' tx' js'|]; [| done].
  by destruct (st' =? 200)%Z.
Qed.

(** C10, witness: the digest of the tests, followed by a newline *)
Lemma C10_password_with_trailing_newline_witness :
  let p := Samples.sha1_of_test +:+ Spec.newline in
  String.length p = 41
  /\ validatePassword (JStr p) = Ok (JStr p)
  /\ validate_password (JStr p) = Ok p.
Proof.
  intros p.
  pose proof (C10_password_with_trailing_newline Samples.sha1_of_test eq_refl)
    as (H1 & _ & H2 & H3 & _).
  exact (conj H1 (conj H2 H3)).
Defined.

End ValidatorClaims.

(* ================================================================== *)
(** * Running the Rides views *)

Section RidesRuns.
Import RideRequests Rides.

Lemma rides_before_request_pass req E w :
  (method req = POST -> is_json req = true) ->
  Rides.before_request_handler req E w = (Ok tt, Spec.tick w).
Proof.
  intros Hpass.
  unfold Rides.before_request_handler, bind, set_counter, when,
    validate_json_content_type.
  fold (Spec.tick w).
  destruct (method req); try done; rewrite Hpass by auto; reflexivity.
Qed.

Lemma rides_handle_view req view E w :
  (method req = POST -> is_json req = true) ->
  Rides.dispatch_request req = view -> never_raises view ->
  Rides.handle req E w = view E (Spec.tick w).
Proof.
  intros Hpass <- Hview.
  unfold Rides.handle, full_dispatch_request, try_except.
  unfold bind at 1. rewrite rides_before_request_pass by done.
  by destruct (Hview E (Spec.tick w)) as (a & w' & ->).
Qed.

Lemma on_validation_error_never_raises c e : never_raises (on_validation_error c e).
Proof.
  unfold on_validation_error. destruct (_ || _); apply failed_then_ret_never_raises.
Qed.

Lemma add_ride_never_raises req : never_raises (add_ride req).
Proof. apply try_except_never_raises, on_validation_error_never_raises. Qed.

Lemma list_upcoming_rides_never_raises req : never_raises (list_upcoming_rides req).
Proof. apply try_except_never_raises, on_validation_error_never_raises. Qed.

Lemma get_ride_never_raises ride_id : never_raises (get_ride ride_id).
Proof. apply try_except_never_raises, on_validation_error_never_raises. Qed.

Lemma CreateRideRequests_init_dict d c sv dv ts :
  d !! "created_by" = Some c -> d !! "source" = Some sv ->
  d !! "destination" = Some dv -> d !! "timestamp" = Some ts ->
  CreateRideRequests_init (JObj d)
  = rbind (validateSource sv) (fun source =>
    rbind (validateDestination dv) (fun destination =>
    rbind (validateTimestamp ts) (fun timestamp =>
    Ok {| _created_by := c; _source := source;
          _destination := destination; _timestamp := timestamp |}))).
Proof.
  intros Hc Hs Hd Ht.
  unfold CreateRideRequests_init, require_key, py_in, py_getitem.
  cbn [rbind]. rewrite Hc, Hs, Hd, Ht.
  rewrite !bool_decide_eq_true_2 by eauto. reflexivity.
Qed.

(** the POST view when [CreateRideRequests] raises: no outbound call *)
Lemma add_ride_rejected req body e E w :
  is_json req = true -> json_body req = Some body -> truthy body = true ->
  CreateRideRequests_init body = Raise e ->
  add_ride req E w
  = (Ok (if isinstance e C_ValidationError || isinstance e C_BadRequest
         then create_error_response (str_exn e) 400
         else create_error_response "Internal server error" 500),
     {| http_request_counter := http_request_counter w;
        metrics := {| total_requests := total_requests (metrics w) + 1;
                      successful_requests := successful_requests (metrics w);
                      failed_requests := failed_requests (metrics w) + 1 |};
        calls := calls w |}).
Proof.
  intros Hj Hb Ht Hi.
  unfold add_ride, on_validation_error, try_except, bind, incr_total, incr_failed,
    set_metrics, when, get_json, lift, raise, ret.
  rewrite Hj, Hb, Ht, Hi. cbn [negb].
  destruct (_ || _); reflexivity.
Qed.

(** the POST view once [CreateRideRequests] has accepted the body: the
    Users service is asked first *)
Lemma add_ride_validated req body rr E w :
  is_json req = true -> json_body req = Some body -> truthy body = true ->
  CreateRideRequests_init body = Ok rr ->
  exists more,
    calls (snd (add_ride req E w))
    = calls w ++ UsersGet (JObj (check_user_body rr)) :: more.
Proof.
  intros Hj Hb Ht Hi.
  unfold add_ride, on_validation_error, try_except, bind, incr_total, incr_failed,
    incr_successful, set_metrics, when, get_json, lift, raise, ret, request_, json_of.
  rewrite Hj, Hb, Ht, Hi. cbn [negb].
  destruct (outbound E (UsersGet _)) as [st tx js|];
    cbn -[check_user_body create_ride_body]; [| by eexists].
  destruct (not_in_text _ _) as [[]|e];
    cbn -[check_user_body create_ride_body]; [by eexists | | by destruct (_ || _); eexists].
  destruct (outbound E (DbWrite _)) as [st' tx' js'|];
    cbn -[check_user_body create_ride_body];
    [| rewrite <- app_assoc; by eexists].
  destruct (st' =? 200)%Z; cbn -[check_user_body create_ride_body];
    [| rewrite <- app_assoc; by eexists].
  destruct js'; cbn -[check_user_body create_ride_body];
    rewrite <- app_assoc; by eexists.
Qed.

End RidesRuns.

Section RidesClaims.
Import RideRequests Rides.

(** C4, as amended.  For a POST /api/v1/rides whose JSON body is an
    object with the four fields, source and destination valid: the
    timestamp is accepted exactly when [strptime] parses it with
    ["%d-%m-%Y:%S-%M-%H"] (day-month-year, seconds-minutes-hours) as a
    calendar timestamp.  Then the Users service is asked about
    [created_by]; otherwise the answer is 400 and no outbound call is
    made.  ["01-01-2024:30-15-10"] is accepted and
    ["2024-01-01:10-15-30"] is rejected.  The fixed-width pattern of
    [validate_timestamp_format] is not consulted on this path. *)
Theorem C4_post_rides_timestamp_by_strptime req d c sv dv ts a b E w :
  method req = POST -> path req = RidesPath -> is_json req = true ->
  json_body req = Some (JObj d) ->
  d !! "created_by" = Some c -> d !! "source" = Some sv ->
  d !! "destination" = Some dv -> d !! "timestamp" = Some (JStr ts) ->
  validateSource sv = Ok a -> validateDestination dv = Ok b ->
  let r := Rides.handle req E w in
  match Datetime.strptime ts with
  | Some t =>
      exists more,
        calls (snd r) = calls w ++ UsersGet (JObj {[ "username" := c ]}) :: more
  | None =>
      fst r = Ok (create_error_response
                    ("400 Bad Request: " +++ "Invalid timestamp " +++ TVal (JStr ts)
                     +++ ". Please use the format DD-MM-YYYY:SS-MM-HH") 400)
      /\ calls (snd r) = calls w
      /\ failed_requests (metrics (snd r)) = (failed_requests (metrics w) + 1)%Z
  end
  /\ Datetime.strptime "01-01-2024:30-15-10"
     = Some {| Datetime.year := 2024; Datetime.month := 1; Datetime.day := 1;
               Datetime.hour := 10; Datetime.minute := 15; Datetime.second := 30 |}
  /\ Datetime.strptime "2024-01-01:10-15-30" = None.
Proof.
  intros Hm Hp Hj Hb Hc Hs Hd Ht Ha Hb' r. subst r.
  split; [| split; reflexivity].
  rewrite (rides_handle_view req (add_ride req)); [| by intros _ | | apply add_ride_never_raises];
    [| unfold dispatch_request; by rewrite Hm, Hp].
  pose proof (CreateRideRequests_init_dict d _ _ _ _ Hc Hs Hd Ht) as Hinit.
  rewrite Ha, Hb' in Hinit. cbn [rbind] in Hinit. unfold validateTimestamp in Hinit.
  destruct (Datetime.strptime ts) as [t|]; cbn [rbind] in Hinit.
  - destruct (add_ride_validated req (JObj d) _ E (Spec.tick w) Hj Hb
                (truthy_dict _ _ _ Hc) Hinit) as [more Hmore].
    exists more. exact Hmore.
  - by rewrite (add_ride_rejected req (JObj d) _ E _ Hj Hb (truthy_dict _ _ _ Hc) Hinit).
Qed.

(** C4, witness: the timestamp the specification says is rejected *)
Lemma C4_post_rides_timestamp_by_strptime_witness :
  let d : gmap string json :=
    {[ "created_by" := JStr "alice"; "source" := JNum 5; "destination" := JNum 10;
       "timestamp" := JStr "2024-01-01:10-15-30" ]} in
  let r := Rides.handle (Samples.post_rides "application/json" (JObj d))
                        Samples.db_empty Samples.w0 in
  calls (snd r) = calls Samples.w0
  /\ failed_requests (metrics (snd r)) = (failed_requests (metrics Samples.w0) + 1)%Z.
Proof.
  intros d r.
  exact (proj2 (proj1 (C4_post_rides_timestamp_by_strptime
           (Samples.post_rides "application/json" (JObj d)) d
           (JStr "alice") (JNum 5) (JNum 10) "2024-01-01:10-15-30" 5%Z 10%Z
           Samples.db_empty Samples.w0
           eq_refl eq_refl eq_refl eq_refl eq_refl eq_refl eq_refl eq_refl
           eq_refl eq_refl))).
Defined.

(** C4, counterexample to the claim as stated: ["1-1-2024:30-15-10"]
    fails the fixed-width pattern (day and month have one digit), yet the
    POST is accepted: answered 201, the ride written. *)
Lemma C4_counterexample :
  let ts := "1-1-2024:30-15-10" in
  let d : gmap string json :=
    {[ "created_by" := JStr "alice"; "source" := JNum 5; "destination" := JNum 10;
       "timestamp" := JStr ts ]} in
  let r := Rides.handle (Samples.post_rides "application/json" (JObj d))
                        Samples.db_empty Samples.w0 in
  Re.match_ Patterns.timestamp_pattern ts = None
  /\ is_ok (validate_timestamp_format (JStr ts)) = false
  /\ fst r = Ok (Response 201 (Success (Some (JObj ∅)) None))
  /\ calls (snd r)
     = [ UsersGet (JObj {[ "username" := JStr "alice" ]});
         DbWrite (JObj {[ "action" := JStr "add_ride";
                          "created_by" := JStr "alice";
                          "source" := JNum 5; "destination" := JNum 10;
                          "timestamp" := JStr "01-01-2024:30-15-10" ]}) ].
Proof. vm_compute. done. Qed.

(** C6.  GET /api/v1/rides with source and destination that read as
    integers within bounds, the database read answered 200 with an empty
    list: the answer is 204 and carries no body.  GET
    /api/v1/rides/{id} whose database read is answered with a status
    other than 200: the answer is 204, [successful_requests] grows by
    one, [failed_requests] stays, and the answer is not an error
    envelope. *)
Theorem C6_no_content_answers :
  (forall req s t a b tx E w,
      method req = GET -> path req = RidesPath ->
      args req !! "source" = Some s -> args req !! "destination" = Some t ->
      PyStr.int_of_str s = Some a -> PyStr.int_of_str t = Some b ->
      (1 <= a <= 198)%Z -> (1 <= b <= 198)%Z ->
      outbound E (DbRead (JObj (list_upcoming_body a b))) = Reply 200 tx (Some (JArr [])) ->
      let r := Rides.handle req E w in
      fst r = Ok (Response 204 (Success None None))
      /\ (forall resp, fst r = Ok resp -> wire_body resp = None)
      /\ successful_requests (metrics (snd r)) = (successful_requests (metrics w) + 1)%Z
      /\ failed_requests (metrics (snd r)) = failed_requests (metrics w))
  /\ (forall req ride_id body st tx js E w,
      method req = GET -> path req = RidePath ride_id ->
      let r := Rides.handle req E w in
      calls (snd r) = calls w ++ [DbRead body] ->
      outbound E (DbRead body) = Reply st tx js -> st <> 200%Z ->
      fst r = Ok (Response 204 (Success None None))
      /\ (forall resp, fst r = Ok resp -> wire_body resp = None)
      /\ successful_requests (metrics (snd r)) = (successful_requests (metrics w) + 1)%Z
      /\ failed_requests (metrics (snd r)) = failed_requests (metrics w)
      /\ total_requests (metrics (snd r)) = (total_requests (metrics w) + 1)%Z).
Proof.
  split.
  - intros req s t a b tx E w Hm Hp Hs Ht Ha Hb Hra Hrb Hdb r. subst r.
    rewrite (rides_handle_view req (list_upcoming_rides req));
      [| by rewrite Hm | | apply list_upcoming_rides_never_raises];
      [| unfold dispatch_request; by rewrite Hm, Hp].
    assert (s <> EmptyString) as Hsne by (intros ->; discriminate Ha).
    assert (t <> EmptyString) as Htne by (intros ->; discriminate Hb).
    unfold list_upcoming_rides, on_validation_error, try_except, bind, incr_total,
      incr_successful, set_metrics, when, lift, raise, ret, request_, json_of, in_bounds.
    rewrite Hs, Ht. cbn [default from_option id]. cbv zeta. unfold id.
    replace (String.eqb s EmptyString) with false
      by (symmetry; by apply String.eqb_neq).
    replace (String.eqb t EmptyString) with false
      by (symmetry; by apply String.eqb_neq).
    cbn -[PyStr.int_of_str list_upcoming_body Z.ltb]. rewrite Ha.
    cbn -[PyStr.int_of_str list_upcoming_body Z.ltb]. rewrite Hb.
    replace (a <? 1)%Z with false by (symmetry; apply Z.ltb_ge; lia).
    replace (198 <? a)%Z with false by (symmetry; apply Z.ltb_ge; lia).
    replace (b <? 1)%Z with false by (symmetry; apply Z.ltb_ge; lia).
    replace (198 <? b)%Z with false by (symmetry; apply Z.ltb_ge; lia).
    cbn -[list_upcoming_body]. rewrite Hdb. cbn -[list_upcoming_body].
    split; [done |]. split; [by intros resp [= <-] | done].
  - intros req ride_id body st tx js E w Hm Hp r. subst r.
    rewrite (rides_handle_view req (get_ride ride_id));
      [| by rewrite Hm | | apply get_ride_never_raises];
      [| unfold dispatch_request; by rewrite Hm, Hp].
    unfold get_ride, on_validation_error, try_except, bind, incr_total,
      incr_successful, incr_failed, set_metrics, when, lift, raise, ret, request_, json_of.
    destruct (ride_id <=? 0)%Z.
    { cbn. intros Hcalls. apply (f_equal length) in Hcalls.
      rewrite length_app in Hcalls. simpl in Hcalls. lia. }
    cbn -[get_ride_body].
    destruct (outbound E (DbRead (JObj (get_ride_body ride_id))))
      as [st0 tx0 js0|] eqn:Hout; cbn -[get_ride_body].
    + destruct (st0 =? 200)%Z eqn:Hst0; cbn -[get_ride_body].
      * destruct js0; cbn -[get_ride_body];
          intros [= <-]%app_inv_head Hrd Hst; rewrite Hout in Hrd;
          injection Hrd as <- _ _; by apply Z.eqb_eq in Hst0.
      * intros _ _ _. split; [done |]. split; [by intros resp [= <-] | done].
    + intros [= <-]%app_inv_head Hrd. by rewrite Hout in Hrd.
Qed.

(** C6, witness: source 5, destination 10 against a database that
    answers every call with 200 and an empty list; ride 42 against a
    database that misses on every read *)
Lemma C6_no_content_answers_witness :
  let req := Samples.get_ _ RidesPath {[ "source" := "5"; "destination" := "10" ]} in
  let req' := Samples.get_ _ (RidePath 42) ∅ in
  fst (Rides.handle req Samples.db_full Samples.w0)
  = Ok (Response 204 (Success None None))
  /\ fst (Rides.handle req' Samples.db_empty Samples.w0)
     = Ok (Response 204 (Success None None)).
Proof.
  intros req req'. split.
  - exact (proj1 (proj1 C6_no_content_answers req "5" "10" 5%Z 10%Z "[]"
             Samples.db_full Samples.w0
             eq_refl eq_refl eq_refl eq_refl eq_refl eq_refl
             ltac:(lia) ltac:(lia) eq_refl)).
  - exact (proj1 (proj2 C6_no_content_answers req' 42%Z (JObj (get_ride_body 42))
             404%Z EmptyString None Samples.db_empty Samples.w0
             eq_refl eq_refl eq_refl eq_refl ltac:(discriminate))).
Defined.

End RidesClaims.

(* ================================================================== *)
(** * Metrics *)

Section UsersMetrics.
Import Users.

Lemma users_add_user_accounted req E w :
  Spec.accounted (metrics w) (metrics (snd (add_user req E w))).
Proof.
  unfold add_user. unfold_monad.
  repeat (branch; cbn -[check_user_body create_user_body]); settle.
Qed.

Lemma users_delete_user_accounted username E w :
  Spec.accounted (metrics w) (metrics (snd (delete_user username E w))).
Proof.
  unfold delete_user. unfold_monad.
  repeat (branch; cbn -[check_user_body]); settle.
Qed.

Lemma users_list_users_accounted E w :
  (forall st tx users,
      outbound E (DbRead (JObj list_users_body)) = Reply st tx (Some users) ->
      st = 200%Z -> is_ok (py_len users) = true) ->
  Spec.accounted (metrics w) (metrics (snd (list_users E w))).
Proof.
  unfold list_users. unfold_monad.
  destruct (outbound E (DbRead (JObj list_users_body))) as [st tx js|];
    cbn -[list_users_body]; [| intros _; settle].
  destruct (Z.eqb_spec st 200) as [-> | Hne]; cbn -[list_users_body];
    [| intros _; settle].
  destruct js as [users|]; cbn -[list_users_body]; [| intros _; settle].
  intros Hlen. specialize (Hlen _ _ _ eq_refl eq_refl).
  destruct (py_len users); [settle | done].
Qed.

End UsersMetrics.

Section RidesMetrics.
Import RideRequests Rides.

Lemma rides_list_upcoming_accounted req E w :
  Spec.accounted (metrics w) (metrics (snd (list_upcoming_rides req E w))).
Proof.
  unfold list_upcoming_rides, on_validation_error. unfold_monad.
  repeat (branch; cbn -[list_upcoming_body PyStr.int_of_str in_bounds]); settle.
Qed.

Lemma rides_get_ride_accounted ride_id E w :
  Spec.accounted (metrics w) (metrics (snd (get_ride ride_id E w))).
Proof.
  unfold get_ride, on_validation_error. unfold_monad.
  repeat (branch; cbn -[get_ride_body]); settle.
Qed.

Lemma rides_get_ride_count_accounted E w :
  Spec.accounted (metrics w) (metrics (snd (get_ride_count E w))).
Proof.
  unfold get_ride_count, on_exception. unfold_monad.
  repeat (branch; cbn); settle.
Qed.

Lemma rides_join_ride_accounted ride_id req E w :
  Spec.accounted (metrics w) (metrics (snd (join_ride ride_id req E w))).
Proof.
  unfold join_ride, on_validation_error. unfold_monad.
  repeat (branch; cbn -[py_in py_getitem not_in_text]); settle.
Qed.

Lemma rides_delete_ride_accounted ride_id E w :
  Spec.accounted (metrics w) (metrics (snd (delete_ride ride_id E w))).
Proof.
  unfold delete_ride, on_validation_error. unfold_monad.
  repeat (branch; cbn); settle.
Qed.

Lemma rides_add_ride_accounted req E w :
  path req = RidesPath -> method req = POST ->
  Spec.rides_late_failure req E = false ->
  Spec.accounted (metrics w) (metrics (snd (add_ride req E w))).
Proof.
  intros Hp Hm. unfold Spec.rides_late_failure. rewrite Hp, Hm.
  unfold add_ride, on_validation_error. unfold_monad.
  destruct (is_json req); cbn -[check_user_body create_ride_body not_in_text];
    [| intros _; repeat (branch; cbn); settle].
  destruct (json_body req) as [body|];
    cbn -[check_user_body create_ride_body not_in_text];
    [| intros _; repeat (branch; cbn); settle].
  destruct (truthy body); cbn -[check_user_body create_ride_body not_in_text];
    [| intros _; repeat (branch; cbn); settle].
  destruct (CreateRideRequests_init body) as [rr|e];
    cbn -[check_user_body create_ride_body not_in_text];
    [| intros _; repeat (branch; cbn); settle].
  destruct (outbound E (UsersGet _)) as [st tx js|];
    cbn -[check_user_body create_ride_body not_in_text];
    [| intros _; repeat (branch; cbn); settle].
  destruct (outbound E (DbWrite _)) as [st' tx' js'|];
    cbn -[check_user_body create_ride_body not_in_text].
  - destruct (not_in_text _ tx) as [[]|e];
      cbn -[check_user_body create_ride_body];
      [ intros _; repeat (branch; cbn -[check_user_body create_ride_body]); settle
      | | intros _; repeat (branch; cbn -[check_user_body create_ride_body]); settle ].
    destruct (st' =? 200)%Z; cbn -[check_user_body create_ride_body];
      [| intros _; repeat (branch; cbn); settle].
    destruct js'; cbn; [intros _; settle | done].
  - destruct (not_in_text _ tx) as [[]|e];
      cbn -[check_user_body create_ride_body]; intros _;
      repeat (branch; cbn -[check_user_body create_ride_body]); settle.
Qed.

End RidesMetrics.

Section MetricsInvariant.

Lemma accounted_balanced m m' :
  Spec.accounted m m' -> Spec.balanced m -> Spec.balanced m'.
Proof. unfold Spec.accounted, Spec.balanced. lia. Qed.

(** a request no counting view answers leaves the metrics alone *)
Lemma users_untracked_metrics req E w :
  Spec.users_tracked req = false ->
  metrics (snd (Users.handle req E w)) = metrics w.
Proof.
  destruct req as [meth pth mt jb ar].
  unfold Spec.users_tracked, Users.handle, full_dispatch_request,
    Users.before_request_handler, Users.dispatch_request, handle_user_exception,
    validate_json_content_type.
  cbn [path method].
  destruct pth, meth; cbn; try discriminate; intros Htr;
    rewrite ?Htr; try reflexivity;
    destruct (is_json _); reflexivity.
Qed.

Lemma users_tracked_metrics req E w :
  Spec.users_tracked req = true -> Spec.users_late_failure req E = false ->
  Spec.accounted (metrics w) (metrics (snd (Users.handle req E w))).
Proof.
  unfold Spec.users_tracked, Spec.users_late_failure.
  destruct (path req) eqn:Hp, (method req) eqn:Hm; try discriminate; intros Htr Hlate.
  - rewrite (users_handle_view req Users.list_users);
      [| by rewrite Hm; intros [|] | | apply users_list_users_never_raises];
      [| unfold Users.dispatch_request; by rewrite Hp, Hm].
    apply (users_list_users_accounted E (Spec.tick w)).
    intros st tx users Hout ->. rewrite Hout in Hlate.
    by apply negb_false_iff in Hlate.
  - rewrite users_handle_put by done.
    apply (users_add_user_accounted req E (Spec.tick w)).
  - rewrite (users_handle_view req (Users.delete_user username));
      [| by rewrite Hm; intros [|] | | apply users_delete_user_never_raises];
      [| unfold Users.dispatch_request; by rewrite Hp, Hm].
    apply (users_delete_user_accounted username E (Spec.tick w)).
Qed.

End MetricsInvariant.

Section RidesInvariant.
Import Rides.

Lemma join_ride_never_raises ride_id req : never_raises (join_ride ride_id req).
Proof. apply try_except_never_raises, on_validation_error_never_raises. Qed.

Lemma delete_ride_never_raises ride_id : never_raises (delete_ride ride_id).
Proof. apply try_except_never_raises, on_validation_error_never_raises. Qed.

Lemma get_ride_count_never_raises : never_raises get_ride_count.
Proof.
  apply try_except_never_raises. intros e. apply failed_then_ret_never_raises.
Qed.

Lemma rides_untracked_metrics req E w :
  Spec.rides_tracked req = false ->
  metrics (snd (Rides.handle req E w)) = metrics w.
Proof.
  destruct req as [meth pth mt jb ar].
  unfold Spec.rides_tracked, Rides.handle, full_dispatch_request,
    Rides.before_request_handler, Rides.dispatch_request, handle_user_exception,
    validate_json_content_type.
  cbn [path method].
  destruct pth, meth; cbn; try discriminate; intros Htr;
    rewrite ?Htr; try reflexivity;
    destruct (is_json _); reflexivity.
Qed.

Lemma rides_tracked_metrics req E w :
  Spec.rides_tracked req = true -> Spec.rides_late_failure req E = false ->
  Spec.accounted (metrics w) (metrics (snd (Rides.handle req E w))).
Proof.
  unfold Spec.rides_tracked.
  destruct (path req) eqn:Hp, (method req) eqn:Hm; try discriminate; intros Htr Hlate.
  - rewrite (rides_handle_view req (list_upcoming_rides req));
      [| by rewrite Hm | | apply list_upcoming_rides_never_raises];
      [| unfold dispatch_request; by rewrite Hp, Hm].
    apply (rides_list_upcoming_accounted req E (Spec.tick w)).
  - rewrite (rides_handle_view req (add_ride req));
      [| done | | apply add_ride_never_raises];
      [| unfold dispatch_request; by rewrite Hp, Hm].
    by apply (rides_add_ride_accounted req E (Spec.tick w)).
  - rewrite (rides_handle_view req (get_ride ride_id));
      [| by rewrite Hm | | apply get_ride_never_raises];
      [| unfold dispatch_request; by rewrite Hp, Hm].
    apply (rides_get_ride_accounted ride_id E (Spec.tick w)).
  - rewrite (rides_handle_view req (join_ride ride_id req));
      [| done | | apply join_ride_never_raises];
      [| unfold dispatch_request; by rewrite Hp, Hm].
    apply (rides_join_ride_accounted ride_id req E (Spec.tick w)).
  - rewrite (rides_handle_view req (delete_ride ride_id));
      [| by rewrite Hm | | apply delete_ride_never_raises];
      [| unfold dispatch_request; by rewrite Hp, Hm].
    apply (rides_delete_ride_accounted ride_id E (Spec.tick w)).
  - rewrite (rides_handle_view req get_ride_count);
      [| by rewrite Hm | | apply get_ride_count_never_raises];
      [| unfold dispatch_request; by rewrite Hp, Hm].
    apply (rides_get_ride_count_accounted E (Spec.tick w)).
Qed.

(** C7, as amended.  In both services: a request answered by one of the
    views that keep the metrics ([add_user], [delete_user], [list_users];
    [add_ride], [list_upcoming_rides], [get_ride], [get_ride_count],
    [join_ride], [delete_ride]) adds one to [total_requests] and one to
    exactly one of [successful_requests] and [failed_requests]; every
    other request (/, /health, /metrics, /api/v1/_count, a PUT or POST
    stopped by [before_request], an unknown route) leaves the three
    counters as they were.  So [total = successful + failed] is kept.
    Left out: [list_users] answered 200 with JSON that has no length, and
    [add_ride] whose write is answered 200 with a body that is not
    JSON. *)
Theorem C7_metrics_accounting :
  (forall req E w,
      Spec.users_late_failure req E = false ->
      let m := metrics w in
      let m' := metrics (snd (Users.handle req E w)) in
      (if Spec.users_tracked req then Spec.accounted m m' else m' = m)
      /\ (Spec.balanced m -> Spec.balanced m'))
  /\ (forall req E w,
      Spec.rides_late_failure req E = false ->
      let m := metrics w in
      let m' := metrics (snd (Rides.handle req E w)) in
      (if Spec.rides_tracked req then Spec.accounted m m' else m' = m)
      /\ (Spec.balanced m -> Spec.balanced m')).
Proof.
  split; intros req E w Hlate m m'; subst m m'.
  - destruct (Spec.users_tracked req) eqn:Htr.
    + pose proof (users_tracked_metrics req E w Htr Hlate) as Hacc.
      split; [done | by apply accounted_balanced].
    + rewrite (users_untracked_metrics req E w Htr). done.
  - destruct (Spec.rides_tracked req) eqn:Htr.
    + pose proof (rides_tracked_metrics req E w Htr Hlate) as Hacc.
      split; [done | by apply accounted_balanced].
    + rewrite (rides_untracked_metrics req E w Htr). done.
Qed.

(** C7, witness: the PUT of the tests, from counters 3 = 2 + 1 *)
Lemma C7_metrics_accounting_witness :
  let r := Users.handle (Samples.put_users "application/json" Samples.alice)
                        Samples.db_empty Samples.w0 in
  Spec.accounted (metrics Samples.w0) (metrics (snd r))
  /\ Spec.balanced (metrics (snd r)).
Proof.
  intros r.
  pose proof (proj1 C7_metrics_accounting
                (Samples.put_users "application/json" Samples.alice)
                Samples.db_empty Samples.w0 eq_refl) as [H1 H2].
  exact (conj H1 (H2 eq_refl)).
Defined.

(** C7, counterexample to the claim as stated: GET /health is handled
    and answered 200, and [total_requests] is what it was. *)
Lemma C7_counterexample :
  let r := Users.handle (Samples.get_ _ Users.HealthPath ∅) Samples.db_empty Samples.w0 in
  (exists data, fst r = Ok (Response 200 (Success (Some data) None)))
  /\ total_requests (metrics (snd r)) = total_requests (metrics Samples.w0)
  /\ total_requests (metrics (snd r)) <> (total_requests (metrics Samples.w0) + 1)%Z.
Proof.
  split; [by eexists |]. split; [reflexivity | discriminate].
Qed.

(** the case C7 leaves out: the ride is written, the database answers
    200 with a body that is not JSON, and the request is counted both as
    a success and as a failure *)
Example add_ride_counted_twice :
  let E := {| outbound := fun c =>
                match c with
                | UsersGet _ => Reply 200 "alice" None
                | _ => Reply 200 "OK" None
                end;
              VERSION := "1.0.0" |} in
  let d : gmap string json :=
    {[ "created_by" := JStr "alice"; "source" := JNum 5; "destination" := JNum 10;
       "timestamp" := JStr "01-01-2024:30-15-10" ]} in
  let r := Rides.handle (Samples.post_rides "application/json" (JObj d)) E Samples.w0 in
  fst r = Ok (Response 500 (Failure "Internal server error" 500))
  /\ metrics (snd r)
     = {| total_requests := 4; successful_requests := 3; failed_requests := 2 |}.
Proof. vm_compute. done. Qed.

(** the same in [list_users]: the database answers 200 with the number 5,
    [len(users)] raises after the success has been counted *)
Example list_users_counted_twice :
  let E := {| outbound := fun _ => Reply 200 "5" (Some (JNum 5)); VERSION := "1.0.0" |} in
  let r := Users.handle (Samples.get_ _ Users.UsersPath ∅) E Samples.w0 in
  fst r = Ok (Response 500 (Failure "Internal server error" 500))
  /\ metrics (snd r)
     = {| total_requests := 4; successful_requests := 3; failed_requests := 2 |}.
Proof. vm_compute. done. Qed.

End RidesInvariant.

(* ================================================================== *)
(** * Further properties of the validators *)

Section MoreValidators.
Import Validators UserRequests.

Lemma validate_password_accepts p r :
  validate_password (JStr p) = Ok r <->
  r = p /\ exists h, Spec.sha1_format h = true /\ (p = h \/ p = h +:+ Spec.newline).
Proof.
  unfold validate_password. split.
  - destruct (truthy (JStr p)); [| done]. cbn [negb].
    destruct (Re.match_ Patterns.sha1_re p) as [x|] eqn:Hm; [| done].
    intros [= <-]. split; [done |]. by eapply sha1_match_inv.
  - intros [-> (h & Hh & Hp)].
    assert (p <> EmptyString) as Hne.
    { destruct Hp as [-> | ->]; intros E; [by rewrite E in Hh |].
      by destruct h. }
    rewrite truthy_str by done. cbn [negb].
    destruct Hp as [-> | ->].
    + pose proof (sha1_match_intro h EmptyString Hh eq_refl) as Hm.
      rewrite append_nil_r in Hm. by rewrite Hm.
    + by rewrite (sha1_match_intro h Spec.newline Hh eq_refl).
Qed.

(** X1.  [validate_password] accepts a string exactly when it is 40
    hexadecimal characters, optionally followed by one newline, and
    returns the string it was given. *)
Theorem X1_validate_password_accepts p r :
  validate_password (JStr p) = Ok r <->
  r = p /\ exists h, Spec.sha1_format h = true /\ (p = h \/ p = h +:+ Spec.newline).
Proof. apply validate_password_accepts. Qed.

(** X2.  What [validate_username] returns is of the format
    [[A-Za-z0-9_]{1,50}] and is a fixed point: validated again, it comes
    back unchanged. *)
Theorem X2_validate_username_idempotent s r :
  validate_username (JStr s) = Ok r ->
  Spec.username_format r = true /\ validate_username (JStr r) = Ok r.
Proof.
  intros H. apply validate_username_sound in H as [Hf _].
  split; [done | by apply validate_username_format].
Qed.

(** X2, witness: a name with a final newline comes back trimmed *)
Lemma X2_validate_username_idempotent_witness :
  Spec.username_format "abc" = true /\ validate_username (JStr "abc") = Ok "abc".
Proof.
  exact (X2_validate_username_idempotent ("abc" +:+ Spec.newline) "abc" eq_refl).
Defined.

(** X3.  [CreateUserRequest.from_dict] raises nothing but
    [ValidationError], whatever it is given: a value that is no
    dictionary, a missing key, an ill-typed or ill-formed field. *)
Theorem X3_from_dict_raises_validation_error_only data e :
  from_dict data = Raise e -> exn_class e = C_ValidationError.
Proof.
  unfold from_dict. destruct data as [| | | |l|d]; try by intros [= <-].
  unfold required_fields. rewrite !filter_cons, filter_nil.
  destruct (d !! "username") as [u|] eqn:Hu, (d !! "password") as [p|] eqn:Hp;
    rewrite ?decide_True, ?decide_False by done; try by intros [= <-].
  unfold validate, validate_username, validate_password.
  repeat (branch; cbn -[Re.match_ PyStr.strip]); by intros [= <-].
Qed.

(** X3, witness: a dictionary without a password *)
Lemma X3_from_dict_raises_validation_error_only_witness :
  exists e, from_dict (JObj {[ "username" := JStr "testuser" ]}) = Raise e
            /\ exn_class e = C_ValidationError.
Proof.
  eexists. split; [reflexivity |].
  exact (X3_from_dict_raises_validation_error_only
           (JObj {[ "username" := JStr "testuser" ]}) _ eq_refl).
Defined.

(** X4.  Whatever the dataclass [CreateUserRequest] accepts, the legacy
    [CreateUserRequests] accepts too: it keeps the password, and keeps
    the username as it came, which is the validated name or that name
    followed by a newline. *)
Theorem X4_dataclass_stricter_than_legacy d r :
  from_dict (JObj d) = Ok r ->
  exists u,
    CreateUserRequests_init (JObj d)
    = Ok {| _username := JStr u; _password := JStr (password r) |}
    /\ (u = username r \/ u = username r +:+ Spec.newline).
Proof.
  unfold from_dict, required_fields. rewrite !filter_cons, filter_nil.
  destruct (d !! "username") as [uv|] eqn:Hu, (d !! "password") as [pv|] eqn:Hp;
    rewrite ?decide_True, ?decide_False by done; try done.
  unfold validate.
  destruct (validate_username uv) as [u'|e] eqn:Hvu; cbn [rbind];
    [| by destruct (isinstance e _)].
  destruct (validate_password pv) as [p'|e] eqn:Hvp; cbn [rbind];
    [| by destruct (isinstance e _)].
  intros [= <-]. cbn [username password].
  assert (exists s, uv = JStr s) as [s ->].
  { unfold validate_username in Hvu. destruct (truthy uv); [| done].
    destruct uv; try done. by eexists. }
  assert (exists p, pv = JStr p) as [p ->].
  { unfold validate_password in Hvp. destruct (truthy pv); [| done].
    destruct pv; try done. by eexists. }
  apply validate_username_sound in Hvu as [_ Hs].
  apply validate_password_accepts in Hvp as [-> Hacc].
  exists s. split; [| done].
  rewrite (CreateUserRequests_init_dict d _ _ Hu Hp).
  apply validatePassword_accepts in Hacc.
  destruct (validatePassword (JStr p)) as [p''|] eqn:Hlp; [| done].
  unfold validatePassword in Hlp. destruct (Re.search _ _); [| done].
  by injection Hlp as <-.
Qed.

(** X4, witness: the user of the tests *)
Lemma X4_dataclass_stricter_than_legacy_witness :
  exists u,
    CreateUserRequests_init Samples.alice
    = Ok {| _username := JStr u; _password := JStr Samples.sha1_of_test |}
    /\ (u = "alice" \/ u = "alice" +:+ Spec.newline).
Proof.
  exact (X4_dataclass_stricter_than_legacy
           {[ "username" := JStr "alice"; "password" := JStr Samples.sha1_of_test ]}
           {| username := "alice"; password := Samples.sha1_of_test |} eq_refl).
Defined.

End MoreValidators.

Section MoreRideValidators.
Import RidesConfig RidesValidators RideDataclass RideRequests.

Lemma Config_init_ok fields c :
  Config_init fields = Ok c ->
  MIN_SOURCE_DESTINATION c = MIN_SOURCE_DESTINATION fields
  /\ MAX_SOURCE_DESTINATION c = MAX_SOURCE_DESTINATION fields
  /\ (MIN_SOURCE_DESTINATION fields <= MAX_SOURCE_DESTINATION fields)%Z
  /\ (1 <= PORT fields <= 65535)%Z /\ (1 <= REQUEST_TIMEOUT fields)%Z
  /\ DATABASE_URL fields <> EmptyString /\ USER_SERVICE_URL fields <> EmptyString.
Proof.
  unfold Config_init, _validate_config. cbn.
  destruct (Z.ltb_spec (PORT fields) 1); [done |].
  destruct (Z.ltb_spec 65535 (PORT fields)); [done |]. cbn.
  destruct (String.eqb_spec (DATABASE_URL fields) EmptyString); [done |].
  destruct (String.eqb_spec (USER_SERVICE_URL fields) EmptyString); [done |].
  destruct (Z.ltb_spec (REQUEST_TIMEOUT fields) 1); [done |].
  destruct (Z.ltb_spec (MAX_SOURCE_DESTINATION fields) (MIN_SOURCE_DESTINATION fields));
    [done |].
  intros [= <-]. cbn. repeat split; try done; lia.
Qed.

Lemma Config_init_raises fields e :
  Config_init fields = Raise e -> exn_class e = C_ValueError.
Proof.
  unfold Config_init, _validate_config. cbn.
  repeat (branch; cbn); by intros [= <-].
Qed.

Lemma validate_source_destination_int fields c v n ty :
  Config_init fields = Ok c -> as_int v = Some n ->
  validate_source_destination fields v ty
  = if ((n <? MIN_SOURCE_DESTINATION fields) || (MAX_SOURCE_DESTINATION fields <? n))%Z
    then Raise (InvalidLocationError ty v (MIN_SOURCE_DESTINATION fields)
                  (MAX_SOURCE_DESTINATION fields))
    else Ok v.
Proof.
  intros Hc Hn. pose proof (Config_init_ok _ _ Hc) as (Hmin & Hmax & _).
  unfold validate_source_destination. rewrite Hc. cbn [rbind].
  by rewrite Hn, Hmin, Hmax.
Qed.

(** X5.  Under a configuration that passes [_validate_config],
    [validate_source_destination] accepts an integer (or a boolean, read
    as 0 or 1) exactly when it lies between [MIN_SOURCE_DESTINATION] and
    [MAX_SOURCE_DESTINATION], and returns it as it came; the lower bound
    itself is always accepted, so the range is never empty.  Under a
    configuration that does not pass, it raises [ValueError] whatever the
    value. *)
Theorem X5_validate_source_destination_bounds fields :
  (forall c v n ty,
      Config_init fields = Ok c -> as_int v = Some n ->
      (validate_source_destination fields v ty = Ok v
       <-> (MIN_SOURCE_DESTINATION fields <= n <= MAX_SOURCE_DESTINATION fields)%Z)
      /\ (forall r, validate_source_destination fields v ty = Ok r -> r = v)
      /\ validate_source_destination fields (JNum (MIN_SOURCE_DESTINATION fields)) ty
         = Ok (JNum (MIN_SOURCE_DESTINATION fields)))
  /\ (forall e v ty,
      Config_init fields = Raise e ->
      validate_source_destination fields v ty = Raise e /\ exn_class e = C_ValueError).
Proof.
  split.
  - intros c v n ty Hc Hn.
    pose proof (Config_init_ok _ _ Hc) as (_ & _ & Hle & _).
    rewrite (validate_source_destination_int fields c v n ty Hc Hn).
    rewrite (validate_source_destination_int fields c (JNum _) _ ty Hc eq_refl).
    split; [| split].
    + destruct (Z.ltb_spec n (MIN_SOURCE_DESTINATION fields));
        destruct (Z.ltb_spec (MAX_SOURCE_DESTINATION fields) n); cbn;
        split; try done; lia.
    + intros r. by destruct (_ || _); intros [= <-].
    + destruct (Z.ltb_spec (MIN_SOURCE_DESTINATION fields) (MIN_SOURCE_DESTINATION fields));
        [lia |].
      destruct (Z.ltb_spec (MAX_SOURCE_DESTINATION fields) (MIN_SOURCE_DESTINATION fields));
        [lia | done].
  - intros e v ty He. split; [| by eapply Config_init_raises].
    unfold validate_source_destination. by rewrite He.
Qed.

(** X5, witness: the default configuration, location 198 *)
Lemma X5_validate_source_destination_bounds_witness :
  validate_source_destination defaults (JNum 198) "source" = Ok (JNum 198).
Proof.
  exact (proj2 (proj1 (proj1 (X5_validate_source_destination_bounds defaults)
                         _ (JNum 198) 198%Z "source" eq_refl eq_refl))
               ltac:(cbn; lia)).
Defined.

(** X6.  With the default configuration the dataclass validator and the
    legacy [validateSource] agree on every integer and boolean: the
    bounds 1 and 198 written into the legacy class are the defaults of
    [Config]. *)
Theorem X6_legacy_bounds_are_the_defaults v n ty :
  as_int v = Some n ->
  is_ok (validate_source_destination defaults v ty) = is_ok (validateSource v)
  /\ (is_ok (validateSource v) = true <-> (1 <= n <= 198)%Z).
Proof.
  intros Hn.
  rewrite (validate_source_destination_int defaults _ v n ty eq_refl Hn).
  unfold validateSource, validateLocation. cbn [MIN_SOURCE_DESTINATION MAX_SOURCE_DESTINATION defaults].
  assert (py_int v = Ok n) as ->.
  { destruct v; try done; cbn in Hn |- *; congruence. }
  destruct (Z.ltb_spec n 1), (Z.ltb_spec 198 n); cbn; split; try done;
    split; try done; lia.
Qed.

(** X6, witness: [True] counts as location 1 on both paths *)
Lemma X6_legacy_bounds_are_the_defaults_witness :
  is_ok (validate_source_destination defaults (JBool true) "source") = true
  /\ is_ok (validateSource (JBool true)) = true.
Proof.
  pose proof (X6_legacy_bounds_are_the_defaults (JBool true) 1 "source" eq_refl)
    as [H1 H2].
  pose proof (proj2 H2 ltac:(lia)) as H3.
  split; [by rewrite H1 | done].
Defined.




Lemma validate_created_by_same v r :
  _validate_username v = Ok r <-> Validators.validate_username v = Ok r.
Proof.
  unfold _validate_username, Validators.validate_username.
  destruct (truthy v); cbn [negb]; [| done].
  destruct v; try done.
  destruct (String.length (PyStr.strip s) =? 0)%nat; [done |].
  destruct (50 <? String.length s)%nat; [done |].
  by destruct (Re.match_ Patterns.username_re s).
Qed.

(** X9.  [CreateRideRequest._validate_username] and
    [utils.validators.validate_username] are the same check: each accepts
    what the other accepts and returns the same trimmed name. *)
Theorem X9_created_by_validated_like_username v r :
  _validate_username v = Ok r <-> Validators.validate_username v = Ok r.
Proof. apply validate_created_by_same. Qed.

End MoreRideValidators.

Section RequestBody.
Import RidesValidators.

Lemma prefix_append s t : String.prefix s (s +:+ t) = true.
Proof.
  induction s as [|c s IH]; [by destruct t |].
  rewrite append_cons. cbn. by destruct (ascii_dec c c).
Qed.

Lemma contains_prefix s t : PyStr.contains s (s +:+ t) = true.
Proof.
  pose proof (prefix_append s t) as H.
  destruct (s +:+ t); unfold PyStr.contains; fold PyStr.contains; by rewrite H.
Qed.

Lemma contains_join sep f l :
  In f l -> PyStr.contains f (UserRequests.join sep l) = true.
Proof.
  induction l as [|x l IH]; [done |].
  intros [-> | Hin].
  - destruct l; [apply contains_refl | apply contains_prefix].
  - destruct l as [|y l]; [done |].
    change (UserRequests.join sep (x :: y :: l))
      with (x +:+ sep +:+ UserRequests.join sep (y :: l)).
    apply contains_append_l, contains_append_l. by apply IH.
Qed.

Lemma missing_spec d f :
  missing d f = true <-> d !! f = None \/ d !! f = Some JNull.
Proof.
  unfold missing. destruct (d !! f) as [[]|]; split; try done; try by intros [|].
  all: by auto.
Qed.

(** X10.  [validate_request_body] on a dictionary: it returns the
    dictionary itself exactly when the dictionary is not empty and every
    required field is present with a value other than [None]; otherwise
    it raises a [ValidationError], and when fields are missing or [None]
    the message names every one of them, not only the first.  An empty
    dictionary is refused even when no field is required. *)
Theorem X10_validate_request_body (d : gmap string json) required :
  (validate_request_body (JObj d) required = Ok (JObj d)
   <-> d <> ∅ /\ forall f, In f required ->
                           exists v, d !! f = Some v /\ v <> JNull)
  /\ (forall e, validate_request_body (JObj d) required = Raise e ->
                exn_class e = C_ValidationError)
  /\ (d <> ∅ ->
      forall e, validate_request_body (JObj d) required = Raise e ->
      exists msg, e = ValidationError (TLit msg)
                  /\ forall f, In f required ->
                               d !! f = None \/ d !! f = Some JNull ->
                               PyStr.contains f msg = true)
  /\ validate_request_body (JObj ∅) required
     = Raise (ValidationError "Request body is required").
Proof.
  assert (truthy (JObj d) = true <-> d <> ∅) as Htr.
  { cbn. rewrite negb_true_iff, bool_decide_eq_false. done. }
  unfold validate_request_body.
  destruct (truthy (JObj d)) eqn:Ht; cbn [negb].
  - apply proj1 in Htr. specialize (Htr eq_refl).
    destruct (List.filter (missing d) required) as [|m ms] eqn:Hf.
    + split; [| split; [done | split; [done |]]].
      * split; [intros _ | done]. split; [done |]. intros f Hin.
        assert (missing d f = false) as Hm.
        { destruct (missing d f) eqn:Hm; [| done].
          assert (In f (List.filter (missing d) required)) as Hin'
            by (apply filter_In; done).
          by rewrite Hf in Hin'. }
        unfold missing in Hm. destruct (d !! f) as [v|]; [| done].
        exists v. split; [done |]. by intros ->.
      * cbn. rewrite bool_decide_eq_true_2 by done. done.
    + split; [| split; [by intros e [= <-] | split]].
      * split; [done |]. intros [_ Hall].
        assert (In m (List.filter (missing d) required)) as Hin
          by (rewrite Hf; by left).
        apply filter_In in Hin as [Hin Hm].
        destruct (Hall m Hin) as (v & Hv & Hne).
        unfold missing in Hm. rewrite Hv in Hm. by destruct v.
      * intros _ e [= <-].
        exists ("Missing required fields: " +:+ UserRequests.join ", " (m :: ms)).
        split; [reflexivity |]. intros f Hin Hmiss.
        apply (contains_append_l f "Missing required fields: "
                 (UserRequests.join ", " (m :: ms))).
        apply contains_join. rewrite <- Hf.
        apply filter_In. split; [done |]. by apply missing_spec.
      * cbn. rewrite bool_decide_eq_true_2 by done. done.
  - assert (d = ∅) as ->.
    { destruct (decide (d = ∅)) as [|Hne]; [done |].
      apply Htr in Hne. congruence. }
    split; [| split; [by intros e [= <-] | split; [done | done]]].
    split; [done | by intros [? _]].
Qed.

End RequestBody.

Section RideDataclassFacts.
Import RidesConfig RidesValidators RideDataclass RideRequests.

Lemma validate_timestamp_format_match ts :
  is_Some (Re.match_ Patterns.timestamp_pattern ts) ->
  validate_timestamp_format (JStr ts) = Ok ts.
Proof.
  intros [x Hx]. unfold validate_timestamp_format.
  rewrite truthy_str by (intros ->; discriminate Hx).
  cbn [negb]. by rewrite Hx.
Qed.

(** X11.  Round trip of the dataclass [CreateRideRequest]: a dictionary
    with exactly the four keys, [created_by] of the format
    [[A-Za-z0-9_]{1,50}], [source] and [destination] integers within the
    configured bounds and [timestamp] matching the fixed-width pattern,
    goes through [from_dict] and comes back from [to_dict] as the same
    dictionary. *)
Theorem X11_ride_from_dict_to_dict_roundtrip fields c (d : gmap string json)
    u sv dv a b ts :
  Config_init fields = Ok c ->
  d !! "created_by" = Some (JStr u) -> d !! "source" = Some sv ->
  d !! "destination" = Some dv -> d !! "timestamp" = Some (JStr ts) ->
  (forall k, k <> "created_by" -> k <> "source" -> k <> "destination" ->
             k <> "timestamp" -> d !! k = None) ->
  Spec.username_format u = true ->
  as_int sv = Some a -> as_int dv = Some b ->
  (MIN_SOURCE_DESTINATION fields <= a <= MAX_SOURCE_DESTINATION fields)%Z ->
  (MIN_SOURCE_DESTINATION fields <= b <= MAX_SOURCE_DESTINATION fields)%Z ->
  is_Some (Re.match_ Patterns.timestamp_pattern ts) ->
  exists r, from_dict fields (JObj d) = Ok r /\ to_dict r = d.
Proof.
  intros Hc Hu Hs Hd Ht Hother Hfu Ha Hb Hra Hrb Hts.
  exists {| created_by := u; source := sv; destination := dv; timestamp := ts |}.
  split.
  - unfold from_dict, required_fields.
    rewrite !filter_cons, filter_nil.
    rewrite !decide_False by (rewrite ?Hu, ?Hs, ?Hd, ?Ht; done).
    rewrite Hu, Hs, Hd, Ht. unfold validate.
    rewrite (proj2 (validate_created_by_same (JStr u) u)
               (validate_username_format _ Hfu)).
    rewrite (validate_source_destination_int fields c sv a _ Hc Ha).
    rewrite (validate_source_destination_int fields c dv b _ Hc Hb).
    replace (a <? MIN_SOURCE_DESTINATION fields)%Z with false
      by (symmetry; apply Z.ltb_ge; lia).
    replace (MAX_SOURCE_DESTINATION fields <? a)%Z with false
      by (symmetry; apply Z.ltb_ge; lia).
    replace (b <? MIN_SOURCE_DESTINATION fields)%Z with false
      by (symmetry; apply Z.ltb_ge; lia).
    replace (MAX_SOURCE_DESTINATION fields <? b)%Z with false
      by (symmetry; apply Z.ltb_ge; lia).
    cbn [orb rbind]. by rewrite (validate_timestamp_format_match _ Hts).
  - unfold to_dict. cbn [created_by source destination timestamp].
    apply map_eq. intros k.
    destruct (decide (k = "created_by")) as [-> | Hk1]; [by rewrite lookup_insert_eq |].
    rewrite lookup_insert_ne by done.
    destruct (decide (k = "source")) as [-> | Hk2]; [by rewrite lookup_insert_eq |].
    rewrite lookup_insert_ne by done.
    destruct (decide (k = "destination")) as [-> | Hk3]; [by rewrite lookup_insert_eq |].
    rewrite lookup_insert_ne by done.
    destruct (decide (k = "timestamp")) as [-> | Hk4]; [by rewrite lookup_singleton_eq |].
    rewrite lookup_singleton_ne by done. by rewrite Hother.
Qed.

End RideDataclassFacts.

Section RideDataclassErrors.
Import RidesConfig RidesValidators RideDataclass RideRequests.

(** X10, witness: one field present, one [None], one absent *)
Lemma X10_validate_request_body_witness :
  let d : gmap string json := {[ "username" := JStr "alice"; "password" := JNull ]} in
  exists msg,
    validate_request_body (JObj d) ["username"; "password"; "email"]
    = Raise (ValidationError (TLit msg))
    /\ PyStr.contains "password" msg = true /\ PyStr.contains "email" msg = true.
Proof.
  intros d.
  assert (d <> ∅) as Hne by (intros E; by apply (f_equal (lookup "username")) in E).
  destruct (proj1 (proj2 (proj2 (X10_validate_request_body d
              ["username"; "password"; "email"])))
              Hne _ eq_refl) as (msg & Hmsg & Hall).
  exists msg. split; [rewrite <- Hmsg; reflexivity |].
  split; apply Hall; cbn; auto.
Defined.

(** X11, witness: alice, from 5 to 10, under the default configuration *)
Lemma X11_ride_from_dict_to_dict_roundtrip_witness :
  let d : gmap string json :=
    {[ "created_by" := JStr "alice"; "source" := JNum 5; "destination" := JNum 10;
       "timestamp" := JStr "01-01-2024:30-15-10" ]} in
  exists r, from_dict defaults (JObj d) = Ok r /\ to_dict r = d.
Proof.
  intros d.
  apply (X11_ride_from_dict_to_dict_roundtrip defaults _ d "alice" (JNum 5) (JNum 10)
           5 10 "01-01-2024:30-15-10" eq_refl eq_refl eq_refl eq_refl eq_refl);
    try reflexivity; try (cbn; lia); try by eexists.
  intros k H1 H2 H3 H4. subst d.
  rewrite !lookup_insert_ne by done. by rewrite lookup_singleton_ne.
Defined.

(** X12.  The class of the error [CreateRideRequest.from_dict] raises for
    a bad [source] depends on the defect.  A source that is no integer
    gives a [ValidationError] whose message starts "Invalid ride data: ".
    An integer out of bounds gives [InvalidLocationError], which is not a
    [ValidationError]: [validate] lets it through as it is, without the
    prefix. *)
Theorem X12_location_error_not_wrapped fields c (d : gmap string json) u sv dv tv :
  Config_init fields = Ok c ->
  d !! "created_by" = Some (JStr u) -> d !! "source" = Some sv ->
  d !! "destination" = Some dv -> d !! "timestamp" = Some tv ->
  Spec.username_format u = true ->
  (as_int sv = None ->
   from_dict fields (JObj d)
   = Raise (ValidationError ("Invalid ride data: " +++ "source must be an integer")))
  /\ (forall a, as_int sv = Some a ->
      (a < MIN_SOURCE_DESTINATION fields \/ MAX_SOURCE_DESTINATION fields < a)%Z ->
      let e := InvalidLocationError "source" sv (MIN_SOURCE_DESTINATION fields)
                 (MAX_SOURCE_DESTINATION fields) in
      from_dict fields (JObj d) = Raise e /\ isinstance e C_ValidationError = false).
Proof.
  intros Hc Hu Hs Hd Ht Hfu.
  pose proof (Config_init_ok _ _ Hc) as (Hmin & Hmax & _).
  assert (forall x, from_dict fields (JObj d) = x <->
                    validate fields (JStr u) sv dv tv = x) as Hfd.
  { intros x. unfold from_dict, required_fields.
    rewrite !filter_cons, filter_nil.
    rewrite !decide_False by (rewrite ?Hu, ?Hs, ?Hd, ?Ht; done).
    by rewrite Hu, Hs, Hd, Ht. }
  split.
  - intros Hn. apply Hfd. unfold validate.
    rewrite (proj2 (validate_created_by_same (JStr u) u)
               (validate_username_format _ Hfu)).
    cbn [rbind]. unfold validate_source_destination at 1.
    rewrite Hc, Hn. reflexivity.
  - intros a Ha Hout e. split; [| done]. apply Hfd. unfold validate.
    rewrite (proj2 (validate_created_by_same (JStr u) u)
               (validate_username_format _ Hfu)).
    cbn [rbind].
    rewrite (validate_source_destination_int fields c sv a _ Hc Ha).
    assert ((a <? MIN_SOURCE_DESTINATION fields)
            || (MAX_SOURCE_DESTINATION fields <? a) = true)%Z as ->.
    { apply orb_true_iff. destruct Hout; [left | right]; by apply Z.ltb_lt. }
    reflexivity.
Qed.

(** X12, witness: location 199 under the default configuration *)
Lemma X12_location_error_not_wrapped_witness :
  let d : gmap string json :=
    {[ "created_by" := JStr "alice"; "source" := JNum 199; "destination" := JNum 10;
       "timestamp" := JStr "01-01-2024:30-15-10" ]} in
  from_dict defaults (JObj d) = Raise (InvalidLocationError "source" (JNum 199) 1 198).
Proof.
  intros d.
  exact (proj1 (proj2 (X12_location_error_not_wrapped defaults _ d "alice" (JNum 199)
                  (JNum 10) (JStr "01-01-2024:30-15-10")
                  eq_refl eq_refl eq_refl eq_refl eq_refl eq_refl)
                  199%Z eq_refl ltac:(right; cbn; lia))).
Defined.

End RideDataclassErrors.

Section PaginationFacts.
Import Pagination.

Lemma total_pages_ceiling per_page total :
  (0 < per_page)%Z ->
  ((total_pages per_page total - 1) * per_page < total
   <= total_pages per_page total * per_page)%Z.
Proof.
  intros Hp. unfold total_pages.
  pose proof (Z.div_mod (total + per_page - 1) per_page ltac:(lia)) as Hdm.
  pose proof (Z.mod_pos_bound (total + per_page - 1) per_page Hp) as Hb.
  nia.
Qed.

(** X13.  [create_pagination_response] with a positive page size: the
    envelope carries the items and a [pagination] object in which
    [total_pages] is the number of pages needed for [total] items (the
    least [n] with [n * per_page >= total]), [has_next] is true exactly
    when items remain after this page ([page * per_page < total]) and
    [has_prev] exactly when the page is beyond the first.  With page size
    0 the division raises. *)
Theorem X13_pagination data page per_page total status_code :
  ((0 < per_page)%Z ->
   create_pagination_response data page per_page total status_code
   = Ok (Response status_code
           (Success (Some (JObj {[ "data" := JArr data;
                                   "pagination" := JObj (pagination page per_page total) ]}))
                    None))
   /\ (exists n,
        pagination page per_page total !! "total_pages" = Some (JNum n)
        /\ (total <= n * per_page)%Z
        /\ (forall m, total <= m * per_page -> n <= m)%Z)
   /\ (exists b,
        pagination page per_page total !! "has_next" = Some (JBool b)
        /\ (b = true <-> (page * per_page < total)%Z))
   /\ (exists b,
        pagination page per_page total !! "has_prev" = Some (JBool b)
        /\ (b = true <-> (1 < page)%Z)))
  /\ create_pagination_response data page 0 total status_code = Raise ZeroDivisionError.
Proof.
  split; [| reflexivity]. intros Hp.
  pose proof (total_pages_ceiling per_page total Hp) as Hc.
  split; [| split; [| split]].
  - unfold create_pagination_response.
    destruct (Z.eqb_spec per_page 0) as [-> | _]; [lia | reflexivity].
  - exists (total_pages per_page total). split; [reflexivity |].
    split; [lia |]. intros m Hm. nia.
  - eexists. split; [reflexivity |]. rewrite Z.ltb_lt. split; intros; nia.
  - eexists. split; [reflexivity |]. by rewrite Z.ltb_lt.
Qed.

(** X13, witness: 45 items, 10 to a page, page 5 *)
Lemma X13_pagination_witness :
  exists b, pagination 5 10 45 !! "has_next" = Some (JBool b)
            /\ (b = true <-> (5 * 10 < 45)%Z).
Proof.
  exact (proj1 (proj2 (proj2 (proj1 (X13_pagination [] 5 10 45 200) ltac:(lia))))).
Defined.

End PaginationFacts.

(* ================================================================== *)
(** * Further properties of the Users views *)

Section MoreUsers.
Import UserRequests Users.

(** the DELETE view, outcome by outcome of the two database calls *)
Lemma delete_user_run username E w :
  username <> EmptyString ->
  let rd := DbRead (JObj (check_user_body (JStr username))) in
  let wr := DbWrite (JObj {[ "action" := JStr "delete_user";
                             "username" := JStr username ]}) in
  let world c s f :=
    {| http_request_counter := http_request_counter w;
       metrics := {| total_requests := total_requests (metrics w) + 1;
                     successful_requests := successful_requests (metrics w) + s;
                     failed_requests := failed_requests (metrics w) + f |};
       calls := calls w ++ c |} in
  let e500 := create_error_response "Internal server error" 500 in
  delete_user username E w =
  match outbound E rd with
  | NoReply => (Ok e500, world [rd] 0 1)
  | Reply st _ _ =>
      if (st =? 200)%Z then
        match outbound E wr with
        | NoReply => (Ok e500, world [rd; wr] 0 1)
        | Reply st' _ _ =>
            if (st' =? 200)%Z then
              (Ok (create_response JNull "User deleted successfully" 200),
               world [rd; wr] 1 0)
            else (Ok e500, world [rd; wr] 0 1)
        end
      else
        (Ok (create_error_response
               ("404 Not Found: " +++ "User " +++ TVal (JStr username) +++ " not found")
               400),
         world [rd] 0 1)
  end%Z.
Proof.
  intros Hne. cbv zeta.
  unfold delete_user. unfold_monad.
  replace (String.eqb username EmptyString) with false
    by (symmetry; by apply String.eqb_neq).
  destruct (outbound E (DbRead _)) as [st tx js|]; cbn -[check_user_body].
  - destruct (st =? 200)%Z; cbn -[check_user_body].
    + destruct (outbound E (DbWrite _)) as [st' tx' js'|]; cbn -[check_user_body].
      * destruct (st' =? 200)%Z; cbn -[check_user_body];
          rewrite <- ?app_assoc, ?Z.add_0_r; reflexivity.
      * rewrite <- ?app_assoc, ?Z.add_0_r; reflexivity.
    + rewrite ?Z.add_0_r. reflexivity.
  - rewrite ?Z.add_0_r. reflexivity.
Qed.

Lemma users_handle_delete req username E w :
  method req = DELETE -> path req = UserPath username ->
  Users.handle req E w = delete_user username E (Spec.tick w).
Proof.
  intros Hm Hp. apply users_handle_view;
    [by rewrite Hm; intros [|] | | apply users_delete_user_never_raises].
  unfold dispatch_request. by rewrite Hm, Hp.
Qed.

(** X14.  DELETE /api/v1/users/<username>.  The [delete_user] write is
    issued exactly when the [get_user] read was answered 200.  A read
    answered otherwise gives 400, with a message that ends "not found"
    (and starts with werkzeug's "404 Not Found: "); a write answered 200
    gives 200 "User deleted successfully"; a write answered otherwise
    gives 500. *)
Theorem X14_delete_user req username E w :
  method req = DELETE -> path req = UserPath username -> username <> EmptyString ->
  let r := Users.handle req E w in
  let rd := DbRead (JObj {[ "action" := JStr "get_user"; "username" := JStr username ]}) in
  let wr := DbWrite (JObj {[ "action" := JStr "delete_user";
                             "username" := JStr username ]}) in
  (forall st tx js,
      outbound E rd = Reply st tx js -> st <> 200%Z ->
      fst r = Ok (Response 400
                    (Failure ("404 Not Found: " +++ "User " +++ TVal (JStr username)
                              +++ " not found") 400))
      /\ calls (snd r) = calls w ++ [rd]
      /\ failed_requests (metrics (snd r)) = (failed_requests (metrics w) + 1)%Z)
  /\ (forall tx js st' tx' js',
      outbound E rd = Reply 200 tx js -> outbound E wr = Reply st' tx' js' ->
      calls (snd r) = calls w ++ [rd; wr]
      /\ (st' = 200%Z ->
          fst r = Ok (Response 200 (Success None (Some "User deleted successfully")))
          /\ successful_requests (metrics (snd r))
             = (successful_requests (metrics w) + 1)%Z)
      /\ (st' <> 200%Z ->
          fst r = Ok (Response 500 (Failure "Internal server error" 500))
          /\ failed_requests (metrics (snd r)) = (failed_requests (metrics w) + 1)%Z)).
Proof.
  intros Hm Hp Hne r rd wr. subst r.
  rewrite (users_handle_delete req username E w Hm Hp).
  rewrite (delete_user_run username E _ Hne).
  change (DbRead (JObj (check_user_body (JStr username)))) with rd.
  fold wr.
  split.
  - intros st tx js -> Hst. apply Z.eqb_neq in Hst as ->. cbn. by rewrite ?Z.add_0_r.
  - intros tx js st' tx' js' -> ->. cbn [Z.eqb Pos.eqb].
    destruct (Z.eqb_spec st' 200) as [-> | Hst]; cbn; rewrite ?Z.add_0_r; done.
Qed.

(** X14, witness: a database that knows nobody *)
Lemma X14_delete_user_witness :
  let r := Users.handle (Samples.delete_ _ (UserPath "nonexistent"))
                        Samples.db_empty Samples.w0 in
  fst r = Ok (Response 400
                (Failure ("404 Not Found: " +++ "User " +++ TVal (JStr "nonexistent")
                          +++ " not found") 400))
  /\ calls (snd r)
     = [DbRead (JObj {[ "action" := JStr "get_user";
                        "username" := JStr "nonexistent" ]})].
Proof.
  intros r.
  pose proof (proj1 (X14_delete_user (Samples.delete_ _ (UserPath "nonexistent"))
                       "nonexistent" Samples.db_empty Samples.w0
                       eq_refl eq_refl ltac:(discriminate))
                    404%Z EmptyString None eq_refl ltac:(discriminate)) as (H1 & H2 & _).
  exact (conj H1 H2).
Defined.

(** the GET view of the collection, outcome by outcome *)
Lemma list_users_run E w :
  let rd := DbRead (JObj list_users_body) in
  let world s f :=
    {| http_request_counter := http_request_counter w;
       metrics := {| total_requests := total_requests (metrics w) + 1;
                     successful_requests := successful_requests (metrics w) + s;
                     failed_requests := failed_requests (metrics w) + f |};
       calls := calls w ++ [rd] |} in
  let e500 := create_error_response "Internal server error" 500 in
  list_users E w =
  match outbound E rd with
  | Reply st _ js =>
      if (st =? 200)%Z then
        match js with
        | Some users =>
            match py_len users with
            | Ok _ => (Ok (create_response users EmptyString 200), world 1 0)
            | Raise _ => (Ok e500, world 1 1)
            end
        | None => (Ok e500, world 0 1)
        end
      else (Ok e500, world 0 1)
  | NoReply => (Ok e500, world 0 1)
  end%Z.
Proof.
  cbv zeta. unfold list_users. unfold_monad.
  destruct (outbound E (DbRead _)) as [st tx js|]; cbn -[list_users_body];
    [| by rewrite ?Z.add_0_r].
  destruct (st =? 200)%Z; cbn -[list_users_body]; [| by rewrite ?Z.add_0_r].
  destruct js as [users|]; cbn -[list_users_body]; [| by rewrite ?Z.add_0_r].
  destruct (py_len users); cbn -[list_users_body]; by rewrite ?Z.add_0_r.
Qed.

(** X15.  GET /api/v1/users makes one database read.  Answered 200 with
    a JSON list, it returns 200 with that list as [data], unchanged
    (the empty list included), and counts a success.  Answered with
    another status, with a body that is not JSON, or not at all, it
    returns the bare 500 "Internal server error" and counts a failure. *)
Theorem X15_list_users req E w :
  method req = GET -> path req = UsersPath ->
  let r := Users.handle req E w in
  let rd := DbRead (JObj {[ "action" := JStr "list_users" ]}) in
  calls (snd r) = calls w ++ [rd]
  /\ (forall tx l,
      outbound E rd = Reply 200 tx (Some (JArr l)) ->
      fst r = Ok (Response 200 (Success (Some (JArr l)) None))
      /\ successful_requests (metrics (snd r)) = (successful_requests (metrics w) + 1)%Z
      /\ failed_requests (metrics (snd r)) = failed_requests (metrics w))
  /\ ((outbound E rd = NoReply
       \/ (exists st tx js, outbound E rd = Reply st tx js /\ st <> 200%Z)
       \/ (exists tx, outbound E rd = Reply 200 tx None)) ->
      fst r = Ok (Response 500 (Failure "Internal server error" 500))
      /\ successful_requests (metrics (snd r)) = successful_requests (metrics w)
      /\ failed_requests (metrics (snd r)) = (failed_requests (metrics w) + 1)%Z).
Proof.
  intros Hm Hp r rd. subst r.
  rewrite (users_handle_view req list_users);
    [| by rewrite Hm; intros [|] | | apply users_list_users_never_raises];
    [| unfold dispatch_request; by rewrite Hp, Hm].
  rewrite list_users_run. change (DbRead (JObj list_users_body)) with rd.
  split; [| split].
  - destruct (outbound E rd) as [st tx [users|]|]; try done;
      destruct (st =? 200)%Z; try done. by destruct (py_len users).
  - intros tx l ->. cbn. by rewrite !Z.add_0_r.
  - intros [-> | [(st & tx & js & -> & Hst) | (tx & ->)]]; cbn; rewrite ?Z.add_0_r;
      try done.
    apply Z.eqb_neq in Hst as ->. cbn. by rewrite ?Z.add_0_r.
Qed.

(** X15, witness: the three users of the tests *)
Lemma X15_list_users_witness :
  let l := [JStr "user1"; JStr "user2"; JStr "user3"] in
  let E := {| outbound := fun _ => Reply 200 "..." (Some (JArr l)); VERSION := "1.0.0" |} in
  fst (Users.handle (Samples.get_ _ UsersPath ∅) E Samples.w0)
  = Ok (Response 200 (Success (Some (JArr l)) None)).
Proof.
  intros l E.
  exact (proj1 (proj1 (proj2 (X15_list_users (Samples.get_ _ UsersPath ∅) E Samples.w0
                  eq_refl eq_refl)) "..." l eq_refl)).
Defined.

(** X16.  PUT /api/v1/users with a body that passed validation: whenever
    the database fails (no reply to the read, no reply to the write, or a
    write answered with a status other than 200), the answer is the bare
    500 "Internal server error", the request is counted as failed and not
    as successful, and nothing the database said is passed on. *)
Theorem X16_add_user_database_failure req body ur E w :
  method req = PUT -> path req = UsersPath -> is_json req = true ->
  json_body req = Some body -> truthy body = true ->
  CreateUserRequests_init body = Ok ur ->
  let r := Users.handle req E w in
  let rd := DbRead (JObj (check_user_body (getUsername ur))) in
  let wr := DbWrite (JObj (create_user_body ur)) in
  (outbound E rd = NoReply
   \/ (exists st tx js, outbound E rd = Reply st tx js /\ st <> 200%Z
       /\ (outbound E wr = NoReply
           \/ exists st' tx' js', outbound E wr = Reply st' tx' js' /\ st' <> 200%Z))) ->
  fst r = Ok (Response 500 (Failure "Internal server error" 500))
  /\ failed_requests (metrics (snd r)) = (failed_requests (metrics w) + 1)%Z
  /\ successful_requests (metrics (snd r)) = successful_requests (metrics w).
Proof.
  intros Hm Hp Hj Hb Ht Hi r rd wr Hfail. subst r.
  rewrite users_handle_put by done.
  rewrite (add_user_validated req body ur E _ Hj Hb Ht Hi).
  fold rd wr.
  destruct Hfail as [-> | (st & tx & js & -> & Hst & Hw)]; cbn; rewrite ?Z.add_0_r;
    [done |].
  apply Z.eqb_neq in Hst as ->.
  destruct Hw as [-> | (st' & tx' & js' & -> & Hst')]; cbn; rewrite ?Z.add_0_r;
    [done |].
  apply Z.eqb_neq in Hst' as ->. cbn. by rewrite ?Z.add_0_r.
Qed.

(** X16, witness: the read misses, the write is refused with 503 *)
Lemma X16_add_user_database_failure_witness :
  let E := {| outbound := fun c => match c with
                                   | DbRead _ => Reply 404 EmptyString None
                                   | _ => Reply 503 "maintenance" None
                                   end;
              VERSION := "1.0.0" |} in
  fst (Users.handle (Samples.put_users "application/json" Samples.alice) E Samples.w0)
  = Ok (Response 500 (Failure "Internal server error" 500)).
Proof.
  intros E.
  refine (proj1 (X16_add_user_database_failure
            (Samples.put_users "application/json" Samples.alice) Samples.alice
            {| _username := JStr "alice"; _password := JStr Samples.sha1_of_test |}
            E Samples.w0 eq_refl eq_refl eq_refl eq_refl eq_refl eq_refl _)).
  right. exists 404%Z, EmptyString, None. split; [reflexivity |].
  split; [discriminate |]. right. exists 503%Z, "maintenance", None.
  split; [reflexivity | discriminate].
Defined.

End MoreUsers.
(* ================================================================== *)
(** * Further properties of the Rides views *)

Section MoreRides.
Import RideRequests Rides.

Lemma rides_handle_route req view E w :
  (method req = POST -> is_json req = true) ->
  dispatch_request req = view -> never_raises view ->
  Rides.handle req E w = view E (Spec.tick w).
Proof. apply rides_handle_view. Qed.

(** the GET view of one ride, outcome by outcome *)
Lemma get_ride_run ride_id E w :
  let rd := DbRead (JObj (get_ride_body ride_id)) in
  let world c s f :=
    {| http_request_counter := http_request_counter w;
       metrics := {| total_requests := total_requests (metrics w) + 1;
                     successful_requests := successful_requests (metrics w) + s;
                     failed_requests := failed_requests (metrics w) + f |};
       calls := c |} in
  let e500 := create_error_response "Internal server error" 500 in
  get_ride ride_id E w =
  (if (ride_id <=? 0)%Z then
     (Ok (create_error_response "Ride ID must be a positive integer" 400),
      world (calls w) 0 1)
   else
     match outbound E rd with
     | NoReply => (Ok e500, world (calls w ++ [rd]) 0 1)
     | Reply st _ js =>
         if (st =? 200)%Z then
           match js with
           | Some ride_data =>
               (Ok (create_response ride_data EmptyString 200),
                world (calls w ++ [rd]) 1 0)
           | None => (Ok e500, world (calls w ++ [rd]) 0 1)
           end
         else (Ok (create_response JNull EmptyString 204), world (calls w ++ [rd]) 1 0)
     end)%Z.
Proof.
  cbv zeta. unfold get_ride, on_validation_error. unfold_monad.
  destruct (ride_id <=? 0)%Z; cbn -[get_ride_body]; [by rewrite ?Z.add_0_r |].
  destruct (outbound E (DbRead _)) as [st tx js|]; cbn -[get_ride_body];
    [| by rewrite ?Z.add_0_r].
  destruct (st =? 200)%Z; cbn -[get_ride_body]; [| by rewrite ?Z.add_0_r].
  destruct js; cbn -[get_ride_body]; by rewrite ?Z.add_0_r.
Qed.

(** X17.  GET /api/v1/rides/<ride_id>.  An id that is not positive is
    refused with 400 before any call.  Otherwise there is exactly one
    database read; whatever status other than 200 the database answers
    with, an error of its own included, the answer is 204 and the request
    counts as a success; a 200 with a JSON body is passed through as
    [data]; only a missing reply or a 200 whose body is not JSON gives
    500. *)
Theorem X17_get_ride req ride_id E w :
  method req = GET -> path req = RidePath ride_id ->
  let r := Rides.handle req E w in
  let rd := DbRead (JObj {[ "action" := JStr "get_ride"; "ride_id" := JNum ride_id ]}) in
  ((ride_id <= 0)%Z ->
   fst r = Ok (Response 400 (Failure "Ride ID must be a positive integer" 400))
   /\ calls (snd r) = calls w)
  /\ ((0 < ride_id)%Z ->
      calls (snd r) = calls w ++ [rd]
      /\ (forall st tx js,
          outbound E rd = Reply st tx js -> st <> 200%Z ->
          fst r = Ok (Response 204 (Success None None))
          /\ successful_requests (metrics (snd r))
             = (successful_requests (metrics w) + 1)%Z
          /\ failed_requests (metrics (snd r)) = failed_requests (metrics w))
      /\ (forall tx ride_data,
          outbound E rd = Reply 200 tx (Some ride_data) ->
          fst r = Ok (create_response ride_data EmptyString 200))
      /\ (outbound E rd = NoReply \/ (exists tx, outbound E rd = Reply 200 tx None) ->
          fst r = Ok (Response 500 (Failure "Internal server error" 500)))).
Proof.
  intros Hm Hp r rd. subst r.
  rewrite (rides_handle_route req (get_ride ride_id));
    [| by rewrite Hm | unfold dispatch_request; by rewrite Hp, Hm
     | apply get_ride_never_raises].
  rewrite get_ride_run. change (DbRead (JObj (get_ride_body ride_id))) with rd.
  split.
  - intros Hle. apply Z.leb_le in Hle as ->. done.
  - intros Hlt. apply Z.leb_gt in Hlt as ->.
    split; [| split; [| split]].
    + destruct (outbound E rd) as [st tx [v|]|]; try done; by destruct (st =? 200)%Z.
    + intros st tx js -> Hst. apply Z.eqb_neq in Hst as ->. cbn. by rewrite ?Z.add_0_r.
    + by intros tx v ->.
    + by intros [-> | (tx & ->)].
Qed.

(** X17, witness: ride 3, a database that finds nothing *)
Lemma X17_get_ride_witness :
  let r := Rides.handle (Samples.get_ _ (RidePath 3) ∅) Samples.db_empty Samples.w0 in
  fst r = Ok (Response 204 (Success None None))
  /\ calls (snd r)
     = [DbRead (JObj {[ "action" := JStr "get_ride"; "ride_id" := JNum 3 ]})].
Proof.
  intros r.
  pose proof (proj2 (X17_get_ride (Samples.get_ _ (RidePath 3) ∅) 3 Samples.db_empty
                       Samples.w0 eq_refl eq_refl) ltac:(lia)) as (H1 & H2 & _).
  exact (conj (proj1 (H2 404%Z EmptyString None eq_refl ltac:(discriminate))) H1).
Defined.

(** the DELETE view of one ride, outcome by outcome *)
Lemma delete_ride_run ride_id E w :
  let wr := DbWrite (JObj {[ "action" := JStr "delete_ride";
                             "ride_id" := JNum ride_id ]}) in
  let world c s f :=
    {| http_request_counter := http_request_counter w;
       metrics := {| total_requests := total_requests (metrics w) + 1;
                     successful_requests := successful_requests (metrics w) + s;
                     failed_requests := failed_requests (metrics w) + f |};
       calls := c |} in
  let e500 := create_error_response "Internal server error" 500 in
  delete_ride ride_id E w =
  (if (ride_id <=? 0)%Z then
     (Ok (create_error_response "Ride ID must be a positive integer" 400),
      world (calls w) 0 1)
   else
     match outbound E wr with
     | NoReply => (Ok e500, world (calls w ++ [wr]) 0 1)
     | Reply st _ _ =>
         if (st =? 200)%Z then
           (Ok (create_response JNull "Ride deleted successfully" 200),
            world (calls w ++ [wr]) 1 0)
         else (Ok e500, world (calls w ++ [wr]) 0 1)
     end)%Z.
Proof.
  cbv zeta. unfold delete_ride, on_validation_error. unfold_monad.
  destruct (ride_id <=? 0)%Z; cbn; [by rewrite ?Z.add_0_r |].
  destruct (outbound E (DbWrite _)) as [st tx js|]; cbn; [| by rewrite ?Z.add_0_r].
  destruct (st =? 200)%Z; cbn; by rewrite ?Z.add_0_r.
Qed.

(** X18.  DELETE /api/v1/rides/<ride_id> writes without reading first:
    for a positive id the one outbound call is the [delete_ride] write,
    and the answer is 200 exactly when that write is answered 200, and
    500 otherwise; no outcome of the database gives 400 or 204.  An id
    that is not positive is refused with 400 before any call. *)
Theorem X18_delete_ride req ride_id E w :
  method req = DELETE -> path req = RidePath ride_id ->
  let r := Rides.handle req E w in
  let wr := DbWrite (JObj {[ "action" := JStr "delete_ride";
                             "ride_id" := JNum ride_id ]}) in
  ((ride_id <= 0)%Z ->
   fst r = Ok (Response 400 (Failure "Ride ID must be a positive integer" 400))
   /\ calls (snd r) = calls w)
  /\ ((0 < ride_id)%Z ->
      calls (snd r) = calls w ++ [wr]
      /\ (fst r = Ok (Response 200 (Success None (Some "Ride deleted successfully")))
          <-> exists tx js, outbound E wr = Reply 200 tx js)
      /\ (fst r = Ok (Response 500 (Failure "Internal server error" 500))
          <-> ~ exists tx js, outbound E wr = Reply 200 tx js)).
Proof.
  intros Hm Hp r wr. subst r.
  rewrite (rides_handle_route req (delete_ride ride_id));
    [| by rewrite Hm | unfold dispatch_request; by rewrite Hp, Hm
     | apply delete_ride_never_raises].
  rewrite delete_ride_run. fold wr.
  split.
  - intros Hle. apply Z.leb_le in Hle as ->. done.
  - intros Hlt. apply Z.leb_gt in Hlt as ->.
    destruct (outbound E wr) as [st tx js|] eqn:Hw.
    + destruct (Z.eqb_spec st 200) as [-> | Hst]; cbn.
      * split; [done |]. split; split; try done; [by eauto |].
        intros []. by eauto.
      * split; [done |]. split; split; try done.
        -- intros (tx' & js' & [= ? _ _]). done.
        -- intros _ (tx' & js' & [= ? _ _]). done.
    + cbn. split; [done |]. split; split; try done.
      * by intros (tx' & js' & ?).
      * by intros _ (tx' & js' & ?).
Qed.

(** X18, witness: ride 3, a database that accepts the write *)
Lemma X18_delete_ride_witness :
  let r := Rides.handle (Samples.delete_ _ (RidePath 3)) Samples.db_empty Samples.w0 in
  fst r = Ok (Response 200 (Success None (Some "Ride deleted successfully")))
  /\ calls (snd r)
     = [DbWrite (JObj {[ "action" := JStr "delete_ride"; "ride_id" := JNum 3 ]})].
Proof.
  intros r.
  pose proof (proj2 (X18_delete_ride (Samples.delete_ _ (RidePath 3)) 3 Samples.db_empty
                       Samples.w0 eq_refl eq_refl) ltac:(lia)) as (H1 & H2 & _).
  refine (conj (proj2 H2 _) H1).
  exists "{}", (Some (JObj ∅)). reflexivity.
Defined.

End MoreRides.
Section MoreRides2.
Import RideRequests Rides.

(** the POST view of one ride, once the body carries a string username *)
Lemma join_ride_run ride_id req d u E w :
  is_json req = true -> json_body req = Some (JObj d) ->
  d !! "username" = Some (JStr u) ->
  let ug := UsersGet (JObj {[ "username" := JStr u ]}) in
  let wr := DbWrite (JObj {[ "action" := JStr "join_ride";
                             "ride_id" := JNum ride_id;
                             "username" := JStr u ]}) in
  let world c s f :=
    {| http_request_counter := http_request_counter w;
       metrics := {| total_requests := total_requests (metrics w) + 1;
                     successful_requests := successful_requests (metrics w) + s;
                     failed_requests := failed_requests (metrics w) + f |};
       calls := calls w ++ c |} in
  let e500 := create_error_response "Internal server error" 500 in
  join_ride ride_id req E w =
  match outbound E ug with
  | NoReply => (Ok e500, world [ug] 0 1)
  | Reply _ tx _ =>
      if PyStr.contains u tx then
        match outbound E wr with
        | NoReply => (Ok e500, world [ug; wr] 0 1)
        | Reply st' _ _ =>
            if (st' =? 200)%Z then
              (Ok (create_response JNull "Successfully joined ride" 200),
               world [ug; wr] 1 0)
            else (Ok e500, world [ug; wr] 0 1)
        end
      else
        (Ok (create_error_response ("User " +++ TVal (JStr u) +++ " not found") 400),
         world [ug] 0 1)
  end%Z.
Proof.
  intros Hj Hb Hu. cbv zeta.
  unfold join_ride, on_validation_error. unfold_monad.
  unfold py_in, py_getitem, not_in_text.
  rewrite Hj, Hb, (truthy_dict d "username" (JStr u) Hu), Hu.
  rewrite bool_decide_eq_true_2 by eauto. cbn [negb].
  destruct (outbound E (UsersGet _)) as [st tx js|]; cbn; [| by rewrite ?Z.add_0_r].
  destruct (PyStr.contains u tx); cbn; [| by rewrite ?Z.add_0_r].
  destruct (outbound E (DbWrite _)) as [st' tx' js'|]; cbn;
    [| by rewrite <- ?app_assoc, ?Z.add_0_r].
  destruct (st' =? 200)%Z; cbn; by rewrite <- ?app_assoc, ?Z.add_0_r.
Qed.

(** the same view when the username is not a string: [in] raises *)
Lemma join_ride_run_ill_typed ride_id req d v E w :
  is_json req = true -> json_body req = Some (JObj d) ->
  d !! "username" = Some v -> (forall u, v <> JStr u) ->
  let ug := UsersGet (JObj {[ "username" := v ]}) in
  join_ride ride_id req E w =
  (Ok (create_error_response "Internal server error" 500),
   {| http_request_counter := http_request_counter w;
      metrics := {| total_requests := total_requests (metrics w) + 1;
                    successful_requests := successful_requests (metrics w);
                    failed_requests := failed_requests (metrics w) + 1 |};
      calls := calls w ++ [ug] |}).
Proof.
  intros Hj Hb Hv Hns. cbv zeta.
  unfold join_ride, on_validation_error. unfold_monad.
  unfold py_in, py_getitem, not_in_text.
  rewrite Hj, Hb, (truthy_dict d "username" v Hv), Hv.
  rewrite bool_decide_eq_true_2 by eauto. cbn [negb].
  destruct (outbound E (UsersGet _)) as [st tx js|]; cbn; [| done].
  destruct v; cbn; try done. by destruct (Hns s).
Qed.

(** X19.  POST /api/v1/rides/<ride_id> with a JSON object carrying a
    string [username].  Whether the user exists is decided by one thing
    only: the name occurring somewhere in the text of the Users service's
    reply, whatever the status of that reply.  The [join_ride] write is
    issued exactly in that case; otherwise the answer is 400 "User ... not
    found" and nothing is written.  After the write, 200 exactly when it
    was answered 200, else 500.  A [username] that is not a string gives
    500, not 400, after the one call to the Users service. *)
Theorem X19_join_ride req ride_id d E w :
  method req = POST -> path req = RidePath ride_id ->
  is_json req = true -> json_body req = Some (JObj d) ->
  let r := Rides.handle req E w in
  (forall u,
      d !! "username" = Some (JStr u) ->
      let ug := UsersGet (JObj {[ "username" := JStr u ]}) in
      let wr := DbWrite (JObj {[ "action" := JStr "join_ride";
                                 "ride_id" := JNum ride_id;
                                 "username" := JStr u ]}) in
      (forall st tx js,
          outbound E ug = Reply st tx js -> PyStr.contains u tx = false ->
          fst r = Ok (Response 400
                        (Failure ("User " +++ TVal (JStr u) +++ " not found") 400))
          /\ calls (snd r) = calls w ++ [ug])
      /\ (forall st tx js,
          outbound E ug = Reply st tx js -> PyStr.contains u tx = true ->
          calls (snd r) = calls w ++ [ug; wr]
          /\ (fst r = Ok (Response 200 (Success None (Some "Successfully joined ride")))
              <-> exists tx' js', outbound E wr = Reply 200 tx' js')
          /\ (fst r = Ok (Response 500 (Failure "Internal server error" 500))
              <-> ~ exists tx' js', outbound E wr = Reply 200 tx' js')))
  /\ (forall v,
      d !! "username" = Some v -> (forall u, v <> JStr u) ->
      fst r = Ok (Response 500 (Failure "Internal server error" 500))
      /\ calls (snd r) = calls w ++ [UsersGet (JObj {[ "username" := v ]})]).
Proof.
  intros Hm Hp Hj Hb r. subst r.
  rewrite (rides_handle_view req (join_ride ride_id req));
    [| done | unfold dispatch_request; by rewrite Hp, Hm
     | apply join_ride_never_raises].
  split.
  - intros u Hu ug wr.
    rewrite (join_ride_run ride_id req d u E _ Hj Hb Hu). fold ug wr.
    split.
    + intros st tx js -> ->. done.
    + intros st tx js -> ->.
      destruct (outbound E wr) as [st' tx' js'|] eqn:Hw.
      * destruct (Z.eqb_spec st' 200) as [-> | Hst]; cbn.
        -- split; [done |]. split; split; try done; [by eauto |].
           intros []. by eauto.
        -- split; [done |]. split; split; try done.
           ++ intros (tx'' & js'' & [= ? _ _]). done.
           ++ intros _ (tx'' & js'' & [= ? _ _]). done.
      * cbn. split; [done |]. split; split; try done.
        -- by intros (tx'' & js'' & ?).
        -- by intros _ (tx'' & js'' & ?).
  - intros v Hv Hns.
    by rewrite (join_ride_run_ill_typed ride_id req d v E _ Hj Hb Hv Hns).
Qed.

(** X19, witness: the Users service answers 500 with a page that happens
    to contain the name; the write goes out all the same *)
Lemma X19_join_ride_witness :
  let req := {| method := POST; path := RidePath 3; mimetype := "application/json";
                json_body := Some (JObj {[ "username" := JStr "bob" ]}); args := ∅ |} in
  let E := {| outbound := fun c =>
                match c with
                | UsersGet _ => Reply 500 "no such table: bob" None
                | _ => Reply 200 "{}" (Some (JObj ∅))
                end;
              VERSION := "1.0.0" |} in
  fst (Rides.handle req E Samples.w0)
  = Ok (Response 200 (Success None (Some "Successfully joined ride"))).
Proof.
  intros req E.
  pose proof (proj2 (proj1 (X19_join_ride req 3 {[ "username" := JStr "bob" ]} E Samples.w0
                              eq_refl eq_refl eq_refl eq_refl) "bob" eq_refl)
                    500%Z "no such table: bob" None eq_refl eq_refl) as (_ & H & _).
  apply (proj2 H). exists "{}", (Some (JObj ∅)). reflexivity.
Defined.

Lemma int_of_str_nonempty s a : PyStr.int_of_str s = Some a -> s <> EmptyString.
Proof. by intros H ->. Qed.

(** the GET view of the collection, once both parameters are there *)
Lemma list_upcoming_rides_run req s t E w :
  args req !! "source" = Some s -> args req !! "destination" = Some t ->
  s <> EmptyString -> t <> EmptyString ->
  let world c s f :=
    {| http_request_counter := http_request_counter w;
       metrics := {| total_requests := total_requests (metrics w) + 1;
                     successful_requests := successful_requests (metrics w) + s;
                     failed_requests := failed_requests (metrics w) + f |};
       calls := c |} in
  let e400 msg :=
    (Ok (create_error_response (TLit msg) 400), world (calls w) 0%Z 1%Z) in
  let e500 := create_error_response "Internal server error" 500 in
  list_upcoming_rides req E w =
  match PyStr.int_of_str s with
  | None => e400 "Source and destination must be valid integers"
  | Some a =>
      match PyStr.int_of_str t with
      | None => e400 "Source and destination must be valid integers"
      | Some b =>
          if negb (in_bounds a) then e400 "Source must be between 1 and 198"
          else if negb (in_bounds b) then e400 "Destination must be between 1 and 198"
          else
            let rd := DbRead (JObj (list_upcoming_body a b)) in
            match outbound E rd with
            | NoReply => (Ok e500, world (calls w ++ [rd]) 0 1)
            | Reply st _ js =>
                if (st =? 200)%Z then
                  match js with
                  | None => (Ok e500, world (calls w ++ [rd]) 0 1)
                  | Some rides =>
                      if negb (truthy rides) then
                        (Ok (create_response JNull EmptyString 204),
                         world (calls w ++ [rd]) 1 0)
                      else
                        match py_len rides with
                        | Raise _ => (Ok e500, world (calls w ++ [rd]) 0 1)
                        | Ok n =>
                            if (n =? 0)%Z then
                              (Ok (create_response JNull EmptyString 204),
                               world (calls w ++ [rd]) 1 0)
                            else
                              (Ok (create_response rides EmptyString 200),
                               world (calls w ++ [rd]) 1 0)
                        end
                  end
                else (Ok e500, world (calls w ++ [rd]) 0 1)
            end
      end
  end%Z.
Proof.
  intros Hs Ht Hse Hte. cbv zeta.
  unfold list_upcoming_rides, on_validation_error. unfold_monad.
  rewrite Hs, Ht. cbn [default from_option id]. cbv zeta. unfold id.
  replace (String.eqb s EmptyString) with false by (symmetry; by apply String.eqb_neq).
  replace (String.eqb t EmptyString) with false by (symmetry; by apply String.eqb_neq).
  cbn [orb].
  destruct (PyStr.int_of_str s) as [a|]; cbn -[list_upcoming_body in_bounds];
    [| by rewrite ?Z.add_0_r].
  destruct (PyStr.int_of_str t) as [b|]; cbn -[list_upcoming_body in_bounds];
    [| by rewrite ?Z.add_0_r].
  destruct (in_bounds a); cbn -[list_upcoming_body in_bounds]; [| by rewrite ?Z.add_0_r].
  destruct (in_bounds b); cbn -[list_upcoming_body in_bounds]; [| by rewrite ?Z.add_0_r].
  destruct (outbound E (DbRead _)) as [st tx js|]; cbn -[list_upcoming_body];
    [| by rewrite ?Z.add_0_r].
  destruct (st =? 200)%Z; cbn -[list_upcoming_body]; [| by rewrite ?Z.add_0_r].
  destruct js as [rides|]; cbn -[list_upcoming_body]; [| by rewrite ?Z.add_0_r].
  destruct rides; cbn -[list_upcoming_body truthy];
    repeat (branch; cbn -[list_upcoming_body truthy]); by rewrite ?Z.add_0_r.
Qed.

Lemma in_bounds_spec n : in_bounds n = true <-> (1 <= n <= 198)%Z.
Proof.
  unfold in_bounds. rewrite negb_true_iff, orb_false_iff, !Z.ltb_ge. lia.
Qed.

(** X20.  GET /api/v1/rides.  Without both query parameters, or with an
    empty one, the answer is 400 and no call is made.  With two
    parameters [int()] accepts, the database is read exactly when both
    values lie in 1..198, and the body carries the two integers printed
    afresh, not the parameters as they were typed; out of range, the
    answer is 400 without a call.  The database answering 200 with an
    empty list gives 204, with a list that is not empty 200 with the list
    as [data]. *)
Theorem X20_list_upcoming_rides req E w :
  method req = GET -> path req = RidesPath ->
  let r := Rides.handle req E w in
  ((args req !! "source" = None \/ args req !! "source" = Some EmptyString
    \/ args req !! "destination" = None
    \/ args req !! "destination" = Some EmptyString) ->
   fst r = Ok (Response 400
                 (Failure "Source and destination parameters are required" 400))
   /\ calls (snd r) = calls w)
  /\ (forall s t a b,
      args req !! "source" = Some s -> args req !! "destination" = Some t ->
      PyStr.int_of_str s = Some a -> PyStr.int_of_str t = Some b ->
      let rd := DbRead (JObj {[ "action" := JStr "list_upcoming_ride";
                                 "source" := JStr (pretty a);
                                 "destination" := JStr (pretty b) ]}) in
      ((1 <= a <= 198 /\ 1 <= b <= 198)%Z ->
       calls (snd r) = calls w ++ [rd]
       /\ (forall tx, outbound E rd = Reply 200 tx (Some (JArr [])) ->
                      fst r = Ok (Response 204 (Success None None)))
       /\ (forall tx x l, outbound E rd = Reply 200 tx (Some (JArr (x :: l))) ->
                          fst r = Ok (Response 200 (Success (Some (JArr (x :: l))) None))))
      /\ (~ (1 <= a <= 198 /\ 1 <= b <= 198)%Z ->
          calls (snd r) = calls w
          /\ exists msg, fst r = Ok (Response 400 (Failure msg 400)))).
Proof.
  intros Hm Hp r. subst r.
  rewrite (rides_handle_view req (list_upcoming_rides req));
    [| by rewrite Hm | unfold dispatch_request; by rewrite Hp, Hm
     | apply list_upcoming_rides_never_raises].
  split.
  - intros Hmiss.
    assert (String.eqb (default EmptyString (args req !! "source")) EmptyString
            || String.eqb (default EmptyString (args req !! "destination")) EmptyString
            = true) as Hreq.
    { destruct Hmiss as [-> | [-> | [-> | ->]]]; cbn; try done; apply orb_true_r. }
    unfold list_upcoming_rides, on_validation_error. unfold_monad.
    cbv zeta. rewrite Hreq. done.
  - intros s t a b Hs Ht Ha Hb rd.
    rewrite (list_upcoming_rides_run req s t E _ Hs Ht
               (int_of_str_nonempty s a Ha) (int_of_str_nonempty t b Hb)).
    rewrite Ha, Hb. cbv zeta.
    change (DbRead (JObj (list_upcoming_body a b))) with rd.
    split.
    + intros [Hia Hib]. apply in_bounds_spec in Hia as ->, Hib as ->. cbn [negb].
      split; [| split].
      * destruct (outbound E rd) as [st tx [rides|]|]; try done;
          destruct (st =? 200)%Z; try done.
        destruct (negb (truthy rides)); try done.
        destruct (py_len rides) as [n|]; try done. by destruct (n =? 0)%Z.
      * by intros tx ->.
      * by intros tx x l ->.
    + intros Hout.
      destruct (in_bounds a) eqn:Hia; cbn [negb]; [| by eauto].
      destruct (in_bounds b) eqn:Hib; cbn [negb]; [| by eauto].
      apply in_bounds_spec in Hia, Hib. tauto.
Qed.

(** X20, witness: [" +7 "] and ["1_0"] are sent on as 7 and 10 *)
Lemma X20_list_upcoming_rides_witness :
  let req := Samples.get_ _ RidesPath {[ "source" := " +7 "; "destination" := "1_0" ]} in
  calls (snd (Rides.handle req Samples.db_full Samples.w0))
  = [DbRead (JObj {[ "action" := JStr "list_upcoming_ride";
                     "source" := JStr "7"; "destination" := JStr "10" ]})]
  /\ fst (Rides.handle req Samples.db_full Samples.w0)
     = Ok (Response 204 (Success None None)).
Proof.
  intros req.
  pose proof (proj1 (proj2 (X20_list_upcoming_rides req Samples.db_full Samples.w0
                              eq_refl eq_refl)
                      " +7 " "1_0" 7%Z 10%Z eq_refl eq_refl eq_refl eq_refl)
                    ltac:(lia)) as (H1 & H2 & _).
  exact (conj H1 (H2 "[]" eq_refl)).
Defined.

End MoreRides2.
(* ================================================================== *)
(** * What every answer looks like, and what it depends on *)

Section AnswerShape.












End AnswerShape.
Section RidesCounter.
Import Rides.

Lemma rides_add_ride_counter req E w :
  http_request_counter (snd (add_ride req E w)) = http_request_counter w.
Proof.
  unfold add_ride, on_validation_error. unfold_monad.
  repeat (branch;
          cbn -[check_user_body create_ride_body not_in_text
                RideRequests.CreateRideRequests_init]);
    reflexivity.
Qed.

Lemma rides_list_upcoming_rides_counter req E w :
  http_request_counter (snd (list_upcoming_rides req E w)) = http_request_counter w.
Proof.
  unfold list_upcoming_rides, on_validation_error. unfold_monad.
  repeat (branch; cbn -[list_upcoming_body PyStr.int_of_str in_bounds truthy py_len]);
    reflexivity.
Qed.

Lemma rides_get_ride_counter ride_id E w :
  http_request_counter (snd (get_ride ride_id E w)) = http_request_counter w.
Proof.
  unfold get_ride, on_validation_error. unfold_monad.
  repeat (branch; cbn -[get_ride_body]); reflexivity.
Qed.

Lemma rides_get_ride_count_counter E w :
  http_request_counter (snd (get_ride_count E w)) = http_request_counter w.
Proof.
  unfold get_ride_count, on_exception. unfold_monad.
  repeat (branch; cbn); reflexivity.
Qed.

Lemma rides_join_ride_counter ride_id req E w :
  http_request_counter (snd (join_ride ride_id req E w)) = http_request_counter w.
Proof.
  unfold join_ride, on_validation_error. unfold_monad.
  repeat (branch; cbn -[py_in py_getitem not_in_text]); reflexivity.
Qed.

Lemma rides_delete_ride_counter ride_id E w :
  http_request_counter (snd (delete_ride ride_id E w)) = http_request_counter w.
Proof.
  unfold delete_ride, on_validation_error. unfold_monad.
  repeat (branch; cbn); reflexivity.
Qed.

(** X23.  The Rides service counts every inbound request once in
    [http_request_counter], whatever becomes of it: answered by a view,
    refused by [before_request], or matching no route.  The one request
    after which the counter is not one more than before is
    DELETE /api/v1/_count, which leaves it at 0 (its own arrival is
    counted, then wiped). *)
Theorem X23_rides_counter_counts_every_request req E w :
  http_request_counter (snd (Rides.handle req E w))
  = match path req, method req with
    | CountPath, DELETE => 0%Z
    | _, _ => (http_request_counter w + 1)%Z
    end.
Proof.
  destruct (Spec.rides_tracked req) eqn:Htr.
  - unfold Spec.rides_tracked in Htr.
    destruct (path req) eqn:Hp, (method req) eqn:Hm; try discriminate.
    + rewrite (rides_handle_view req (list_upcoming_rides req));
        [| by rewrite Hm | | apply list_upcoming_rides_never_raises];
        [| unfold dispatch_request; by rewrite Hp, Hm].
      apply rides_list_upcoming_rides_counter.
    + rewrite (rides_handle_view req (add_ride req));
        [| done | | apply add_ride_never_raises];
        [| unfold dispatch_request; by rewrite Hp, Hm].
      apply rides_add_ride_counter.
    + rewrite (rides_handle_view req (get_ride ride_id));
        [| by rewrite Hm | | apply get_ride_never_raises];
        [| unfold dispatch_request; by rewrite Hp, Hm].
      apply rides_get_ride_counter.
    + rewrite (rides_handle_view req (join_ride ride_id req));
        [| done | | apply join_ride_never_raises];
        [| unfold dispatch_request; by rewrite Hp, Hm].
      apply rides_join_ride_counter.
    + rewrite (rides_handle_view req (delete_ride ride_id));
        [| by rewrite Hm | | apply delete_ride_never_raises];
        [| unfold dispatch_request; by rewrite Hp, Hm].
      apply rides_delete_ride_counter.
    + rewrite (rides_handle_view req get_ride_count);
        [| by rewrite Hm | | apply get_ride_count_never_raises];
        [| unfold dispatch_request; by rewrite Hp, Hm].
      apply rides_get_ride_count_counter.
  - revert Htr. destruct req as [meth pth mt jb ar].
    unfold Spec.rides_tracked, Rides.handle, full_dispatch_request,
      Rides.before_request_handler, Rides.dispatch_request, handle_user_exception,
      validate_json_content_type.
    cbn [path method].
    destruct pth, meth; cbn; try discriminate; intros Htr; rewrite ?Htr;
      try reflexivity; destruct (is_json _); reflexivity.
Qed.

End RidesCounter.

Section Stateless.

Lemma users_add_user_same_run req E w w' : Shape.same_run (Users.add_user req) E w w'.
Proof.
  unfold Shape.same_run, Users.add_user. unfold_monad.
  repeat (branch; cbn -[Users.check_user_body Users.create_user_body]);
    (split; [reflexivity |]);
    first [ by exists []; rewrite !app_nil_r
          | eexists; rewrite <- ?app_assoc; split; reflexivity ].
Qed.

Lemma users_delete_user_same_run username E w w' :
  Shape.same_run (Users.delete_user username) E w w'.
Proof.
  unfold Shape.same_run, Users.delete_user. unfold_monad.
  repeat (branch; cbn -[Users.check_user_body]);
    (split; [reflexivity |]);
    first [ by exists []; rewrite !app_nil_r
          | eexists; rewrite <- ?app_assoc; split; reflexivity ].
Qed.

Lemma users_list_users_same_run E w w' : Shape.same_run Users.list_users E w w'.
Proof.
  unfold Shape.same_run, Users.list_users. unfold_monad.
  repeat (branch; cbn -[Users.list_users_body]);
    (split; [reflexivity |]);
    first [ by exists []; rewrite !app_nil_r
          | eexists; rewrite <- ?app_assoc; split; reflexivity ].
Qed.

(** X24.  Apart from GET /api/v1/_count and GET /metrics, which report
    the counters, no answer of the Users service depends on what the
    process has seen before: from any two states of the request counter
    and the metrics, the same request in the same surroundings gets the
    same answer and causes the same outbound calls in the same order. *)
Theorem X24_users_answers_ignore_state req E w w' :
  Shape.users_reads_state req = false -> Shape.same_run (Users.handle req) E w w'.
Proof.
  intros Hrd. destruct (Spec.users_tracked req) eqn:Htr.
  - unfold Spec.users_tracked in Htr. unfold Shape.same_run.
    destruct (path req) eqn:Hp, (method req) eqn:Hm; try discriminate.
    + rewrite !(users_handle_view req Users.list_users);
        try apply users_list_users_never_raises;
        try (unfold Users.dispatch_request; by rewrite Hp, Hm);
        try (by rewrite Hm; intros [|]).
      apply (users_list_users_same_run E (Spec.tick w) (Spec.tick w')).
    + rewrite !(users_handle_view req (Users.add_user req));
        try apply users_add_user_never_raises;
        try (unfold Users.dispatch_request; by rewrite Hp, Hm);
        try done.
      apply (users_add_user_same_run req E (Spec.tick w) (Spec.tick w')).
    + rewrite !(users_handle_view req (Users.delete_user username));
        try apply users_delete_user_never_raises;
        try (unfold Users.dispatch_request; by rewrite Hp, Hm);
        try (by rewrite Hm; intros [|]).
      apply (users_delete_user_same_run username E (Spec.tick w) (Spec.tick w')).
  - revert Hrd Htr. destruct req as [meth pth mt jb ar].
    unfold Shape.same_run, Shape.users_reads_state, Spec.users_tracked, Users.handle,
      full_dispatch_request, Users.before_request_handler, Users.dispatch_request,
      handle_user_exception, validate_json_content_type.
    cbn [path method].
    destruct pth, meth; cbn; try discriminate; intros _ Htr; rewrite ?Htr;
      try (split; [reflexivity | by exists []; rewrite !app_nil_r]);
      destruct (is_json _); (split; [reflexivity | by exists []; rewrite !app_nil_r]).
Qed.

(** X24, witness: the same deletion from two states *)
Lemma X24_users_answers_ignore_state_witness :
  let w1 := {| http_request_counter := 0;
               metrics := {| total_requests := 0; successful_requests := 0;
                             failed_requests := 0 |};
               calls := [] |} in
  let req := Samples.delete_ _ (Users.UserPath "alice") in
  fst (Users.handle req Samples.db_full Samples.w0)
  = fst (Users.handle req Samples.db_full w1).
Proof.
  intros w1 req.
  exact (proj1 (X24_users_answers_ignore_state req Samples.db_full Samples.w0 w1 eq_refl)).
Defined.

Lemma rides_add_ride_same_run req E w w' : Shape.same_run (Rides.add_ride req) E w w'.
Proof.
  unfold Shape.same_run, Rides.add_ride, Rides.on_validation_error. unfold_monad.
  repeat (branch;
          cbn -[Rides.check_user_body Rides.create_ride_body Rides.not_in_text
                RideRequests.CreateRideRequests_init]);
    (split; [reflexivity |]);
    first [ by exists []; rewrite !app_nil_r
          | eexists; rewrite <- ?app_assoc; split; reflexivity ].
Qed.

Lemma rides_list_upcoming_rides_same_run req E w w' :
  Shape.same_run (Rides.list_upcoming_rides req) E w w'.
Proof.
  unfold Shape.same_run, Rides.list_upcoming_rides, Rides.on_validation_error.
  unfold_monad.
  repeat (branch;
          cbn -[Rides.list_upcoming_body PyStr.int_of_str Rides.in_bounds truthy py_len]);
    (split; [reflexivity |]);
    first [ by exists []; rewrite !app_nil_r
          | eexists; rewrite <- ?app_assoc; split; reflexivity ].
Qed.

Lemma rides_get_ride_same_run ride_id E w w' :
  Shape.same_run (Rides.get_ride ride_id) E w w'.
Proof.
  unfold Shape.same_run, Rides.get_ride, Rides.on_validation_error. unfold_monad.
  repeat (branch; cbn -[Rides.get_ride_body]);
    (split; [reflexivity |]);
    first [ by exists []; rewrite !app_nil_r
          | eexists; rewrite <- ?app_assoc; split; reflexivity ].
Qed.

Lemma rides_get_ride_count_same_run E w w' : Shape.same_run Rides.get_ride_count E w w'.
Proof.
  unfold Shape.same_run, Rides.get_ride_count, Rides.on_exception. unfold_monad.
  repeat (branch; cbn);
    (split; [reflexivity |]);
    first [ by exists []; rewrite !app_nil_r
          | eexists; rewrite <- ?app_assoc; split; reflexivity ].
Qed.

Lemma rides_join_ride_same_run ride_id req E w w' :
  Shape.same_run (Rides.join_ride ride_id req) E w w'.
Proof.
  unfold Shape.same_run, Rides.join_ride, Rides.on_validation_error. unfold_monad.
  repeat (branch; cbn -[py_in py_getitem Rides.not_in_text]);
    (split; [reflexivity |]);
    first [ by exists []; rewrite !app_nil_r
          | eexists; rewrite <- ?app_assoc; split; reflexivity ].
Qed.

Lemma rides_delete_ride_same_run ride_id E w w' :
  Shape.same_run (Rides.delete_ride ride_id) E w w'.
Proof.
  unfold Shape.same_run, Rides.delete_ride, Rides.on_validation_error. unfold_monad.
  repeat (branch; cbn);
    (split; [reflexivity |]);
    first [ by exists []; rewrite !app_nil_r
          | eexists; rewrite <- ?app_assoc; split; reflexivity ].
Qed.

(** X25.  Apart from GET /api/v1/_count and GET /metrics, no answer of
    the Rides service depends on what the process has seen before: from
    any two states of the request counter and the metrics, the same
    request in the same surroundings gets the same answer and causes the
    same outbound calls in the same order. *)
Theorem X25_rides_answers_ignore_state req E w w' :
  Shape.rides_reads_state req = false -> Shape.same_run (Rides.handle req) E w w'.
Proof.
  intros Hrd. destruct (Spec.rides_tracked req) eqn:Htr.
  - unfold Spec.rides_tracked in Htr. unfold Shape.same_run.
    destruct (path req) eqn:Hp, (method req) eqn:Hm; try discriminate.
    + rewrite !(rides_handle_view req (Rides.list_upcoming_rides req));
        try apply list_upcoming_rides_never_raises;
        try (unfold Rides.dispatch_request; by rewrite Hp, Hm);
        try (by rewrite Hm).
      apply (rides_list_upcoming_rides_same_run req E (Spec.tick w) (Spec.tick w')).
    + rewrite !(rides_handle_view req (Rides.add_ride req));
        try apply add_ride_never_raises;
        try (unfold Rides.dispatch_request; by rewrite Hp, Hm);
        try done.
      apply (rides_add_ride_same_run req E (Spec.tick w) (Spec.tick w')).
    + rewrite !(rides_handle_view req (Rides.get_ride ride_id));
        try apply get_ride_never_raises;
        try (unfold Rides.dispatch_request; by rewrite Hp, Hm);
        try (by rewrite Hm).
      apply (rides_get_ride_same_run ride_id E (Spec.tick w) (Spec.tick w')).
    + rewrite !(rides_handle_view req (Rides.join_ride ride_id req));
        try apply join_ride_never_raises;
        try (unfold Rides.dispatch_request; by rewrite Hp, Hm);
        try done.
      apply (rides_join_ride_same_run ride_id req E (Spec.tick w) (Spec.tick w')).
    + rewrite !(rides_handle_view req (Rides.delete_ride ride_id));
        try apply delete_ride_never_raises;
        try (unfold Rides.dispatch_request; by rewrite Hp, Hm);
        try (by rewrite Hm).
      apply (rides_delete_ride_same_run ride_id E (Spec.tick w) (Spec.tick w')).
    + rewrite !(rides_handle_view req Rides.get_ride_count);
        try apply get_ride_count_never_raises;
        try (unfold Rides.dispatch_request; by rewrite Hp, Hm);
        try (by rewrite Hm).
      apply (rides_get_ride_count_same_run E (Spec.tick w) (Spec.tick w')).
  - revert Hrd Htr. destruct req as [meth pth mt jb ar].
    unfold Shape.same_run, Shape.rides_reads_state, Spec.rides_tracked, Rides.handle,
      full_dispatch_request, Rides.before_request_handler, Rides.dispatch_request,
      handle_user_exception, validate_json_content_type.
    cbn [path method].
    destruct pth, meth; cbn; try discriminate; intros _ Htr; rewrite ?Htr;
      try (split; [reflexivity | by exists []; rewrite !app_nil_r]);
      destruct (is_json _); (split; [reflexivity | by exists []; rewrite !app_nil_r]).
Qed.

(** X25, witness: the same lookup from two states *)
Lemma X25_rides_answers_ignore_state_witness :
  let w1 := {| http_request_counter := 0;
               metrics := {| total_requests := 0; successful_requests := 0;
                             failed_requests := 0 |};
               calls := [] |} in
  let req := Samples.get_ _ (Rides.RidePath 3) ∅ in
  fst (Rides.handle req Samples.db_full Samples.w0)
  = fst (Rides.handle req Samples.db_full w1).
Proof.
  intros w1 req.
  exact (proj1 (X25_rides_answers_ignore_state req Samples.db_full Samples.w0 w1 eq_refl)).
Defined.

End Stateless.
(* ================================================================== *)
(** * The timestamp sent to the database *)

Section DatetimeFacts.
Import Re Datetime.

Lemma between_cases (P : Z -> Prop) lo len :
  Forall P (seqZ lo len) -> forall d, (lo <= d < lo + len)%Z -> P d.
Proof.
  intros H d Hd. rewrite Forall_forall in H. apply H. apply elem_of_seqZ. lia.
Qed.

Lemma substring_0_0 s : substring 0 0 s = EmptyString.
Proof. by destruct s. Qed.

Lemma run_sep a R p rest g k x :
  run R (Cursor (S p) rest) g k = Some x ->
  run (Chr a >> R) (Cursor p (String a rest)) g k = Some x.
Proof. intros H. cbn [run]. unfold step. cbn [Re.rest pos]. by rewrite Ascii.eqb_refl. Qed.

(** each directive, on the two digits [strftime] writes for it *)
Lemma run_re_d R d rest g k x :
  (1 <= d <= 31)%Z ->
  run R (Cursor 2 rest) (("d", pad2 d) :: g) k = Some x ->
  run (re_d >> R) (Cursor 0 (pad2 d +:+ rest)) g k = Some x.
Proof.
  intros Hd. revert rest g k x.
  apply (between_cases
           (fun d => forall rest g k x,
                run R (Cursor 2 rest) (("d", pad2 d) :: g) k = Some x ->
                run (re_d >> R) (Cursor 0 (pad2 d +:+ rest)) g k = Some x) 1 31);
    [| lia].
  let l := eval vm_compute in (seqZ 1 31) in change (seqZ 1 31) with l.
  repeat apply List.Forall_cons; try apply List.Forall_nil.
  all: cbv beta.
  all: match goal with
       | |- context [pad2 ?n] =>
           let v := eval vm_compute in (pad2 n) in change (pad2 n) with v
       end.
  all: intros rest g k x Hk; rewrite !append_cons;
    change (EmptyString +:+ rest) with rest;
    unfold re_d, r; cbn;
    repeat (unfold step, PyStr.is_digit, PyStr.in_range, PyStr.code; cbn);
    rewrite ?substring_0_0; by rewrite Hk.
Qed.

Lemma run_re_m R m rest g k x :
  (1 <= m <= 12)%Z ->
  run R (Cursor 5 rest) (("m", pad2 m) :: g) k = Some x ->
  run (re_m >> R) (Cursor 3 (pad2 m +:+ rest)) g k = Some x.
Proof.
  intros Hm. revert rest g k x.
  apply (between_cases
           (fun m => forall rest g k x,
                run R (Cursor 5 rest) (("m", pad2 m) :: g) k = Some x ->
                run (re_m >> R) (Cursor 3 (pad2 m +:+ rest)) g k = Some x) 1 12);
    [| lia].
  let l := eval vm_compute in (seqZ 1 12) in change (seqZ 1 12) with l.
  repeat apply List.Forall_cons; try apply List.Forall_nil.
  all: cbv beta.
  all: match goal with
       | |- context [pad2 ?n] =>
           let v := eval vm_compute in (pad2 n) in change (pad2 n) with v
       end.
  all: intros rest g k x Hk; rewrite !append_cons;
    change (EmptyString +:+ rest) with rest;
    unfold re_m, r; cbn;
    repeat (unfold step, PyStr.is_digit, PyStr.in_range, PyStr.code; cbn);
    rewrite ?substring_0_0; by rewrite Hk.
Qed.

Lemma run_re_S R s rest g k x :
  (0 <= s <= 59)%Z ->
  run R (Cursor 13 rest) (("S", pad2 s) :: g) k = Some x ->
  run (re_S >> R) (Cursor 11 (pad2 s +:+ rest)) g k = Some x.
Proof.
  intros Hs. revert rest g k x.
  apply (between_cases
           (fun s => forall rest g k x,
                run R (Cursor 13 rest) (("S", pad2 s) :: g) k = Some x ->
                run (re_S >> R) (Cursor 11 (pad2 s +:+ rest)) g k = Some x) 0 60);
    [| lia].
  let l := eval vm_compute in (seqZ 0 60) in change (seqZ 0 60) with l.
  repeat apply List.Forall_cons; try apply List.Forall_nil.
  all: cbv beta.
  all: match goal with
       | |- context [pad2 ?n] =>
           let v := eval vm_compute in (pad2 n) in change (pad2 n) with v
       end.
  all: intros rest g k x Hk; rewrite !append_cons;
    change (EmptyString +:+ rest) with rest;
    unfold re_S, r; cbn;
    repeat (unfold step, PyStr.is_digit, PyStr.in_range, PyStr.code; cbn);
    rewrite ?substring_0_0; by rewrite Hk.
Qed.

Lemma run_re_M R m rest g k x :
  (0 <= m <= 59)%Z ->
  run R (Cursor 16 rest) (("M", pad2 m) :: g) k = Some x ->
  run (re_M >> R) (Cursor 14 (pad2 m +:+ rest)) g k = Some x.
Proof.
  intros Hm. revert rest g k x.
  apply (between_cases
           (fun m => forall rest g k x,
                run R (Cursor 16 rest) (("M", pad2 m) :: g) k = Some x ->
                run (re_M >> R) (Cursor 14 (pad2 m +:+ rest)) g k = Some x) 0 60);
    [| lia].
  let l := eval vm_compute in (seqZ 0 60) in change (seqZ 0 60) with l.
  repeat apply List.Forall_cons; try apply List.Forall_nil.
  all: cbv beta.
  all: match goal with
       | |- context [pad2 ?n] =>
           let v := eval vm_compute in (pad2 n) in change (pad2 n) with v
       end.
  all: intros rest g k x Hk; rewrite !append_cons;
    change (EmptyString +:+ rest) with rest;
    unfold re_M, r; cbn;
    repeat (unfold step, PyStr.is_digit, PyStr.in_range, PyStr.code; cbn);
    rewrite ?substring_0_0; by rewrite Hk.
Qed.

Lemma run_re_H h g :
  (0 <= h <= 23)%Z ->
  run re_H (Cursor 17 (pad2 h)) g accept
  = Some (Cursor 19 EmptyString, ("H", pad2 h) :: g).
Proof.
  intros Hh. revert g.
  apply (between_cases
           (fun h => forall g,
                run re_H (Cursor 17 (pad2 h)) g accept
                = Some (Cursor 19 EmptyString, ("H", pad2 h) :: g)) 0 24);
    [| lia].
  let l := eval vm_compute in (seqZ 0 24) in change (seqZ 0 24) with l.
  repeat apply List.Forall_cons; try apply List.Forall_nil.
  all: intros g; vm_compute; reflexivity.
Qed.

Lemma is_digit_digit_char d : PyStr.is_digit (digit_char d) = true.
Proof.
  unfold digit_char. pose proof (Z.mod_pos_bound d 10 ltac:(lia)) as Hb.
  revert Hb. generalize (d mod 10)%Z. intros m Hm.
  apply (between_cases
           (fun m => PyStr.is_digit (ascii_of_N (Z.to_N (48 + m))) = true) 0 10);
    [| lia].
  apply (bool_decide_unpack _). by vm_compute.
Qed.

Lemma run_re_Y R y rest g k x :
  run R (Cursor 10 rest) (("Y", pad4 y) :: g) k = Some x ->
  run (re_Y >> R) (Cursor 6 (pad4 y +:+ rest)) g k = Some x.
Proof.
  unfold pad4, pad2. rewrite !append_cons.
  change (EmptyString +:+ String (digit_char (y / 10)) (String (digit_char y) EmptyString))
    with (String (digit_char (y / 10)) (String (digit_char y) EmptyString)).
  rewrite !append_cons. change (EmptyString +:+ rest) with rest.
  intros Hk. unfold re_Y. cbn [run]. unfold step. cbn [Re.rest pos].
  rewrite !is_digit_digit_char. cbn [Nat.sub substring].
  by rewrite substring_0_0.
Qed.

Lemma int_of_str_pad2 n : (0 <= n < 100)%Z -> PyStr.int_of_str (pad2 n) = Some n.
Proof.
  apply (between_cases (fun n => PyStr.int_of_str (pad2 n) = Some n) 0 100).
  apply (bool_decide_unpack _). by vm_compute.
Qed.

Lemma int_of_str_pad4 n : (0 <= n < 10000)%Z -> PyStr.int_of_str (pad4 n) = Some n.
Proof.
  apply (between_cases (fun n => PyStr.int_of_str (pad4 n) = Some n) 0 10000).
  apply (bool_decide_unpack _). by vm_compute.
Qed.

Lemma days_in_month_le y m : (days_in_month y m <= 31)%Z.
Proof.
  unfold days_in_month. destruct (m =? 2)%Z; [by destruct (is_leap y) |].
  by case_bool_decide.
Qed.

(** what [strftime] writes, [strptime]'s pattern reads back field by field *)
Lemma match_strftime t :
  valid t = true ->
  match_ format_regex (strftime t)
  = Some (Cursor 19 EmptyString,
          [("H", pad2 (hour t)); ("M", pad2 (minute t)); ("S", pad2 (second t));
           ("Y", pad4 (year t)); ("m", pad2 (month t)); ("d", pad2 (day t))]).
Proof.
  unfold valid. rewrite !andb_true_iff, !Z.leb_le.
  intros [[[[[[[[[[[HY1 HY2] Hm1] Hm2] Hd1] Hd2] HH1] HH2] HM1] HM2] HS1] HS2].
  pose proof (days_in_month_le (year t) (month t)).
  unfold match_, run_at, strftime, format_regex. cbn [PyStr.drop].
  apply run_re_d; [lia |]. apply run_sep.
  apply run_re_m; [lia |]. apply run_sep.
  apply run_re_Y. apply run_sep.
  apply run_re_S; [lia |]. apply run_sep.
  apply run_re_M; [lia |]. apply run_sep.
  by apply run_re_H.
Qed.

(** X26.  The timestamp [add_ride] sends to the database is the parsed
    one printed again with [strftime]; read with [strptime] it gives the
    same instant.  For every date and time the [datetime] constructor
    accepts, from the year 1000 on (four digits without padding):
    [strptime(t.strftime(f), f) == t] for the format
    [f = "%d-%m-%Y:%S-%M-%H"], and the text is 19 characters long. *)
Theorem X26_strptime_strftime_roundtrip t :
  valid t = true -> (1000 <= year t)%Z ->
  strptime (strftime t) = Some t /\ String.length (strftime t) = 19.
Proof.
  intros Hv Hy. split; [| reflexivity].
  unfold strptime. rewrite (match_strftime t Hv).
  pose proof Hv as Hv'. unfold valid in Hv'.
  rewrite !andb_true_iff, !Z.leb_le in Hv'.
  destruct Hv' as [[[[[[[[[[[HY1 HY2] Hm1] Hm2] Hd1] Hd2] HH1] HH2] HM1] HM2] HS1] HS2].
  pose proof (days_in_month_le (year t) (month t)) as Hdim.
  cbn [mbind option_bind end_ fst pos].
  change (String.length (strftime t)) with 19.
  rewrite option_guard_True by done. cbn [mbind option_bind].
  unfold group. cbn [List.find snd fst String.eqb Ascii.eqb Bool.eqb andb].
  rewrite !int_of_str_pad2, int_of_str_pad4 by lia.
  cbn [mbind option_bind].
  destruct t as [Y m d H M S]. cbn [year month day hour minute second] in *.
  by rewrite option_guard_True.
Qed.

(** X26, witness: the last second of a leap day *)
Lemma X26_strptime_strftime_roundtrip_witness :
  let t := {| year := 2024; month := 2; day := 29;
              hour := 23; minute := 59; second := 59 |} in
  strftime t = "29-02-2024:59-59-23" /\ strptime "29-02-2024:59-59-23" = Some t.
Proof.
  intros t. split; [reflexivity |].
  exact (proj1 (X26_strptime_strftime_roundtrip t eq_refl ltac:(subst t; cbn; lia))).
Defined.

End DatetimeFacts.
Section MoreRides3.
Import RideRequests Rides.




(** X28.  The id check written out in the views [get_ride] and
    [delete_ride] is the check of [validate_ride_id], which neither view
    calls: the request is refused before any outbound call exactly when
    [validate_ride_id] raises on the id, and the 400 then carries that
    error's message; when [validate_ride_id] accepts the id, the view
    makes exactly one outbound call. *)
Theorem X28_ride_id_checked_like_validate_ride_id req ride_id E w :
  method req = GET \/ method req = DELETE -> path req = RidePath ride_id ->
  let r := Rides.handle req E w in
  match RidesValidators.validate_ride_id (JNum ride_id) with
  | Ok _ => exists c, calls (snd r) = calls w ++ [c]
  | Raise e =>
      fst r = Ok (create_error_response (str_exn e) 400) /\ calls (snd r) = calls w
  end.
Proof.
  intros Hm Hp r. subst r.
  unfold RidesValidators.validate_ride_id. cbn [RidesValidators.as_int].
  destruct Hm as [Hm | Hm].
  - rewrite (rides_handle_view req (get_ride ride_id));
      [| by rewrite Hm | unfold dispatch_request; by rewrite Hp, Hm
       | apply get_ride_never_raises].
    rewrite get_ride_run.
    destruct (ride_id <=? 0)%Z; [done |].
    destruct (outbound E _) as [st tx [v|]|]; try (by eexists);
      destruct (st =? 200)%Z; by eexists.
  - rewrite (rides_handle_view req (delete_ride ride_id));
      [| by rewrite Hm | unfold dispatch_request; by rewrite Hp, Hm
       | apply delete_ride_never_raises].
    rewrite delete_ride_run.
    destruct (ride_id <=? 0)%Z; [done |].
    destruct (outbound E _) as [st tx js|]; try (by eexists);
      destruct (st =? 200)%Z; by eexists.
Qed.

(** X28, witness: id 0, which the URL converter lets through *)
Lemma X28_ride_id_checked_like_validate_ride_id_witness :
  let r := Rides.handle (Samples.delete_ _ (RidePath 0)) Samples.db_full Samples.w0 in
  fst r = Ok (Response 400 (Failure "Ride ID must be a positive integer" 400))
  /\ calls (snd r) = [].
Proof.
  intros r.
  exact (X28_ride_id_checked_like_validate_ride_id (Samples.delete_ _ (RidePath 0)) 0
           Samples.db_full Samples.w0 (or_intror eq_refl) eq_refl).
Defined.

End MoreRides3.
